(** * Driver / truck / assignment management: model and verified properties

    Shallow embedding of the backend under [backend/app]:
    - [models/license_type.py]       ~> [LicenseType]
    - [models/{driver,truck,assignment}.py] ~> [Driver], [Truck], [Assignment]
    - [repositories/*_repository.py] ~> [Repository], [AssignmentRepository]
    - [exceptions/__init__.py]       ~> [Exception]
    - [services/*_service.py]        ~> [DriverService], [TruckService],
                                        [AssignmentService]
    - [dependencies.py]              ~> [World] (the three singleton stores)

    Entities are values in the first part, which is exact for callers that
    build an object per call, as the routes do.  [Shared] has the stores as
    the code has them, holding the caller's objects themselves; what is said
    of the [id] of an object stored by an earlier call is said there.

    Python integers are unbounded, hence [Z].  A Python [dict] keeps its keys
    in insertion order and the repositories iterate over [.values()], so a
    dictionary is an association list in insertion order. *)

From Stdlib Require Import ZArith List Lia.
From stdpp Require Import base tactics decidable option list sorting strings gmap.

Open Scope Z_scope.

(** ** Python dictionaries (insertion ordered) *)

Abbreviation dict K V := (list (K * V)).

Section pydict.
Context {K V : Type} `{EqDecision K}.
Implicit Types d : dict K V.

(** [d.get(k)]: the value bound to [k], [None] when the key is absent. *)
Fixpoint dict_get (k : K) d : option V :=
  match d with
  | [] => None
  | (k', v) :: d' => if decide (k' = k) then Some v else dict_get k d'
  end.

(** [k in d]. *)
Definition dict_contains (k : K) d : bool :=
  match dict_get k d with Some _ => true | None => false end.

(** [d[k] = v]: an existing key keeps its position, a new key goes last. *)
Fixpoint dict_set (k : K) (v : V) d : dict K V :=
  match d with
  | [] => [(k, v)]
  | (k', v') :: d' =>
      if decide (k' = k) then (k, v) :: d' else (k', v') :: dict_set k v d'
  end.

(** [del d[k]]. *)
Definition dict_del (k : K) d : dict K V :=
  filter (λ kv, kv.1 ≠ k) d.

(** [d.values()], [d.items()] and [d.keys()], in insertion order. *)
Definition dict_values d : list V := d.*2.
Definition dict_items d : list (K * V) := d.
Definition dict_keys d : list K := d.*1.
End pydict.

(** ** [models/license_type.py] *)

Module LicenseType.

Inductive t : Set := A | B | C | D | E.

#[global] Instance eq_dec : EqDecision t.
Proof. solve_decision. Defined.

(** The [str] value of each member of the enumeration. *)
Definition value (l : t) : string :=
  match l with
  | A => "A" | B => "B" | C => "C" | D => "D" | E => "E"
  end.

Definition get_license_hierarchy : dict string Z :=
  [ (value A, 1); (value B, 2); (value C, 3); (value D, 4); (value E, 5) ].

(** [hierarchy[k]] raises [KeyError] on a missing key: [None] here. *)
Definition can_operate (self required_license : t) : option bool :=
  let hierarchy := get_license_hierarchy in
  held ← dict_get (value self) hierarchy;
  needed ← dict_get (value required_license) hierarchy;
  Some (held >=? needed).

Definition get_compatible_licenses (self : t) : option (gset string) :=
  let hierarchy := get_license_hierarchy in
  current_level ← dict_get (value self) hierarchy;
  Some (list_to_set
          ((λ it, it.1) <$>
             filter (λ it, it.2 ≤ current_level) (dict_items hierarchy))).

(** The ranking as the specification words it: A=1, B=2, C=3, D=4, E=5. *)
Definition spec_rank (l : t) : Z :=
  match l with
  | A => 1 | B => 2 | C => 3 | D => 4 | E => 5
  end.

End LicenseType.

(** ** Domain entities *)

(** [datetime.date]: compared field by field. *)
Record date : Set := Date { year : Z; month : Z; day : Z }.

#[global] Instance date_eq_dec : EqDecision date.
Proof. solve_decision. Defined.

Module Driver.
Record t : Type := Build
  { id : option Z; name : string; license_type : LicenseType.t }.
End Driver.

Module Truck.
Record t : Type := Build
  { id : option Z; plate : string; minimum_license_type : LicenseType.t }.
End Truck.

Module Assignment.
Record t : Type := Build
  { id : option Z; driver_id : Z; truck_id : Z; assignment_date : date }.

#[global] Instance eq_dec : EqDecision t.
Proof. solve_decision. Defined.
End Assignment.

(** Every entity carries an [id : Optional[int]] that the repositories
    assign ([entity.id = ...]). *)
Class Entity (E : Type) : Type :=
  { get_id : E → option Z;
    set_id : option Z → E → E }.

#[global] Instance driver_entity : Entity Driver.t :=
  {| get_id := Driver.id;
     set_id := λ i d, Driver.Build i (Driver.name d) (Driver.license_type d) |}.

#[global] Instance truck_entity : Entity Truck.t :=
  {| get_id := Truck.id;
     set_id := λ i t,
       Truck.Build i (Truck.plate t) (Truck.minimum_license_type t) |}.

#[global] Instance assignment_entity : Entity Assignment.t :=
  {| get_id := Assignment.id;
     set_id := λ i a,
       Assignment.Build i (Assignment.driver_id a) (Assignment.truck_id a)
         (Assignment.assignment_date a) |}.

(** ** [repositories/*_repository.py]

    [DriverRepository], [TruckRepository] and [AssignmentRepository] are the
    same class up to the entity type and the name of the dictionary field
    ([_drivers], [_trucks], [_assignments]): one polymorphic definition, with
    [items] for that field.  A method is a function from the repository
    before the call to the returned value and the repository after it. *)

Module Repository.

Record t (E : Type) : Type := Build { items : dict Z E; next_id : Z }.
Arguments Build {E} _ _.
Arguments items {E} _.
Arguments next_id {E} _.

Section methods.
Context {E : Type} `{Entity E}.

(** [__init__] *)
Definition init : t E := {| items := []; next_id := 1 |}.

Definition create (entity : E) (self : t E) : E * t E :=
  let entity := set_id (Some (next_id self)) entity in
  let items' := dict_set (next_id self) entity (items self) in
  (entity, {| items := items'; next_id := next_id self + 1 |}).

Definition get_by_id (entity_id : Z) (self : t E) : option E :=
  dict_get entity_id (items self).

Definition get_all (self : t E) : list E :=
  dict_values (items self).

Definition update (entity_id : Z) (entity : E) (self : t E)
  : option E * t E :=
  if negb (dict_contains entity_id (items self)) then (None, self)
  else
    let entity := set_id (Some entity_id) entity in
    (Some entity,
     {| items := dict_set entity_id entity (items self);
        next_id := next_id self |}).

Definition delete (entity_id : Z) (self : t E) : bool * t E :=
  if dict_contains entity_id (items self)
  then (true, {| items := dict_del entity_id (items self);
                 next_id := next_id self |})
  else (false, self).

(** [exists] of the driver and truck repositories. *)
Definition exists_ (entity_id : Z) (self : t E) : bool :=
  dict_contains entity_id (items self).
End methods.

End Repository.

Abbreviation DriverRepository := (Repository.t Driver.t).
Abbreviation TruckRepository := (Repository.t Truck.t).

(** The queries that only the assignment repository has. *)
Module AssignmentRepository.

Abbreviation t := (Repository.t Assignment.t).

Definition find_by_driver_and_date (driver_id : Z) (assignment_date : date)
    (self : t) : option Assignment.t :=
  List.find
    (λ assignment,
       bool_decide (Assignment.driver_id assignment = driver_id)
       && bool_decide (Assignment.assignment_date assignment = assignment_date))
    (dict_values (Repository.items self)).

Definition find_by_truck_and_date (truck_id : Z) (assignment_date : date)
    (self : t) : option Assignment.t :=
  List.find
    (λ assignment,
       bool_decide (Assignment.truck_id assignment = truck_id)
       && bool_decide (Assignment.assignment_date assignment = assignment_date))
    (dict_values (Repository.items self)).

Definition find_by_date (assignment_date : date) (self : t)
    : list Assignment.t :=
  filter (λ assignment, Assignment.assignment_date assignment = assignment_date)
    (dict_values (Repository.items self)).

End AssignmentRepository.

(** ** [exceptions/__init__.py] *)

(** The two messages a [ConflictException] is raised with, by the values
    interpolated into them. *)
Inductive ConflictMessage : Type :=
  | DriverAlreadyAssigned (driver_id truck_id : Z) (assignment_date : date)
  | TruckAlreadyAssigned (truck_id driver_id : Z) (assignment_date : date).

(** [ValidationException] carries the two license values of its message;
    [KeyError] is the built-in raised by a failed [hierarchy[...]]. *)
Inductive Exception : Type :=
  | ResourceNotFoundException (resource_type : string) (resource_id : Z)
  | ValidationException (driver_license required_license : string)
  | ConflictException (message : ConflictMessage)
  | KeyError.

Definition status_code (e : Exception) : option Z :=
  match e with
  | ResourceNotFoundException _ _ => Some 404
  | ValidationException _ _ => Some 422
  | ConflictException _ => Some 409
  | KeyError => None
  end.

(** ** [dependencies.py]: the three singleton repositories *)

Record World : Type := MkWorld
  { driver_repository : DriverRepository;
    truck_repository : TruckRepository;
    assignment_repository : AssignmentRepository.t }.

Definition init_world : World :=
  {| driver_repository := Repository.init;
     truck_repository := Repository.init;
     assignment_repository := Repository.init |}.

(** ** Service methods: state and exceptions

    A service method runs against the stores and either returns a value or
    raises; in both cases the stores it leaves behind are part of the
    outcome. *)

Definition M (A : Type) : Type := World → (Exception + A) * World.

Definition ret {A} (a : A) : M A := λ w, (inr a, w).

Definition raise {A} (e : Exception) : M A := λ w, (inl e, w).

Definition bind {A B} (m : M A) (k : A → M B) : M B :=
  λ w, match m w with
       | (inl e, w') => (inl e, w')
       | (inr a, w') => k a w'
       end.

Notation "'do' x <- m ; k" := (bind m (λ x, k))
  (at level 10, x name, m at level 99, k at level 200).
Notation "'run' m ; k" := (bind m (λ _, k))
  (at level 10, m at level 99, k at level 200).

(** Calling a method of one of the three repositories. *)
Definition on_drivers {A} (f : DriverRepository → A * DriverRepository) : M A :=
  λ w, let (a, r) := f (driver_repository w) in
       (inr a, MkWorld r (truck_repository w) (assignment_repository w)).

Definition on_trucks {A} (f : TruckRepository → A * TruckRepository) : M A :=
  λ w, let (a, r) := f (truck_repository w) in
       (inr a, MkWorld (driver_repository w) r (assignment_repository w)).

Definition on_assignments {A}
    (f : AssignmentRepository.t → A * AssignmentRepository.t) : M A :=
  λ w, let (a, r) := f (assignment_repository w) in
       (inr a, MkWorld (driver_repository w) (truck_repository w) r).

(** A query method reads the repository and leaves it as it is. *)
Definition query {R A} (f : R → A) : R → A * R := λ r, (f r, r).

(** ** [services/driver_service.py] *)

Module DriverService.

Definition create_driver (driver : Driver.t) : M Driver.t :=
  on_drivers (Repository.create driver).

Definition get_driver (driver_id : Z) : M Driver.t :=
  do driver <- on_drivers (query (Repository.get_by_id driver_id));
  match driver with
  | None => raise (ResourceNotFoundException "Driver" driver_id)
  | Some driver => ret driver
  end.

Definition get_all_drivers : M (list Driver.t) :=
  on_drivers (query Repository.get_all).

Definition update_driver (driver_id : Z) (driver : Driver.t) : M Driver.t :=
  do updated_driver <- on_drivers (Repository.update driver_id driver);
  match updated_driver with
  | None => raise (ResourceNotFoundException "Driver" driver_id)
  | Some updated_driver => ret updated_driver
  end.

Definition delete_driver (driver_id : Z) : M unit :=
  do deleted <- on_drivers (Repository.delete driver_id);
  if negb deleted then raise (ResourceNotFoundException "Driver" driver_id)
  else ret tt.

End DriverService.

(** ** [services/truck_service.py] *)

Module TruckService.

Definition create_truck (truck : Truck.t) : M Truck.t :=
  on_trucks (Repository.create truck).

Definition get_truck (truck_id : Z) : M Truck.t :=
  do truck <- on_trucks (query (Repository.get_by_id truck_id));
  match truck with
  | None => raise (ResourceNotFoundException "Truck" truck_id)
  | Some truck => ret truck
  end.

Definition get_all_trucks : M (list Truck.t) :=
  on_trucks (query Repository.get_all).

Definition update_truck (truck_id : Z) (truck : Truck.t) : M Truck.t :=
  do updated_truck <- on_trucks (Repository.update truck_id truck);
  match updated_truck with
  | None => raise (ResourceNotFoundException "Truck" truck_id)
  | Some updated_truck => ret updated_truck
  end.

Definition delete_truck (truck_id : Z) : M unit :=
  do deleted <- on_trucks (Repository.delete truck_id);
  if negb deleted then raise (ResourceNotFoundException "Truck" truck_id)
  else ret tt.

End TruckService.

(** ** [services/assignment_service.py] *)

Module AssignmentService.

Definition _validate_license_compatibility
    (driver_license required_license : LicenseType.t) : M unit :=
  match LicenseType.can_operate driver_license required_license with
  | None => raise KeyError
  | Some ok =>
      if negb ok
      then raise (ValidationException (LicenseType.value driver_license)
                    (LicenseType.value required_license))
      else ret tt
  end.

(** [exclude_assignment_id] defaults to [None]; [existing.id] is an
    [Optional[int]], so [!=] compares two optional integers. *)
Definition _check_driver_availability (driver_id : Z) (assignment_date : date)
    (exclude_assignment_id : option Z) : M unit :=
  do existing <- on_assignments
    (query (AssignmentRepository.find_by_driver_and_date driver_id assignment_date));
  match existing with
  | Some existing =>
      if bool_decide (Assignment.id existing ≠ exclude_assignment_id)
      then raise (ConflictException
                    (DriverAlreadyAssigned driver_id
                       (Assignment.truck_id existing) assignment_date))
      else ret tt
  | None => ret tt
  end.

Definition _check_truck_availability (truck_id : Z) (assignment_date : date)
    (exclude_assignment_id : option Z) : M unit :=
  do existing <- on_assignments
    (query (AssignmentRepository.find_by_truck_and_date truck_id assignment_date));
  match existing with
  | Some existing =>
      if bool_decide (Assignment.id existing ≠ exclude_assignment_id)
      then raise (ConflictException
                    (TruckAlreadyAssigned truck_id
                       (Assignment.driver_id existing) assignment_date))
      else ret tt
  | None => ret tt
  end.

Definition create_assignment (assignment : Assignment.t) : M Assignment.t :=
  do driver <- on_drivers
    (query (Repository.get_by_id (Assignment.driver_id assignment)));
  match driver with
  | None =>
      raise (ResourceNotFoundException "Driver" (Assignment.driver_id assignment))
  | Some driver =>
  do truck <- on_trucks
    (query (Repository.get_by_id (Assignment.truck_id assignment)));
  match truck with
  | None =>
      raise (ResourceNotFoundException "Truck" (Assignment.truck_id assignment))
  | Some truck =>
  run _validate_license_compatibility
        (Driver.license_type driver) (Truck.minimum_license_type truck);
  run _check_driver_availability
        (Assignment.driver_id assignment) (Assignment.assignment_date assignment)
        None;
  run _check_truck_availability
        (Assignment.truck_id assignment) (Assignment.assignment_date assignment)
        None;
  on_assignments (Repository.create assignment)
  end end.

Definition get_assignment (assignment_id : Z) : M Assignment.t :=
  do assignment <- on_assignments (query (Repository.get_by_id assignment_id));
  match assignment with
  | None => raise (ResourceNotFoundException "Assignment" assignment_id)
  | Some assignment => ret assignment
  end.

Definition get_all_assignments : M (list Assignment.t) :=
  on_assignments (query Repository.get_all).

Definition get_assignments_by_date (assignment_date : date)
    : M (list Assignment.t) :=
  on_assignments (query (AssignmentRepository.find_by_date assignment_date)).

(** The value returned is that of the repository's [update], an
    [Optional[Assignment]]. *)
Definition update_assignment (assignment_id : Z) (assignment : Assignment.t)
    : M (option Assignment.t) :=
  do existing_assignment <- on_assignments
    (query (Repository.get_by_id assignment_id));
  match existing_assignment with
  | None => raise (ResourceNotFoundException "Assignment" assignment_id)
  | Some _ =>
  do driver <- on_drivers
    (query (Repository.get_by_id (Assignment.driver_id assignment)));
  match driver with
  | None =>
      raise (ResourceNotFoundException "Driver" (Assignment.driver_id assignment))
  | Some driver =>
  do truck <- on_trucks
    (query (Repository.get_by_id (Assignment.truck_id assignment)));
  match truck with
  | None =>
      raise (ResourceNotFoundException "Truck" (Assignment.truck_id assignment))
  | Some truck =>
  run _validate_license_compatibility
        (Driver.license_type driver) (Truck.minimum_license_type truck);
  run _check_driver_availability
        (Assignment.driver_id assignment) (Assignment.assignment_date assignment)
        (Some assignment_id);
  run _check_truck_availability
        (Assignment.truck_id assignment) (Assignment.assignment_date assignment)
        (Some assignment_id);
  on_assignments (Repository.update assignment_id assignment)
  end end end.

Definition delete_assignment (assignment_id : Z) : M unit :=
  do deleted <- on_assignments (Repository.delete assignment_id);
  if negb deleted
  then raise (ResourceNotFoundException "Assignment" assignment_id)
  else ret tt.

End AssignmentService.

(** ** Calls that change the stores, and the states they reach

    The callers of the services ([routes/*.py], the tests) build a new
    entity object for every call, so a stored object is referenced by its
    store alone and entities are values here.  A [Call] is one call of a
    mutating service method on such an object; whatever [id] the object
    carries is overwritten by the repository.  Calls that are given an
    object a second time are those of [Shared.Call]. *)

Inductive Call : Type :=
  | CreateDriver (driver : Driver.t)
  | UpdateDriver (driver_id : Z) (driver : Driver.t)
  | DeleteDriver (driver_id : Z)
  | CreateTruck (truck : Truck.t)
  | UpdateTruck (truck_id : Z) (truck : Truck.t)
  | DeleteTruck (truck_id : Z)
  | CreateAssignment (assignment : Assignment.t)
  | UpdateAssignment (assignment_id : Z) (assignment : Assignment.t)
  | DeleteAssignment (assignment_id : Z).

(** The stores after the call, whether it returned or raised. *)
Definition perform (c : Call) (w : World) : World :=
  match c with
  | CreateDriver d => (DriverService.create_driver d w).2
  | UpdateDriver i d => (DriverService.update_driver i d w).2
  | DeleteDriver i => (DriverService.delete_driver i w).2
  | CreateTruck t => (TruckService.create_truck t w).2
  | UpdateTruck i t => (TruckService.update_truck i t w).2
  | DeleteTruck i => (TruckService.delete_truck i w).2
  | CreateAssignment a => (AssignmentService.create_assignment a w).2
  | UpdateAssignment i a => (AssignmentService.update_assignment i a w).2
  | DeleteAssignment i => (AssignmentService.delete_assignment i w).2
  end.

Definition perform_all (cs : list Call) (w : World) : World :=
  foldl (λ w c, perform c w) w cs.

Inductive reachable : World → Prop :=
  | reachable_init : reachable init_world
  | reachable_step c w : reachable w → reachable (perform c w).

(** * Statements

    Definitions used to state the properties proved below. *)

(** Reading back the [id] that was just assigned. *)
Class EntityLaws (E : Type) `{Entity E} : Prop :=
  get_set_id : ∀ (i : option Z) (e : E), get_id (set_id i e) = i.

(** A call of one of the three mutating methods of a repository. *)
Inductive RepositoryCall (E : Type) : Type :=
  | RepoCreate (entity : E)
  | RepoUpdate (entity_id : Z) (entity : E)
  | RepoDelete (entity_id : Z).
Arguments RepoCreate {E} _.
Arguments RepoUpdate {E} _ _.
Arguments RepoDelete {E} _.

(** The [id]s of the entities returned by the [create]s of a sequence of
    calls, in call order. *)
Fixpoint created_ids {E} `{Entity E}
    (calls : list (RepositoryCall E)) (self : Repository.t E) : list (option Z) :=
  match calls with
  | [] => []
  | RepoCreate entity :: calls =>
      let (created, self) := Repository.create entity self in
      get_id created :: created_ids calls self
  | RepoUpdate entity_id entity :: calls =>
      created_ids calls (Repository.update entity_id entity self).2
  | RepoDelete entity_id :: calls =>
      created_ids calls (Repository.delete entity_id self).2
  end.

(** Ids are handed out as 1, 2, 3, ... whatever updates and deletions come
    in between; creating, deleting what was created and creating again
    yields two consecutive ids. *)
Definition ids_sequential (E : Type) `{Entity E} : Prop :=
  (∀ calls : list (RepositoryCall E),
      created_ids calls Repository.init
      = Some <$> seqZ 1 (Z.of_nat (length (created_ids calls Repository.init))))
  ∧ (∀ (self : Repository.t E) (a b : E),
        let (created_a, self1) := Repository.create a self in
        let (deleted, self2) := Repository.delete (Repository.next_id self) self1 in
        let (created_b, self3) := Repository.create b self2 in
        get_id created_a = Some (Repository.next_id self)
        ∧ deleted = true
        ∧ get_id created_b = Some (Repository.next_id self + 1))
  ∧ (∀ a b : E,
        let (created_a, self1) := Repository.create a Repository.init in
        let (deleted, self2) := Repository.delete 1 self1 in
        let (created_b, self3) := Repository.create b self2 in
        get_id created_a = Some 1 ∧ deleted = true ∧ get_id created_b = Some 2).

(** ** Well-formed stores *)

(** The dictionary has one entry per key, the counter is positive, every
    stored entity carries the key it is stored under as its [id], and every
    key is positive and below the counter. *)
Definition repository_wf {E} `{Entity E} (self : Repository.t E) : Prop :=
  NoDup (dict_keys (Repository.items self))
  ∧ 0 < Repository.next_id self
  ∧ ∀ k e, (k, e) ∈ dict_items (Repository.items self) →
           get_id e = Some k ∧ 0 < k < Repository.next_id self.

(** On every date a driver occurs in at most one stored assignment, and so
    does a truck. *)
Definition no_double_booking (self : AssignmentRepository.t) : Prop :=
  ∀ (d : date) (i : Z),
    (length (filter (λ a, Assignment.driver_id a = i
                          ∧ Assignment.assignment_date a = d)
               (Repository.get_all self)) ≤ 1)%nat
    ∧ (length (filter (λ a, Assignment.truck_id a = i
                            ∧ Assignment.assignment_date a = d)
                 (Repository.get_all self)) ≤ 1)%nat.

(** The same, by keys: two stored assignments for one driver, or for one
    truck, on one date are one entry. *)
Definition bookings_unique (self : AssignmentRepository.t) : Prop :=
  ∀ k1 k2 a1 a2,
    dict_get k1 (Repository.items self) = Some a1 →
    dict_get k2 (Repository.items self) = Some a2 →
    Assignment.assignment_date a1 = Assignment.assignment_date a2 →
    Assignment.driver_id a1 = Assignment.driver_id a2
    ∨ Assignment.truck_id a1 = Assignment.truck_id a2 →
    k1 = k2.

Definition world_inv (w : World) : Prop :=
  repository_wf (driver_repository w)
  ∧ repository_wf (truck_repository w)
  ∧ repository_wf (assignment_repository w)
  ∧ bookings_unique (assignment_repository w).

(** ** A small scenario

    One driver holding D, one truck requiring C and one assignment of the
    two, as in [tests/test_assignment_service.py]. *)

Definition example_date : date := Date 2025 11 10.

Definition example_driver : Driver.t :=
  Driver.Build None "John Doe" LicenseType.D.

Definition example_truck : Truck.t :=
  Truck.Build None "ABC-1234" LicenseType.C.

Definition example_assignment : Assignment.t :=
  Assignment.Build None 1 1 example_date.

Definition example_calls : list Call :=
  [ CreateDriver example_driver;
    CreateTruck example_truck;
    CreateAssignment example_assignment ].

Definition example_world : World := perform_all example_calls init_world.

(** ** Steps of one repository *)

(** What a call can do to one repository: nothing, or one of its three
    mutating methods. *)
Inductive repo_step {E} `{Entity E} (self : Repository.t E)
    : Repository.t E → Prop :=
  | repo_step_none : repo_step self self
  | repo_step_create entity :
      repo_step self (Repository.create entity self).2
  | repo_step_update entity_id entity :
      repo_step self (Repository.update entity_id entity self).2
  | repo_step_delete entity_id :
      repo_step self (Repository.delete entity_id self).2.

(** ** [routes/assignment_routes.py] and [schemas/assignment_schema.py]

    A route function builds the entity from the request, calls the service
    and builds the response.  Building an [Assignment] checks
    [Field(gt=0)] on both ids, and building an [AssignmentResponse] needs an
    integer [id]; either failing is a pydantic [ValidationError].  Reading
    [.id] of the [None] that [update] may return would be an
    [AttributeError].  The request is the object FastAPI has parsed. *)

Module AssignmentRoutes.

Record AssignmentCreateRequest : Type := BuildCreateRequest
  { create_driver_id : Z; create_truck_id : Z; create_assignment_date : date }.

Record AssignmentUpdateRequest : Type := BuildUpdateRequest
  { update_driver_id : Z; update_truck_id : Z; update_assignment_date : date }.

Record AssignmentResponse : Type := BuildResponse
  { id : Z; driver_id : Z; truck_id : Z; assignment_date : date }.

(** What a route function can raise: what the service raised, or one of
    the two errors above. *)
Inductive RouteException : Type :=
  | ServiceException (e : Exception)
  | ValidationError
  | AttributeError.

Definition R (A : Type) : Type := World → (RouteException + A) * World.

(** [Assignment(driver_id=..., truck_id=..., assignment_date=...)] *)
Definition new_Assignment (driver_id truck_id : Z) (assignment_date : date)
    : option Assignment.t :=
  if bool_decide (driver_id > 0) && bool_decide (truck_id > 0)
  then Some (Assignment.Build None driver_id truck_id assignment_date)
  else None.

(** [AssignmentResponse(id=a.id, driver_id=a.driver_id, ...)] *)
Definition new_AssignmentResponse (a : Assignment.t) : option AssignmentResponse :=
  match Assignment.id a with
  | Some i =>
      Some (BuildResponse i (Assignment.driver_id a) (Assignment.truck_id a)
              (Assignment.assignment_date a))
  | None => None
  end.

Definition respond (a : Assignment.t) : R AssignmentResponse :=
  λ w, match new_AssignmentResponse a with
       | Some response => (inr response, w)
       | None => (inl ValidationError, w)
       end.

Definition create_assignment (request : AssignmentCreateRequest)
    : R AssignmentResponse :=
  λ w,
    match new_Assignment (create_driver_id request) (create_truck_id request)
            (create_assignment_date request) with
    | None => (inl ValidationError, w)
    | Some assignment =>
        match AssignmentService.create_assignment assignment w with
        | (inl e, w') => (inl (ServiceException e), w')
        | (inr created_assignment, w') => respond created_assignment w'
        end
    end.

(** [assignment_date] is the optional query parameter; a date is always
    truthy, so [if assignment_date] asks whether it was given. *)
Definition get_assignments (assignment_date : option date)
    : R (list AssignmentResponse) :=
  λ w,
    let (result, w') :=
      match assignment_date with
      | Some d => AssignmentService.get_assignments_by_date d w
      | None => AssignmentService.get_all_assignments w
      end in
    match result with
    | inl e => (inl (ServiceException e), w')
    | inr assignments =>
        match mapM new_AssignmentResponse assignments with
        | Some responses => (inr responses, w')
        | None => (inl ValidationError, w')
        end
    end.

Definition get_assignment (assignment_id : Z) : R AssignmentResponse :=
  λ w,
    match AssignmentService.get_assignment assignment_id w with
    | (inl e, w') => (inl (ServiceException e), w')
    | (inr assignment, w') => respond assignment w'
    end.

Definition update_assignment (assignment_id : Z)
    (request : AssignmentUpdateRequest) : R AssignmentResponse :=
  λ w,
    match new_Assignment (update_driver_id request) (update_truck_id request)
            (update_assignment_date request) with
    | None => (inl ValidationError, w)
    | Some assignment =>
        match AssignmentService.update_assignment assignment_id assignment w with
        | (inl e, w') => (inl (ServiceException e), w')
        | (inr None, w') => (inl AttributeError, w')
        | (inr (Some updated_assignment), w') => respond updated_assignment w'
        end
    end.

Definition delete_assignment (assignment_id : Z) : R unit :=
  λ w,
    match AssignmentService.delete_assignment assignment_id w with
    | (inl e, w') => (inl (ServiceException e), w')
    | (inr _, w') => (inr tt, w')
    end.

End AssignmentRoutes.

(** ** The stores with objects by reference

    A repository does not copy what it is handed: [create] and [update]
    assign [.id] on the caller's object and put that same object in the
    dictionary.  Here an object is an address into the list of all objects
    of its class, the dictionaries hold addresses, and a call is given either
    an object built for it or one that exists already (returned by an
    earlier call, or passed before).  The only assignments to a field of an
    entity in [backend/app] are those of [.id] in [create] and [update], so
    the other fields of an object never change. *)

Module Shared.

Abbreviation ref := nat.

(** What a lookup at an address that holds nothing reads; stored addresses
    hold an object in every reachable state ([ids_set]). *)
#[global] Instance driver_inhabited : Inhabited Driver.t :=
  populate (Driver.Build None "" LicenseType.A).
#[global] Instance truck_inhabited : Inhabited Truck.t :=
  populate (Truck.Build None "" LicenseType.A).
#[global] Instance assignment_inhabited : Inhabited Assignment.t :=
  populate (Assignment.Build None 0 0 (Date 0 0 0)).

(** [repositories/*_repository.py], the dictionary holding the objects
    themselves.  A mutating method works on the objects of the class and on
    the repository. *)
Module Repository.

Record t : Type := Build { items : dict Z ref; next_id : Z }.

Definition init : t := {| items := []; next_id := 1 |}.

Section methods.
Context {E : Type} `{Entity E}.

Definition create (entity : ref) (s : list E * t) : ref * (list E * t) :=
  let (objects, self) := s in
  let objects := alter (set_id (Some (next_id self))) entity objects in
  let items' := dict_set (next_id self) entity (items self) in
  (entity, (objects, {| items := items'; next_id := next_id self + 1 |})).

Definition get_by_id (entity_id : Z) (self : t) : option ref :=
  dict_get entity_id (items self).

Definition get_all (self : t) : list ref :=
  dict_values (items self).

Definition update (entity_id : Z) (entity : ref) (s : list E * t)
  : option ref * (list E * t) :=
  let (objects, self) := s in
  if negb (dict_contains entity_id (items self)) then (None, s)
  else
    let objects := alter (set_id (Some entity_id)) entity objects in
    (Some entity,
     (objects,
      {| items := dict_set entity_id entity (items self);
         next_id := next_id self |})).

Definition delete (entity_id : Z) (self : t) : bool * t :=
  if dict_contains entity_id (items self)
  then (true, {| items := dict_del entity_id (items self);
                 next_id := next_id self |})
  else (false, self).
End methods.

End Repository.

Module AssignmentRepository.

Definition find_by_driver_and_date (driver_id : Z) (assignment_date : date)
    (objects : list Assignment.t) (self : Repository.t) : option ref :=
  List.find
    (λ assignment,
       bool_decide (Assignment.driver_id (objects !!! assignment) = driver_id)
       && bool_decide (Assignment.assignment_date (objects !!! assignment)
                       = assignment_date))
    (dict_values (Repository.items self)).

Definition find_by_truck_and_date (truck_id : Z) (assignment_date : date)
    (objects : list Assignment.t) (self : Repository.t) : option ref :=
  List.find
    (λ assignment,
       bool_decide (Assignment.truck_id (objects !!! assignment) = truck_id)
       && bool_decide (Assignment.assignment_date (objects !!! assignment)
                       = assignment_date))
    (dict_values (Repository.items self)).

End AssignmentRepository.

(** The objects of the three classes and the three singleton repositories. *)
Record World : Type := MkWorld
  { drivers : list Driver.t;
    trucks : list Truck.t;
    assignments : list Assignment.t;
    driver_repository : Repository.t;
    truck_repository : Repository.t;
    assignment_repository : Repository.t }.

Definition init_world : World :=
  MkWorld [] [] [] Repository.init Repository.init Repository.init.

Definition M (A : Type) : Type := World → (Exception + A) * World.

Definition ret {A} (a : A) : M A := λ w, (inr a, w).

Definition raise {A} (e : Exception) : M A := λ w, (inl e, w).

Definition bind {A B} (m : M A) (k : A → M B) : M B :=
  λ w, match m w with
       | (inl e, w') => (inl e, w')
       | (inr a, w') => k a w'
       end.

Definition on_drivers {A}
    (f : list Driver.t * Repository.t → A * (list Driver.t * Repository.t))
    : M A :=
  λ w, let '(a, (objects, self)) := f (drivers w, driver_repository w) in
       (inr a,
        MkWorld objects (trucks w) (assignments w)
          self (truck_repository w) (assignment_repository w)).

Definition on_trucks {A}
    (f : list Truck.t * Repository.t → A * (list Truck.t * Repository.t))
    : M A :=
  λ w, let '(a, (objects, self)) := f (trucks w, truck_repository w) in
       (inr a,
        MkWorld (drivers w) objects (assignments w)
          (driver_repository w) self (assignment_repository w)).

Definition on_assignments {A}
    (f : list Assignment.t * Repository.t
         → A * (list Assignment.t * Repository.t)) : M A :=
  λ w, let '(a, (objects, self)) := f (assignments w, assignment_repository w) in
       (inr a,
        MkWorld (drivers w) (trucks w) objects
          (driver_repository w) (truck_repository w) self).

(** A method that only reads or only changes the dictionary. *)
Definition query {E A} (f : Repository.t → A)
    : list E * Repository.t → A * (list E * Repository.t) :=
  λ s, (f s.2, s).

Definition on_dict {E A} (f : Repository.t → A * Repository.t)
    : list E * Repository.t → A * (list E * Repository.t) :=
  λ s, let (a, self) := f s.2 in (a, (s.1, self)).

(** Reading a field of an object. *)
Definition the_driver (driver : ref) (w : World) : Driver.t :=
  drivers w !!! driver.
Definition the_truck (truck : ref) (w : World) : Truck.t :=
  trucks w !!! truck.
Definition the_assignment (assignment : ref) (w : World) : Assignment.t :=
  assignments w !!! assignment.

Module DriverService.

Definition create_driver (driver : ref) : M ref :=
  on_drivers (Repository.create driver).

Definition get_driver (driver_id : Z) : M ref :=
  bind (on_drivers (query (Repository.get_by_id driver_id)))
    (λ driver,
     match driver with
     | None => raise (ResourceNotFoundException "Driver" driver_id)
     | Some driver => ret driver
     end).

Definition get_all_drivers : M (list ref) :=
  on_drivers (query Repository.get_all).

Definition update_driver (driver_id : Z) (driver : ref) : M ref :=
  bind (on_drivers (Repository.update driver_id driver))
    (λ updated_driver,
     match updated_driver with
     | None => raise (ResourceNotFoundException "Driver" driver_id)
     | Some updated_driver => ret updated_driver
     end).

Definition delete_driver (driver_id : Z) : M unit :=
  bind (on_drivers (on_dict (Repository.delete driver_id)))
    (λ deleted,
     if negb deleted then raise (ResourceNotFoundException "Driver" driver_id)
     else ret tt).

End DriverService.

Module TruckService.

Definition create_truck (truck : ref) : M ref :=
  on_trucks (Repository.create truck).

Definition get_truck (truck_id : Z) : M ref :=
  bind (on_trucks (query (Repository.get_by_id truck_id)))
    (λ truck,
     match truck with
     | None => raise (ResourceNotFoundException "Truck" truck_id)
     | Some truck => ret truck
     end).

Definition get_all_trucks : M (list ref) :=
  on_trucks (query Repository.get_all).

Definition update_truck (truck_id : Z) (truck : ref) : M ref :=
  bind (on_trucks (Repository.update truck_id truck))
    (λ updated_truck,
     match updated_truck with
     | None => raise (ResourceNotFoundException "Truck" truck_id)
     | Some updated_truck => ret updated_truck
     end).

Definition delete_truck (truck_id : Z) : M unit :=
  bind (on_trucks (on_dict (Repository.delete truck_id)))
    (λ deleted,
     if negb deleted then raise (ResourceNotFoundException "Truck" truck_id)
     else ret tt).

End TruckService.

Module AssignmentService.

Definition _validate_license_compatibility
    (driver_license required_license : LicenseType.t) : M unit :=
  match LicenseType.can_operate driver_license required_license with
  | None => raise KeyError
  | Some ok =>
      if negb ok
      then raise (ValidationException (LicenseType.value driver_license)
                    (LicenseType.value required_license))
      else ret tt
  end.

Definition _check_driver_availability (driver_id : Z) (assignment_date : date)
    (exclude_assignment_id : option Z) : M unit :=
  λ w,
    match AssignmentRepository.find_by_driver_and_date driver_id
            assignment_date (assignments w) (assignment_repository w) with
    | Some existing =>
        if bool_decide (Assignment.id (the_assignment existing w)
                        ≠ exclude_assignment_id)
        then raise (ConflictException
                      (DriverAlreadyAssigned driver_id
                         (Assignment.truck_id (the_assignment existing w))
                         assignment_date)) w
        else ret tt w
    | None => ret tt w
    end.

Definition _check_truck_availability (truck_id : Z) (assignment_date : date)
    (exclude_assignment_id : option Z) : M unit :=
  λ w,
    match AssignmentRepository.find_by_truck_and_date truck_id
            assignment_date (assignments w) (assignment_repository w) with
    | Some existing =>
        if bool_decide (Assignment.id (the_assignment existing w)
                        ≠ exclude_assignment_id)
        then raise (ConflictException
                      (TruckAlreadyAssigned truck_id
                         (Assignment.driver_id (the_assignment existing w))
                         assignment_date)) w
        else ret tt w
    | None => ret tt w
    end.

Definition create_assignment (assignment : ref) : M ref :=
  λ w,
    let a := the_assignment assignment w in
    match Repository.get_by_id (Assignment.driver_id a) (driver_repository w) with
    | None =>
        raise (ResourceNotFoundException "Driver" (Assignment.driver_id a)) w
    | Some driver =>
    match Repository.get_by_id (Assignment.truck_id a) (truck_repository w) with
    | None =>
        raise (ResourceNotFoundException "Truck" (Assignment.truck_id a)) w
    | Some truck =>
      bind (_validate_license_compatibility
              (Driver.license_type (the_driver driver w))
              (Truck.minimum_license_type (the_truck truck w)))
        (λ _,
      bind (_check_driver_availability
              (Assignment.driver_id a) (Assignment.assignment_date a) None)
        (λ _,
      bind (_check_truck_availability
              (Assignment.truck_id a) (Assignment.assignment_date a) None)
        (λ _,
      on_assignments (Repository.create assignment)))) w
    end end.

Definition get_assignment (assignment_id : Z) : M ref :=
  bind (on_assignments (query (Repository.get_by_id assignment_id)))
    (λ assignment,
     match assignment with
     | None => raise (ResourceNotFoundException "Assignment" assignment_id)
     | Some assignment => ret assignment
     end).

Definition get_all_assignments : M (list ref) :=
  on_assignments (query Repository.get_all).

Definition update_assignment (assignment_id : Z) (assignment : ref)
    : M (option ref) :=
  λ w,
    let a := the_assignment assignment w in
    match Repository.get_by_id assignment_id (assignment_repository w) with
    | None => raise (ResourceNotFoundException "Assignment" assignment_id) w
    | Some _ =>
    match Repository.get_by_id (Assignment.driver_id a) (driver_repository w) with
    | None =>
        raise (ResourceNotFoundException "Driver" (Assignment.driver_id a)) w
    | Some driver =>
    match Repository.get_by_id (Assignment.truck_id a) (truck_repository w) with
    | None =>
        raise (ResourceNotFoundException "Truck" (Assignment.truck_id a)) w
    | Some truck =>
      bind (_validate_license_compatibility
              (Driver.license_type (the_driver driver w))
              (Truck.minimum_license_type (the_truck truck w)))
        (λ _,
      bind (_check_driver_availability
              (Assignment.driver_id a) (Assignment.assignment_date a)
              (Some assignment_id))
        (λ _,
      bind (_check_truck_availability
              (Assignment.truck_id a) (Assignment.assignment_date a)
              (Some assignment_id))
        (λ _,
      on_assignments (Repository.update assignment_id assignment)))) w
    end end end.

Definition delete_assignment (assignment_id : Z) : M unit :=
  bind (on_assignments (on_dict (Repository.delete assignment_id)))
    (λ deleted,
     if negb deleted
     then raise (ResourceNotFoundException "Assignment" assignment_id)
     else ret tt).

End AssignmentService.

(** The object a call is given: one built for the call, or one that exists
    already, by its address. *)
Inductive Object (E : Type) : Type :=
  | New (e : E)
  | Held (r : ref).
Arguments New {E} _.
Arguments Held {E} _.

(** Its address and the objects of its class once it exists; no call can be
    given an address that holds nothing. *)
Definition pass {E} (o : Object E) (objects : list E) : option (ref * list E) :=
  match o with
  | New e => Some (length objects, objects ++ [e])
  | Held r => if decide (r < length objects)%nat then Some (r, objects) else None
  end.

Inductive Call : Type :=
  | CreateDriver (driver : Object Driver.t)
  | UpdateDriver (driver_id : Z) (driver : Object Driver.t)
  | DeleteDriver (driver_id : Z)
  | CreateTruck (truck : Object Truck.t)
  | UpdateTruck (truck_id : Z) (truck : Object Truck.t)
  | DeleteTruck (truck_id : Z)
  | CreateAssignment (assignment : Object Assignment.t)
  | UpdateAssignment (assignment_id : Z) (assignment : Object Assignment.t)
  | DeleteAssignment (assignment_id : Z).

Definition with_drivers (objects : list Driver.t) (w : World) : World :=
  MkWorld objects (trucks w) (assignments w)
    (driver_repository w) (truck_repository w) (assignment_repository w).
Definition with_trucks (objects : list Truck.t) (w : World) : World :=
  MkWorld (drivers w) objects (assignments w)
    (driver_repository w) (truck_repository w) (assignment_repository w).
Definition with_assignments (objects : list Assignment.t) (w : World) : World :=
  MkWorld (drivers w) (trucks w) objects
    (driver_repository w) (truck_repository w) (assignment_repository w).

(** The world after the call, whether it returned or raised. *)
Definition perform (c : Call) (w : World) : World :=
  match c with
  | CreateDriver o =>
      match pass o (drivers w) with
      | Some (r, objects) =>
          (DriverService.create_driver r (with_drivers objects w)).2
      | None => w
      end
  | UpdateDriver i o =>
      match pass o (drivers w) with
      | Some (r, objects) =>
          (DriverService.update_driver i r (with_drivers objects w)).2
      | None => w
      end
  | DeleteDriver i => (DriverService.delete_driver i w).2
  | CreateTruck o =>
      match pass o (trucks w) with
      | Some (r, objects) =>
          (TruckService.create_truck r (with_trucks objects w)).2
      | None => w
      end
  | UpdateTruck i o =>
      match pass o (trucks w) with
      | Some (r, objects) =>
          (TruckService.update_truck i r (with_trucks objects w)).2
      | None => w
      end
  | DeleteTruck i => (TruckService.delete_truck i w).2
  | CreateAssignment o =>
      match pass o (assignments w) with
      | Some (r, objects) =>
          (AssignmentService.create_assignment r (with_assignments objects w)).2
      | None => w
      end
  | UpdateAssignment i o =>
      match pass o (assignments w) with
      | Some (r, objects) =>
          (AssignmentService.update_assignment i r
             (with_assignments objects w)).2
      | None => w
      end
  | DeleteAssignment i => (AssignmentService.delete_assignment i w).2
  end.

Definition perform_all (cs : list Call) (w : World) : World :=
  foldl (λ w c, perform c w) w cs.

Inductive reachable : World → Prop :=
  | reachable_init : reachable init_world
  | reachable_step c w : reachable w → reachable (perform c w).

(** A call that is not given a driver or truck object which its store holds
    at the time of the call. *)
Definition unshared (c : Call) (w : World) : Prop :=
  match c with
  | CreateDriver (Held r) | UpdateDriver _ (Held r) =>
      r ∉ Repository.get_all (driver_repository w)
  | CreateTruck (Held r) | UpdateTruck _ (Held r) =>
      r ∉ Repository.get_all (truck_repository w)
  | _ => True
  end.

Inductive reachable_unshared : World → Prop :=
  | reachable_unshared_init : reachable_unshared init_world
  | reachable_unshared_step c w :
      reachable_unshared w → unshared c w → reachable_unshared (perform c w).

(** *** What holds of the stores *)

(** One entry per key, a positive counter, every key positive and below
    the counter. *)
Definition keys_wf (self : Repository.t) : Prop :=
  NoDup (dict_keys (Repository.items self))
  ∧ 0 < Repository.next_id self
  ∧ ∀ k r, (k, r) ∈ dict_items (Repository.items self) →
           0 < k < Repository.next_id self.

(** Every stored object exists and has an id that was handed out. *)
Definition ids_set {E} `{Entity E} (objects : list E) (self : Repository.t)
    : Prop :=
  ∀ k r, (k, r) ∈ dict_items (Repository.items self) →
         ∃ e j, objects !! r = Some e ∧ get_id e = Some j
                ∧ 0 < j < Repository.next_id self.

(** Every stored object has the key it is stored under as its id. *)
Definition ids_are_keys {E} `{Entity E} (objects : list E) (self : Repository.t)
    : Prop :=
  ∀ k r, (k, r) ∈ dict_items (Repository.items self) →
         ∃ e, objects !! r = Some e ∧ get_id e = Some k.

(** Two stored assignments for one driver, or for one truck, on one date
    are one entry. *)
Definition bookings_unique (objects : list Assignment.t) (self : Repository.t)
    : Prop :=
  ∀ k1 k2 r1 r2 a1 a2,
    dict_get k1 (Repository.items self) = Some r1 →
    dict_get k2 (Repository.items self) = Some r2 →
    objects !! r1 = Some a1 → objects !! r2 = Some a2 →
    Assignment.assignment_date a1 = Assignment.assignment_date a2 →
    Assignment.driver_id a1 = Assignment.driver_id a2
    ∨ Assignment.truck_id a1 = Assignment.truck_id a2 →
    k1 = k2.

Definition world_inv (w : World) : Prop :=
  keys_wf (driver_repository w)
  ∧ keys_wf (truck_repository w)
  ∧ keys_wf (assignment_repository w)
  ∧ ids_set (drivers w) (driver_repository w)
  ∧ ids_set (trucks w) (truck_repository w)
  ∧ ids_are_keys (assignments w) (assignment_repository w)
  ∧ bookings_unique (assignments w) (assignment_repository w).

(** The ids that the listing of a store shows. *)
Definition listed_ids {E} `{Entity E, Inhabited E} (objects : list E)
    (self : Repository.t) : list (option Z) :=
  (λ r : ref, get_id (E:=E) (objects !!! r)) <$> Repository.get_all self.

(** The keys of a store, in the order of its listing, go up. *)
Definition keys_ascending (self : Repository.t) : Prop :=
  StronglySorted Z.lt (dict_keys (Repository.items self)).

(** [create_driver] is given the same object twice. *)
Definition shared_driver_calls : list Call :=
  [ CreateDriver (New (Driver.Build None "John Doe" LicenseType.D));
    CreateDriver (Held 0%nat) ].

Definition shared_driver_world : World :=
  perform_all shared_driver_calls init_world.

(** One driver, one truck and an assignment of the two. *)
Definition example_world : World :=
  perform_all
    [ CreateDriver (New (Driver.Build None "John Doe" LicenseType.D));
      CreateTruck (New (Truck.Build None "ABC-1234" LicenseType.C));
      CreateAssignment (New (Assignment.Build None 1 1 (Date 2025 11 10))) ]
    init_world.

(** Two drivers, a truck and three assignments; the second assignment is
    deleted and the first driver replaced. *)
Definition listing_world : World :=
  perform_all
    [ CreateDriver (New (Driver.Build None "John Doe" LicenseType.D));
      CreateDriver (New (Driver.Build None "Jane Roe" LicenseType.E));
      CreateTruck (New (Truck.Build None "ABC-1234" LicenseType.C));
      CreateAssignment (New (Assignment.Build None 1 1 (Date 2025 11 10)));
      CreateAssignment (New (Assignment.Build None 2 1 (Date 2025 11 11)));
      CreateAssignment (New (Assignment.Build None 1 1 (Date 2025 11 12)));
      DeleteAssignment 2;
      UpdateDriver 1 (New (Driver.Build None "John Doe" LicenseType.E)) ]
    init_world.

End Shared.

(** * Facts about dictionaries *)

Section dict_facts.
Context {K V : Type} `{EqDecision K}.
Implicit Types (k : K) (v : V) (d : dict K V).

Lemma dict_get_set k k' v d :
  dict_get k (dict_set k' v d) = if decide (k' = k) then Some v else dict_get k d.
Proof.
  induction d as [|[k0 v0] d IH]; csimpl.
  - by destruct (decide (k' = k)).
  - destruct (decide (k0 = k')) as [->|Hne]; csimpl.
    + by destruct (decide (k' = k)).
    + rewrite IH. destruct (decide (k0 = k)) as [->|]; [|done].
      by rewrite decide_False by congruence.
Qed.

Lemma dict_get_del k k' d :
  dict_get k (dict_del k' d) = if decide (k' = k) then None else dict_get k d.
Proof.
  unfold dict_del. induction d as [|[k0 v0] d IH]; csimpl.
  - by destruct (decide (k' = k)).
  - destruct (decide (k0 ≠ k')) as [Hne|Heq].
    + rewrite filter_cons_True by done. csimpl. rewrite IH. destruct (decide (k0 = k)) as [->|]; [|done].
      by rewrite decide_False by congruence.
    + rewrite filter_cons_False by done.
      apply dec_stable in Heq as ->. rewrite IH.
      by destruct (decide (k' = k)).
Qed.

Lemma dict_get_Some_key k v d : dict_get k d = Some v → k ∈ dict_keys d.
Proof.
  unfold dict_keys. induction d as [|[k0 v0] d IH]; csimpl; [done|].
  destruct (decide (k0 = k)) as [->|]; intros; [left | right; auto].
Qed.

Lemma dict_get_None_key k d : dict_get k d = None ↔ k ∉ dict_keys d.
Proof.
  unfold dict_keys. induction d as [|[k0 v0] d IH]; csimpl.
  - split; [intros _; apply not_elem_of_nil | done].
  - rewrite not_elem_of_cons. destruct (decide (k0 = k)) as [->|Hne].
    + split; [done | by intros [? _]].
    + rewrite IH. split; [by split | by intros [_ ?]].
Qed.

Lemma dict_contains_true k d :
  dict_contains k d = true ↔ is_Some (dict_get k d).
Proof.
  unfold dict_contains. destruct (dict_get k d); split; done.
Qed.

Lemma dict_contains_false k d :
  dict_contains k d = false ↔ dict_get k d = None.
Proof. unfold dict_contains. by destruct (dict_get k d). Qed.

Lemma dict_set_fresh k v d :
  dict_get k d = None → dict_set k v d = d ++ [(k, v)].
Proof.
  induction d as [|[k0 v0] d IH]; csimpl; [done|].
  destruct (decide (k0 = k)); [done|]. intros Hd. by rewrite IH.
Qed.

Lemma dict_keys_set_present k v d :
  is_Some (dict_get k d) → dict_keys (dict_set k v d) = dict_keys d.
Proof.
  unfold dict_keys. induction d as [|[k0 v0] d IH]; csimpl.
  - by intros [? ?].
  - destruct (decide (k0 = k)) as [->|]; csimpl; [done|].
    intros Hd. by rewrite IH.
Qed.

Lemma dict_set_NoDup k v d :
  NoDup (dict_keys d) → NoDup (dict_keys (dict_set k v d)).
Proof.
  intros Hnd. destruct (dict_get k d) as [v'|] eqn:Hget.
  - by rewrite dict_keys_set_present by eauto.
  - rewrite dict_set_fresh by done. unfold dict_keys in *.
    rewrite fmap_app. csimpl. apply NoDup_app. split_and!; [done| |apply NoDup_singleton].
    intros x Hx ->%list_elem_of_singleton. by apply dict_get_None_key in Hget.
Qed.

Lemma dict_del_NoDup k d :
  NoDup (dict_keys d) → NoDup (dict_keys (dict_del k d)).
Proof.
  unfold dict_keys, dict_del. induction d as [|[k0 v0] d IH]; csimpl; [done|].
  rewrite NoDup_cons. intros [Hk0 Hnd].
  destruct (decide (k0 ≠ k));
    [rewrite filter_cons_True by done | rewrite filter_cons_False by done; auto].
  csimpl. apply NoDup_cons. split; [|auto].
  intros Hin. apply Hk0. apply list_elem_of_fmap in Hin as ([k1 v1] & -> & Hin).
  apply list_elem_of_filter in Hin as [_ Hin].
  apply list_elem_of_fmap. by exists (k1, v1).
Qed.

Lemma dict_get_value k v d : dict_get k d = Some v → v ∈ dict_values d.
Proof.
  unfold dict_values. induction d as [|[k0 v0] d IH]; csimpl; [done|].
  destruct (decide (k0 = k)); intros; simplify_eq; [left | right; auto].
Qed.

Lemma dict_value_get v d :
  NoDup (dict_keys d) → v ∈ dict_values d → ∃ k, dict_get k d = Some v.
Proof.
  unfold dict_values, dict_keys. induction d as [|[k0 v0] d IH]; csimpl.
  - by intros _ ?%elem_of_nil.
  - rewrite NoDup_cons. intros [Hk0 Hnd] [->|Hin]%elem_of_cons.
    + exists k0. by rewrite decide_True.
    + destruct (IH Hnd Hin) as [k Hk]. exists k.
      rewrite decide_False; [done|]. intros ->.
      by apply dict_get_Some_key in Hk.
Qed.

(** Values that are told apart by their keys: at most one satisfies [P]
    when two stored values satisfying [P] always sit under the same key. *)
Lemma dict_values_at_most_one (P : V → Prop) `{∀ v, Decision (P v)} d :
  NoDup (dict_keys d) →
  (∀ k1 k2 v1 v2, dict_get k1 d = Some v1 → dict_get k2 d = Some v2 →
                  P v1 → P v2 → k1 = k2) →
  (length (filter P (dict_values d)) ≤ 1)%nat.
Proof.
  unfold dict_values, dict_keys. induction d as [|[k0 v0] d IH]; csimpl; [lia|].
  rewrite NoDup_cons. intros [Hk0 Hnd] Huniq.
  assert (Hlift : ∀ k v, dict_get k d = Some v →
                         dict_get k ((k0, v0) :: d) = Some v).
  { intros k v Hk. csimpl. rewrite decide_False; [done|]. intros ->.
    by apply dict_get_Some_key in Hk. }
  destruct (decide (P v0)) as [HP|HP];
    [rewrite filter_cons_True by done | rewrite filter_cons_False by done].
  - assert (filter P d.*2 = []) as ->; [|simpl; lia].
    destruct (filter P d.*2) as [|v l] eqn:Hf; [done|exfalso].
    assert (v ∈ filter P d.*2) as [HPv Hv]%list_elem_of_filter
      by (rewrite Hf; left).
    destruct (dict_value_get v d Hnd Hv) as [k Hk].
    assert (k0 = k) as <-.
    { apply (Huniq k0 k v0 v);
        [by rewrite decide_True | by apply Hlift | done | done]. }
    by apply dict_get_Some_key in Hk.
  - apply IH; [done|]. intros k1 k2 v1 v2 H1 H2.
    apply Huniq; by apply Hlift.
Qed.

End dict_facts.

(** * The license hierarchy *)

Lemma can_operate_defined (x y : LicenseType.t) :
  is_Some (LicenseType.can_operate x y).
Proof. by destruct x, y. Qed.

(** C4. For all categories [x], [y], [can_operate x y] returns (it raises no
    [KeyError]) and the boolean returned is [true] exactly when
    rank(x) >= rank(y) for the order A=1, B=2, C=3, D=4, E=5. *)
Theorem can_operate_rank (x y : LicenseType.t) :
  ∃ b, LicenseType.can_operate x y = Some b
       ∧ (b = true ↔ LicenseType.spec_rank x >= LicenseType.spec_rank y).
Proof.
  destruct x, y; (eexists; split; [reflexivity|]); simpl;
    (split; [intros _; lia | done]) || (split; [done | intros; lia]).
Qed.

(** C5. [get_compatible_licenses held] returns the set of the values of all
    categories ranked at or below [held], [held] included; for C that is
    {A,B,C}, for E all five, for A only {A}. *)
Theorem get_compatible_licenses_rank :
  (∀ held, ∃ s,
      LicenseType.get_compatible_licenses held = Some s
      ∧ ∀ name, name ∈ s ↔
          ∃ y, name = LicenseType.value y
               ∧ LicenseType.spec_rank y ≤ LicenseType.spec_rank held)
  ∧ LicenseType.get_compatible_licenses LicenseType.C
    = Some ({[ "A"; "B"; "C" ]} : gset string)
  ∧ LicenseType.get_compatible_licenses LicenseType.E
    = Some ({[ "A"; "B"; "C"; "D"; "E" ]} : gset string)
  ∧ LicenseType.get_compatible_licenses LicenseType.A
    = Some ({[ "A" ]} : gset string).
Proof.
  split; [|by vm_compute].
  intros held.
  destruct held; (eexists; split; [reflexivity|]); intros name;
    rewrite elem_of_list_to_set;
    match goal with
    | |- context [filter ?P ?l] =>
        let l' := eval vm_compute in (filter P l) in
        change (filter P l) with l'
    end; csimpl; rewrite ?elem_of_cons, elem_of_nil; simpl; split.
  all: try (intros [y [-> Hy]]; destruct y; simpl in Hy; try lia; tauto).
  all: intros Hn; repeat destruct Hn as [-> | Hn]; try done.
  all: first
    [ by exists LicenseType.A; split; [|simpl; lia]
    | by exists LicenseType.B; split; [|simpl; lia]
    | by exists LicenseType.C; split; [|simpl; lia]
    | by exists LicenseType.D; split; [|simpl; lia]
    | by exists LicenseType.E; split; [|simpl; lia] ].
Qed.

(** * The entity stores *)

#[global] Instance driver_entity_laws : EntityLaws Driver.t.
Proof. by intros i []. Qed.

#[global] Instance truck_entity_laws : EntityLaws Truck.t.
Proof. by intros i []. Qed.

#[global] Instance assignment_entity_laws : EntityLaws Assignment.t.
Proof. by intros i []. Qed.

Section repository_facts.
Context {E : Type} `{EntityLaws E}.
Implicit Types (self : Repository.t E) (entity : E).

Lemma update_next_id entity_id entity self :
  Repository.next_id (Repository.update entity_id entity self).2
  = Repository.next_id self.
Proof. unfold Repository.update. by destruct (negb _). Qed.

Lemma delete_next_id entity_id self :
  Repository.next_id (Repository.delete entity_id self).2
  = Repository.next_id self.
Proof. unfold Repository.delete. by destruct (dict_contains _ _). Qed.

Lemma created_ids_from calls self :
  created_ids calls self
  = Some <$> seqZ (Repository.next_id self)
               (Z.of_nat (length (created_ids calls self))).
Proof.
  revert self. induction calls as [|[entity|entity_id entity|entity_id] calls IH];
    intros self; simpl; [done| | |].
  - rewrite get_set_id. rewrite seqZ_cons by lia. csimpl. f_equal.
    rewrite IH at 1. simpl. do 2 f_equal. lia.
  - rewrite IH at 1. by rewrite update_next_id.
  - rewrite IH at 1. by rewrite delete_next_id.
Qed.

Lemma create_delete_create self a b :
  let (created_a, self1) := Repository.create a self in
  let (deleted, self2) := Repository.delete (Repository.next_id self) self1 in
  let (created_b, self3) := Repository.create b self2 in
  get_id created_a = Some (Repository.next_id self)
  ∧ deleted = true
  ∧ get_id created_b = Some (Repository.next_id self + 1).
Proof.
  unfold Repository.create, Repository.delete, dict_contains; simpl.
  rewrite dict_get_set, decide_True by done. simpl.
  by rewrite !get_set_id.
Qed.

Lemma ids_sequential_holds : ids_sequential E.
Proof.
  split_and!.
  - intros calls. apply (created_ids_from calls Repository.init).
  - apply create_delete_create.
  - intros a b. apply (create_delete_create Repository.init a b).
Qed.

End repository_facts.

(** C6. In each of the three stores the creates of any sequence of calls
    starting from the empty store receive the ids 1, 2, 3, ... in order, and
    a deletion does not free an id: create, delete, create gives ids [n] and
    [n+1], that is 1 and 2 on a new store. *)
Theorem ids_sequential_never_reused :
  ids_sequential Driver.t ∧ ids_sequential Truck.t ∧ ids_sequential Assignment.t.
Proof. split_and!; apply ids_sequential_holds. Qed.

(** * Deleting *)

Ltac unfold_services :=
  unfold DriverService.create_driver, DriverService.get_driver,
    DriverService.update_driver, DriverService.delete_driver,
    TruckService.create_truck, TruckService.get_truck,
    TruckService.update_truck, TruckService.delete_truck,
    AssignmentService.create_assignment, AssignmentService.get_assignment,
    AssignmentService.update_assignment, AssignmentService.delete_assignment,
    AssignmentService._validate_license_compatibility,
    AssignmentService._check_driver_availability,
    AssignmentService._check_truck_availability,
    bind, ret, raise, on_drivers, on_trucks, on_assignments, query in *.

Section delete_facts.
Context {E : Type} `{Entity E}.
Implicit Types self : Repository.t E.

Lemma delete_true entity_id self self' :
  Repository.delete entity_id self = (true, self') →
  self' = Repository.Build (dict_del entity_id (Repository.items self))
            (Repository.next_id self).
Proof.
  unfold Repository.delete. destruct (dict_contains _ _); congruence.
Qed.

Lemma get_by_id_deleted entity_id self :
  Repository.get_by_id entity_id
    (Repository.Build (dict_del entity_id (Repository.items self))
       (Repository.next_id self)) = None.
Proof.
  unfold Repository.get_by_id; simpl. by rewrite dict_get_del, decide_True.
Qed.

Lemma delete_deleted entity_id self :
  let self' := Repository.Build (dict_del entity_id (Repository.items self))
                 (Repository.next_id self) in
  Repository.delete entity_id self' = (false, self').
Proof.
  unfold Repository.delete, dict_contains; simpl.
  by rewrite dict_get_del, decide_True.
Qed.

Lemma delete_frame entity_id self :
  let self' := (Repository.delete entity_id self).2 in
  Repository.next_id self' = Repository.next_id self
  ∧ (Repository.items self' = Repository.items self
     ∨ Repository.items self' = dict_del entity_id (Repository.items self))
  ∧ ∀ k, k ≠ entity_id →
         Repository.get_by_id k self' = Repository.get_by_id k self.
Proof.
  unfold Repository.delete, Repository.get_by_id.
  destruct (dict_contains _ _); simpl; split_and!; auto.
  intros k Hk. rewrite dict_get_del. by rewrite decide_False.
Qed.

End delete_facts.

(** C7. Once [delete_driver id] has returned, [get_driver id] raises
    [ResourceNotFoundException] and so does a second [delete_driver id], both
    leaving the stores as they are; the same for trucks and assignments. *)
Theorem delete_then_not_found (w : World) (i : Z) :
  ((DriverService.delete_driver i w).1 = inr tt →
   let w' := (DriverService.delete_driver i w).2 in
   DriverService.get_driver i w'
     = (inl (ResourceNotFoundException "Driver" i), w')
   ∧ DriverService.delete_driver i w'
     = (inl (ResourceNotFoundException "Driver" i), w'))
  ∧ ((TruckService.delete_truck i w).1 = inr tt →
     let w' := (TruckService.delete_truck i w).2 in
     TruckService.get_truck i w'
       = (inl (ResourceNotFoundException "Truck" i), w')
     ∧ TruckService.delete_truck i w'
       = (inl (ResourceNotFoundException "Truck" i), w'))
  ∧ ((AssignmentService.delete_assignment i w).1 = inr tt →
     let w' := (AssignmentService.delete_assignment i w).2 in
     AssignmentService.get_assignment i w'
       = (inl (ResourceNotFoundException "Assignment" i), w')
     ∧ AssignmentService.delete_assignment i w'
       = (inl (ResourceNotFoundException "Assignment" i), w')).
Proof.
  destruct w as [dr tr ar]. unfold_services; simpl. split_and!.
  - destruct (Repository.delete i dr) as [[] dr'] eqn:Hdel; simpl; [|done].
    intros _. apply delete_true in Hdel as ->.
    by rewrite get_by_id_deleted, delete_deleted.
  - destruct (Repository.delete i tr) as [[] tr'] eqn:Hdel; simpl; [|done].
    intros _. apply delete_true in Hdel as ->.
    by rewrite get_by_id_deleted, delete_deleted.
  - destruct (Repository.delete i ar) as [[] ar'] eqn:Hdel; simpl; [|done].
    intros _. apply delete_true in Hdel as ->.
    by rewrite get_by_id_deleted, delete_deleted.
Qed.

Lemma delete_then_not_found_witness :
  let w' := (DriverService.delete_driver 1 example_world).2 in
  DriverService.get_driver 1 w'
    = (inl (ResourceNotFoundException "Driver" 1), w')
  ∧ DriverService.delete_driver 1 w'
    = (inl (ResourceNotFoundException "Driver" 1), w').
Proof.
  apply (proj1 (delete_then_not_found example_world 1)). reflexivity.
Defined.

(** C8. [delete_driver] leaves the truck and assignment stores and the
    driver counter as they were and removes nothing but the entry of the given
    id from the driver dictionary, so every stored assignment stays stored
    unchanged; [delete_truck] likewise with the roles of the two stores
    exchanged. *)
Theorem delete_driver_truck_frame (w : World) (i : Z) :
  (let w' := (DriverService.delete_driver i w).2 in
   assignment_repository w' = assignment_repository w
   ∧ truck_repository w' = truck_repository w
   ∧ Repository.next_id (driver_repository w')
     = Repository.next_id (driver_repository w)
   ∧ (Repository.items (driver_repository w')
        = Repository.items (driver_repository w)
      ∨ Repository.items (driver_repository w')
        = dict_del i (Repository.items (driver_repository w)))
   ∧ (∀ k, k ≠ i → Repository.get_by_id k (driver_repository w')
                    = Repository.get_by_id k (driver_repository w))
   ∧ ∀ k a, Assignment.driver_id a = i →
            Repository.get_by_id k (assignment_repository w) = Some a →
            Repository.get_by_id k (assignment_repository w') = Some a)
  ∧ (let w' := (TruckService.delete_truck i w).2 in
     assignment_repository w' = assignment_repository w
     ∧ driver_repository w' = driver_repository w
     ∧ Repository.next_id (truck_repository w')
       = Repository.next_id (truck_repository w)
     ∧ (Repository.items (truck_repository w')
          = Repository.items (truck_repository w)
        ∨ Repository.items (truck_repository w')
          = dict_del i (Repository.items (truck_repository w)))
     ∧ (∀ k, k ≠ i → Repository.get_by_id k (truck_repository w')
                      = Repository.get_by_id k (truck_repository w))
     ∧ ∀ k a, Assignment.truck_id a = i →
              Repository.get_by_id k (assignment_repository w) = Some a →
              Repository.get_by_id k (assignment_repository w') = Some a).
Proof.
  destruct w as [dr tr ar]. unfold_services; simpl. split.
  - destruct (delete_frame i dr) as (Hn & Hi & Hg).
    destruct (Repository.delete i dr) as [[] dr'] eqn:Hdel; simpl in *;
      split_and!; auto.
  - destruct (delete_frame i tr) as (Hn & Hi & Hg).
    destruct (Repository.delete i tr) as [[] tr'] eqn:Hdel; simpl in *;
      split_and!; auto.
Qed.

(** * Failed assignment calls *)

(** C9. When [create_assignment] or [update_assignment] raises, whatever the
    exception, the three stores with their counters are the ones the call
    started from. *)
Theorem failed_assignment_call_leaves_stores
    (w w' : World) (a : Assignment.t) (e : Exception) :
  (AssignmentService.create_assignment a w = (inl e, w')
   ∨ ∃ k, AssignmentService.update_assignment k a w = (inl e, w')) →
  w' = w.
Proof.
  destruct w as [dr tr ar]. unfold_services; simpl.
  unfold Repository.create, Repository.update.
  intros [Hc | [k Hu]].
  - repeat case_match; simplify_eq/=; done.
  - repeat case_match; simplify_eq/=; done.
Qed.

Lemma failed_assignment_call_leaves_stores_witness :
  (AssignmentService.create_assignment example_assignment example_world).2
  = example_world.
Proof.
  apply (failed_assignment_call_leaves_stores example_world _
           example_assignment
           (ConflictException (DriverAlreadyAssigned 1 1 example_date))).
  left. reflexivity.
Defined.

(** * Well-formedness of the stores *)

Section dict_entries.
Context {K V : Type} `{EqDecision K}.
Implicit Types (k : K) (v : V) (d : dict K V).

Lemma dict_get_entry k v d : dict_get k d = Some v → (k, v) ∈ d.
Proof.
  induction d as [|[k0 v0] d IH]; csimpl; [done|].
  destruct (decide (k0 = k)) as [->|]; intros; simplify_eq; [left | right; auto].
Qed.

Lemma dict_entry_get k v d : NoDup (dict_keys d) → (k, v) ∈ d → dict_get k d = Some v.
Proof.
  unfold dict_keys. induction d as [|[k0 v0] d IH]; csimpl.
  - by intros _ ?%elem_of_nil.
  - rewrite NoDup_cons. intros [Hk0 Hnd] [?|Hin]%elem_of_cons.
    + simplify_eq. by rewrite decide_True.
    + rewrite decide_False; [auto|]. intros ->. apply Hk0.
      apply list_elem_of_fmap. by exists (k, v).
Qed.

Lemma dict_set_entry k v k' v' d :
  (k, v) ∈ dict_set k' v' d → (k, v) = (k', v') ∨ (k, v) ∈ d.
Proof.
  induction d as [|[k0 v0] d IH]; csimpl.
  - intros ?%list_elem_of_singleton. by left.
  - destruct (decide (k0 = k')) as [->|].
    + intros [?|?]%elem_of_cons; [by left | right; by right].
    + intros [->|Hin]%elem_of_cons; [right; by left |].
      destruct (IH Hin); [by left | right; by right].
Qed.

Lemma dict_del_entry k v k' d : (k, v) ∈ dict_del k' d → (k, v) ∈ d.
Proof. unfold dict_del. by intros [_ ?]%list_elem_of_filter. Qed.

Lemma dict_set_same k v d : dict_get k d = Some v → dict_set k v d = d.
Proof.
  induction d as [|[k0 v0] d IH]; csimpl; [done|].
  destruct (decide (k0 = k)) as [->|]; intros; simplify_eq; [done|].
  by rewrite IH.
Qed.

End dict_entries.

Section repository_wf.
Context {E : Type} `{EntityLaws E}.
Implicit Types (self : Repository.t E) (entity : E).

Lemma init_wf : repository_wf (Repository.init : Repository.t E).
Proof.
  split_and!; simpl; [apply NoDup_nil_2 | lia |]. by intros k e ?%elem_of_nil.
Qed.

Lemma wf_get_by_id self k e :
  repository_wf self → Repository.get_by_id k self = Some e →
  get_id e = Some k ∧ 0 < k < Repository.next_id self.
Proof. intros (_ & _ & Hwf) Hget. by apply Hwf, dict_get_entry. Qed.

Lemma wf_value self e :
  repository_wf self → e ∈ Repository.get_all self →
  ∃ k, Repository.get_by_id k self = Some e ∧ get_id e = Some k.
Proof.
  intros Hwf Hin. pose proof Hwf as (Hnd & _ & _).
  destruct (dict_value_get e _ Hnd Hin) as [k Hk]. exists k. split; [done|].
  by apply (wf_get_by_id self k e).
Qed.

Lemma wf_next_id_fresh self :
  repository_wf self →
  dict_get (Repository.next_id self) (Repository.items self) = None.
Proof.
  intros Hwf. destruct (dict_get _ _) as [e|] eqn:Hget; [|done].
  apply (wf_get_by_id self _ e Hwf) in Hget. lia.
Qed.

Lemma create_wf entity self :
  repository_wf self → repository_wf (Repository.create entity self).2.
Proof.
  intros (Hnd & Hpos & Hent). split_and!; simpl.
  - by apply dict_set_NoDup.
  - lia.
  - intros k e [?|Hin]%dict_set_entry.
    + simplify_eq. rewrite get_set_id. split; [done | lia].
    + destruct (Hent k e Hin). split; [done | lia].
Qed.

Lemma update_wf entity_id entity self :
  repository_wf self → repository_wf (Repository.update entity_id entity self).2.
Proof.
  intros Hwf. unfold Repository.update.
  destruct (dict_contains entity_id _) eqn:Hc; simpl; [|done].
  apply dict_contains_true in Hc as [old Hold].
  apply (wf_get_by_id self _ _ Hwf) in Hold as [_ Hrange].
  destruct Hwf as (Hnd & Hpos & Hent). split_and!; simpl.
  - by apply dict_set_NoDup.
  - done.
  - intros k e [?|Hin]%dict_set_entry; [|auto].
    simplify_eq. by rewrite get_set_id.
Qed.

Lemma delete_wf entity_id self :
  repository_wf self → repository_wf (Repository.delete entity_id self).2.
Proof.
  intros Hwf. unfold Repository.delete.
  destruct (dict_contains entity_id _); simpl; [|done].
  destruct Hwf as (Hnd & Hpos & Hent). split_and!; simpl.
  - by apply dict_del_NoDup.
  - done.
  - intros k e Hin%dict_del_entry. auto.
Qed.

End repository_wf.

(** * The availability checks *)

Section availability.
Implicit Types (w : World) (self : AssignmentRepository.t).

Lemma find_by_driver_and_date_Some i d self ex :
  AssignmentRepository.find_by_driver_and_date i d self = Some ex →
  ex ∈ Repository.get_all self
  ∧ Assignment.driver_id ex = i ∧ Assignment.assignment_date ex = d.
Proof.
  unfold AssignmentRepository.find_by_driver_and_date.
  intros [Hin Hp]%find_some. apply list_elem_of_In in Hin.
  apply andb_prop in Hp as [?%bool_decide_eq_true ?%bool_decide_eq_true].
  done.
Qed.

Lemma find_by_driver_and_date_None i d self a :
  AssignmentRepository.find_by_driver_and_date i d self = None →
  a ∈ Repository.get_all self →
  Assignment.driver_id a = i → Assignment.assignment_date a = d → False.
Proof.
  unfold AssignmentRepository.find_by_driver_and_date.
  intros Hnone Hin%list_elem_of_In Hi Hd.
  pose proof (find_none _ _ Hnone a Hin) as Hp. simpl in Hp.
  by rewrite !bool_decide_eq_true_2 in Hp.
Qed.

Lemma find_by_truck_and_date_Some i d self ex :
  AssignmentRepository.find_by_truck_and_date i d self = Some ex →
  ex ∈ Repository.get_all self
  ∧ Assignment.truck_id ex = i ∧ Assignment.assignment_date ex = d.
Proof.
  unfold AssignmentRepository.find_by_truck_and_date.
  intros [Hin Hp]%find_some. apply list_elem_of_In in Hin.
  apply andb_prop in Hp as [?%bool_decide_eq_true ?%bool_decide_eq_true].
  done.
Qed.

Lemma find_by_truck_and_date_None i d self a :
  AssignmentRepository.find_by_truck_and_date i d self = None →
  a ∈ Repository.get_all self →
  Assignment.truck_id a = i → Assignment.assignment_date a = d → False.
Proof.
  unfold AssignmentRepository.find_by_truck_and_date.
  intros Hnone Hin%list_elem_of_In Hi Hd.
  pose proof (find_none _ _ Hnone a Hin) as Hp. simpl in Hp.
  by rewrite !bool_decide_eq_true_2 in Hp.
Qed.

Lemma check_driver_unfold i d excl w :
  AssignmentService._check_driver_availability i d excl w
  = match AssignmentRepository.find_by_driver_and_date i d
            (assignment_repository w) with
    | Some ex =>
        if bool_decide (Assignment.id ex ≠ excl)
        then (inl (ConflictException
                     (DriverAlreadyAssigned i (Assignment.truck_id ex) d)), w)
        else (inr tt, w)
    | None => (inr tt, w)
    end.
Proof. destruct w. unfold_services; simpl. by repeat case_match. Qed.

Lemma check_truck_unfold i d excl w :
  AssignmentService._check_truck_availability i d excl w
  = match AssignmentRepository.find_by_truck_and_date i d
            (assignment_repository w) with
    | Some ex =>
        if bool_decide (Assignment.id ex ≠ excl)
        then (inl (ConflictException
                     (TruckAlreadyAssigned i (Assignment.driver_id ex) d)), w)
        else (inr tt, w)
    | None => (inr tt, w)
    end.
Proof. destruct w. unfold_services; simpl. by repeat case_match. Qed.

(** A check that passes: whoever holds the driver (truck) on that date is
    the excluded assignment. *)
Lemma check_driver_pass i d excl w w' :
  repository_wf (assignment_repository w) →
  bookings_unique (assignment_repository w) →
  AssignmentService._check_driver_availability i d excl w = (inr tt, w') →
  ∀ k a, Repository.get_by_id k (assignment_repository w) = Some a →
         Assignment.driver_id a = i → Assignment.assignment_date a = d →
         excl = Some k.
Proof.
  intros Hwf Huniq. rewrite check_driver_unfold.
  destruct (AssignmentRepository.find_by_driver_and_date _ _ _) as [ex|] eqn:Hf.
  - case_bool_decide as Hid; [done|]. intros _ k a Hk Hi Hd.
    apply find_by_driver_and_date_Some in Hf as (Hin & Hexi & Hexd).
    destruct (wf_value _ ex Hwf Hin) as (kx & Hkx & Hidx).
    assert (k = kx) as ->
      by (apply (Huniq k kx a ex Hk Hkx); [|left]; congruence).
    simpl in Hidx. congruence.
  - intros _ k a Hk Hi Hd. exfalso.
    eapply find_by_driver_and_date_None; eauto. by eapply dict_get_value.
Qed.

Lemma check_truck_pass i d excl w w' :
  repository_wf (assignment_repository w) →
  bookings_unique (assignment_repository w) →
  AssignmentService._check_truck_availability i d excl w = (inr tt, w') →
  ∀ k a, Repository.get_by_id k (assignment_repository w) = Some a →
         Assignment.truck_id a = i → Assignment.assignment_date a = d →
         excl = Some k.
Proof.
  intros Hwf Huniq. rewrite check_truck_unfold.
  destruct (AssignmentRepository.find_by_truck_and_date _ _ _) as [ex|] eqn:Hf.
  - case_bool_decide as Hid; [done|]. intros _ k a Hk Hi Hd.
    apply find_by_truck_and_date_Some in Hf as (Hin & Hexi & Hexd).
    destruct (wf_value _ ex Hwf Hin) as (kx & Hkx & Hidx).
    assert (k = kx) as ->
      by (apply (Huniq k kx a ex Hk Hkx); [|right]; congruence).
    simpl in Hidx. congruence.
  - intros _ k a Hk Hi Hd. exfalso.
    eapply find_by_truck_and_date_None; eauto. by eapply dict_get_value.
Qed.

(** Without an excluded id, a stored match is reported. *)
Lemma check_driver_conflict i d w a :
  repository_wf (assignment_repository w) →
  a ∈ Repository.get_all (assignment_repository w) →
  Assignment.driver_id a = i → Assignment.assignment_date a = d →
  ∃ ex, ex ∈ Repository.get_all (assignment_repository w)
        ∧ Assignment.driver_id ex = i ∧ Assignment.assignment_date ex = d
        ∧ AssignmentService._check_driver_availability i d None w
          = (inl (ConflictException
                    (DriverAlreadyAssigned i (Assignment.truck_id ex) d)), w).
Proof.
  intros Hwf Hin Hi Hd. rewrite check_driver_unfold.
  destruct (AssignmentRepository.find_by_driver_and_date _ _ _) as [ex|] eqn:Hf.
  - pose proof Hf as (Hexin & Hexi & Hexd)%find_by_driver_and_date_Some.
    exists ex. split_and!; [done..|].
    destruct (wf_value _ ex Hwf Hexin) as (kx & _ & Hidx).
    rewrite bool_decide_eq_true_2; [done | simpl in Hidx; congruence].
  - exfalso. eapply find_by_driver_and_date_None; eauto.
Qed.

Lemma check_truck_conflict i d w a :
  repository_wf (assignment_repository w) →
  a ∈ Repository.get_all (assignment_repository w) →
  Assignment.truck_id a = i → Assignment.assignment_date a = d →
  ∃ ex, ex ∈ Repository.get_all (assignment_repository w)
        ∧ Assignment.truck_id ex = i ∧ Assignment.assignment_date ex = d
        ∧ AssignmentService._check_truck_availability i d None w
          = (inl (ConflictException
                    (TruckAlreadyAssigned i (Assignment.driver_id ex) d)), w).
Proof.
  intros Hwf Hin Hi Hd. rewrite check_truck_unfold.
  destruct (AssignmentRepository.find_by_truck_and_date _ _ _) as [ex|] eqn:Hf.
  - pose proof Hf as (Hexin & Hexi & Hexd)%find_by_truck_and_date_Some.
    exists ex. split_and!; [done..|].
    destruct (wf_value _ ex Hwf Hexin) as (kx & _ & Hidx).
    rewrite bool_decide_eq_true_2; [done | simpl in Hidx; congruence].
  - exfalso. eapply find_by_truck_and_date_None; eauto.
Qed.

(** The assignment stored under the excluded id does not trip the check. *)
Lemma check_driver_self k a w :
  repository_wf (assignment_repository w) →
  bookings_unique (assignment_repository w) →
  Repository.get_by_id k (assignment_repository w) = Some a →
  AssignmentService._check_driver_availability
    (Assignment.driver_id a) (Assignment.assignment_date a) (Some k) w
  = (inr tt, w).
Proof.
  intros Hwf Huniq Hk. rewrite check_driver_unfold.
  destruct (AssignmentRepository.find_by_driver_and_date _ _ _) as [ex|] eqn:Hf;
    [|done].
  apply find_by_driver_and_date_Some in Hf as (Hin & Hexi & Hexd).
  destruct (wf_value _ ex Hwf Hin) as (kx & Hkx & Hidx).
  assert (kx = k) as -> by (apply (Huniq kx k ex a Hkx Hk); [|left]; done).
  simpl in Hidx. rewrite bool_decide_eq_false_2; [done|]. by intros [].
Qed.

Lemma check_truck_self k a w :
  repository_wf (assignment_repository w) →
  bookings_unique (assignment_repository w) →
  Repository.get_by_id k (assignment_repository w) = Some a →
  AssignmentService._check_truck_availability
    (Assignment.truck_id a) (Assignment.assignment_date a) (Some k) w
  = (inr tt, w).
Proof.
  intros Hwf Huniq Hk. rewrite check_truck_unfold.
  destruct (AssignmentRepository.find_by_truck_and_date _ _ _) as [ex|] eqn:Hf;
    [|done].
  apply find_by_truck_and_date_Some in Hf as (Hin & Hexi & Hexd).
  destruct (wf_value _ ex Hwf Hin) as (kx & Hkx & Hidx).
  assert (kx = k) as -> by (apply (Huniq kx k ex a Hkx Hk); [|right]; done).
  simpl in Hidx. rewrite bool_decide_eq_false_2; [done|]. by intros [].
Qed.

End availability.

(** * The invariant of the stores *)

Section bookings.
Implicit Types (w : World) (self : AssignmentRepository.t).

(** Binding key [n] to [v] keeps bookings unique when every stored
    assignment that shares the date and the driver, or the date and the truck,
    of [v] sits under [n] itself. *)
Lemma dict_set_unique n v self next :
  bookings_unique self →
  (∀ k a, Repository.get_by_id k self = Some a →
          Assignment.assignment_date a = Assignment.assignment_date v →
          Assignment.driver_id a = Assignment.driver_id v
          ∨ Assignment.truck_id a = Assignment.truck_id v →
          k = n) →
  bookings_unique
    (Repository.Build (dict_set n v (Repository.items self)) next).
Proof.
  intros Huniq Hfree k1 k2 a1 a2; simpl. rewrite !dict_get_set.
  destruct (decide (n = k1)) as [<-|Hn1], (decide (n = k2)) as [<-|Hn2];
    intros H1 H2 Hd Hdt; simplify_eq; [done| | |by eapply Huniq].
  - symmetry. apply (Hfree k2 a2 H2); [done|]. destruct Hdt; auto.
  - by apply (Hfree k1 a1 H1).
Qed.

Lemma dict_del_unique n self next :
  bookings_unique self →
  bookings_unique
    (Repository.Build (dict_del n (Repository.items self)) next).
Proof.
  intros Huniq k1 k2 a1 a2; simpl. rewrite !dict_get_del.
  destruct (decide (n = k1)), (decide (n = k2)); try done. apply Huniq.
Qed.

Lemma validate_unfold x y w :
  AssignmentService._validate_license_compatibility x y w
  = match LicenseType.can_operate x y with
    | None => (inl KeyError, w)
    | Some ok =>
        if negb ok
        then (inl (ValidationException (LicenseType.value x)
                     (LicenseType.value y)), w)
        else (inr tt, w)
    end.
Proof.
  unfold AssignmentService._validate_license_compatibility.
  by repeat case_match.
Qed.

Lemma validate_same x y w r w' :
  AssignmentService._validate_license_compatibility x y w = (r, w') → w' = w.
Proof. rewrite validate_unfold. repeat case_match; congruence. Qed.

Lemma check_driver_same i d excl w r w' :
  AssignmentService._check_driver_availability i d excl w = (r, w') → w' = w.
Proof. rewrite check_driver_unfold. repeat case_match; congruence. Qed.

Lemma check_truck_same i d excl w r w' :
  AssignmentService._check_truck_availability i d excl w = (r, w') → w' = w.
Proof. rewrite check_truck_unfold. repeat case_match; congruence. Qed.

(** [create_assignment] as the sequence of its checks. *)
Lemma create_assignment_unfold a w :
  AssignmentService.create_assignment a w
  = match Repository.get_by_id (Assignment.driver_id a) (driver_repository w) with
    | None =>
        (inl (ResourceNotFoundException "Driver" (Assignment.driver_id a)), w)
    | Some driver =>
    match Repository.get_by_id (Assignment.truck_id a) (truck_repository w) with
    | None =>
        (inl (ResourceNotFoundException "Truck" (Assignment.truck_id a)), w)
    | Some truck =>
    match AssignmentService._validate_license_compatibility
            (Driver.license_type driver) (Truck.minimum_license_type truck) w with
    | (inl e, _) => (inl e, w)
    | (inr _, _) =>
    match AssignmentService._check_driver_availability
            (Assignment.driver_id a) (Assignment.assignment_date a) None w with
    | (inl e, _) => (inl e, w)
    | (inr _, _) =>
    match AssignmentService._check_truck_availability
            (Assignment.truck_id a) (Assignment.assignment_date a) None w with
    | (inl e, _) => (inl e, w)
    | (inr _, _) =>
        let (created, self) := Repository.create a (assignment_repository w) in
        (inr created, MkWorld (driver_repository w) (truck_repository w) self)
    end end end end end.
Proof.
  unfold AssignmentService.create_assignment.
  unfold bind at 1. unfold on_drivers at 1, query at 1.
  destruct w as [dr tr ar]; simpl.
  destruct (Repository.get_by_id _ dr) as [driver|]; [|done].
  unfold bind at 1. unfold on_trucks at 1, query at 1. simpl.
  destruct (Repository.get_by_id _ tr) as [truck|]; [|done].
  unfold bind at 1.
  destruct (AssignmentService._validate_license_compatibility _ _ _)
    as [[e|[]] w1] eqn:Hv; apply validate_same in Hv as ->; [done|].
  unfold bind at 1.
  destruct (AssignmentService._check_driver_availability _ _ _ _)
    as [[e|[]] w1] eqn:Hd; apply check_driver_same in Hd as ->; [done|].
  unfold bind at 1.
  destruct (AssignmentService._check_truck_availability _ _ _ _)
    as [[e|[]] w1] eqn:Ht; apply check_truck_same in Ht as ->; [done|].
  done.
Qed.

(** [update_assignment] as the sequence of its checks. *)
Lemma update_assignment_unfold k a w :
  AssignmentService.update_assignment k a w
  = match Repository.get_by_id k (assignment_repository w) with
    | None => (inl (ResourceNotFoundException "Assignment" k), w)
    | Some _ =>
    match Repository.get_by_id (Assignment.driver_id a) (driver_repository w) with
    | None =>
        (inl (ResourceNotFoundException "Driver" (Assignment.driver_id a)), w)
    | Some driver =>
    match Repository.get_by_id (Assignment.truck_id a) (truck_repository w) with
    | None =>
        (inl (ResourceNotFoundException "Truck" (Assignment.truck_id a)), w)
    | Some truck =>
    match AssignmentService._validate_license_compatibility
            (Driver.license_type driver) (Truck.minimum_license_type truck) w with
    | (inl e, _) => (inl e, w)
    | (inr _, _) =>
    match AssignmentService._check_driver_availability
            (Assignment.driver_id a) (Assignment.assignment_date a) (Some k) w with
    | (inl e, _) => (inl e, w)
    | (inr _, _) =>
    match AssignmentService._check_truck_availability
            (Assignment.truck_id a) (Assignment.assignment_date a) (Some k) w with
    | (inl e, _) => (inl e, w)
    | (inr _, _) =>
        let (updated, self) := Repository.update k a (assignment_repository w) in
        (inr updated, MkWorld (driver_repository w) (truck_repository w) self)
    end end end end end end.
Proof.
  unfold AssignmentService.update_assignment.
  unfold bind at 1. unfold on_assignments at 1, query at 1.
  destruct w as [dr tr ar]; simpl.
  destruct (Repository.get_by_id k ar) as [existing|]; [|done].
  unfold bind at 1. unfold on_drivers at 1, query at 1. simpl.
  destruct (Repository.get_by_id _ dr) as [driver|]; [|done].
  unfold bind at 1. unfold on_trucks at 1, query at 1. simpl.
  destruct (Repository.get_by_id _ tr) as [truck|]; [|done].
  unfold bind at 1.
  destruct (AssignmentService._validate_license_compatibility _ _ _)
    as [[e|[]] w1] eqn:Hv; apply validate_same in Hv as ->; [done|].
  unfold bind at 1.
  destruct (AssignmentService._check_driver_availability _ _ _ _)
    as [[e|[]] w1] eqn:Hd; apply check_driver_same in Hd as ->; [done|].
  unfold bind at 1.
  destruct (AssignmentService._check_truck_availability _ _ _ _)
    as [[e|[]] w1] eqn:Ht; apply check_truck_same in Ht as ->; [done|].
  done.
Qed.

(** What the three checks can raise. *)
Lemma validate_errors x y w e w' :
  AssignmentService._validate_license_compatibility x y w = (inl e, w') →
  LicenseType.can_operate x y ≠ Some true
  ∧ (e = KeyError
     ∨ e = ValidationException (LicenseType.value x) (LicenseType.value y)).
Proof.
  rewrite validate_unfold. repeat case_match; intros; simplify_eq; auto.
  split; [|auto]. by destruct b.
Qed.

Lemma check_driver_errors i d excl w e w' :
  AssignmentService._check_driver_availability i d excl w = (inl e, w') →
  ∃ ex, AssignmentRepository.find_by_driver_and_date i d
          (assignment_repository w) = Some ex
        ∧ e = ConflictException
                (DriverAlreadyAssigned i (Assignment.truck_id ex) d).
Proof.
  rewrite check_driver_unfold. repeat case_match; intros; simplify_eq; eauto.
Qed.

Lemma check_truck_errors i d excl w e w' :
  AssignmentService._check_truck_availability i d excl w = (inl e, w') →
  ∃ ex, AssignmentRepository.find_by_truck_and_date i d
          (assignment_repository w) = Some ex
        ∧ e = ConflictException
                (TruckAlreadyAssigned i (Assignment.driver_id ex) d).
Proof.
  rewrite check_truck_unfold. repeat case_match; intros; simplify_eq; eauto.
Qed.

End bookings.

Ltac check_errors :=
  repeat match goal with
    | H : AssignmentService._validate_license_compatibility _ _ _ = (inl _, _)
      |- _ => apply validate_errors in H as [? [?|?]]
    | H : AssignmentService._check_driver_availability _ _ _ _ = (inl _, _)
      |- _ => apply check_driver_errors in H as (? & ? & ?)
    | H : AssignmentService._check_truck_availability _ _ _ _ = (inl _, _)
      |- _ => apply check_truck_errors in H as (? & ? & ?)
    end;
  simplify_eq.

Ltac create_cases :=
  rewrite create_assignment_unfold;
  repeat case_match; simpl; intros; simplify_eq; check_errors.

Section preservation.
Implicit Types (w : World) (c : Call).

Lemma world_inv_intro dr tr ar :
  repository_wf dr → repository_wf tr → repository_wf ar →
  bookings_unique ar → world_inv (MkWorld dr tr ar).
Proof. intros Hd Ht Ha Hu. exact (conj Hd (conj Ht (conj Ha Hu))). Qed.

Lemma perform_create_assignment_inv a w :
  world_inv w → world_inv (perform (CreateAssignment a) w).
Proof.
  intros Hinv. pose proof Hinv as (Hd & Ht & Ha & Hu).
  simpl. rewrite create_assignment_unfold.
  repeat case_match; simpl; try done.
  match goal with H : Repository.create _ _ = _ |- _ => rename H into Hc end.
  unfold Repository.create in Hc. simplify_eq.
  apply world_inv_intro; try done.
  - exact (create_wf a _ Ha).
  - apply dict_set_unique; [done|].
    intros k a' Hk Hdate [Hdr|Htr]; exfalso.
    + match goal with
      | Hc : AssignmentService._check_driver_availability _ _ _ _ = (inr ?u, _)
        |- _ =>
          destruct u;
          by pose proof (check_driver_pass _ _ _ _ _ Ha Hu Hc k a' Hk Hdr Hdate)
      end.
    + match goal with
      | Hc : AssignmentService._check_truck_availability _ _ _ _ = (inr ?u, _)
        |- _ =>
          destruct u;
          by pose proof (check_truck_pass _ _ _ _ _ Ha Hu Hc k a' Hk Htr Hdate)
      end.
Qed.

Lemma perform_update_assignment_inv k a w :
  world_inv w → world_inv (perform (UpdateAssignment k a) w).
Proof.
  intros Hinv. pose proof Hinv as (Hd & Ht & Ha & Hu).
  simpl. rewrite update_assignment_unfold.
  repeat case_match; simpl; try done.
  match goal with H : Repository.update _ _ _ = _ |- _ => rename H into Hc end.
  pose proof (update_wf k a _ Ha) as Hwf. rewrite Hc in Hwf.
  apply world_inv_intro; try done.
  unfold Repository.update in Hc.
  destruct (negb _); simplify_eq; [done|].
  apply dict_set_unique; [done|].
  intros k' a' Hk Hdate [Hdr|Htr].
  - match goal with
    | Hc : AssignmentService._check_driver_availability _ _ _ _ = (inr ?u, _)
      |- _ =>
        destruct u;
        pose proof (check_driver_pass _ _ _ _ _ Ha Hu Hc k' a' Hk Hdr Hdate)
    end. congruence.
  - match goal with
    | Hc : AssignmentService._check_truck_availability _ _ _ _ = (inr ?u, _)
      |- _ =>
        destruct u;
        pose proof (check_truck_pass _ _ _ _ _ Ha Hu Hc k' a' Hk Htr Hdate)
    end. congruence.
Qed.

Lemma perform_inv c w : world_inv w → world_inv (perform c w).
Proof.
  destruct c; try apply perform_create_assignment_inv;
    try apply perform_update_assignment_inv;
    intros (Hd & Ht & Ha & Hu); destruct w as [dr tr ar];
    simpl in *; unfold_services; simpl.
  - apply world_inv_intro; try done. exact (create_wf driver dr Hd).
  - pose proof (update_wf driver_id driver dr Hd).
    destruct (Repository.update _ _ _) as [[?|] ?]; by apply world_inv_intro.
  - pose proof (delete_wf driver_id dr Hd).
    destruct (Repository.delete _ _) as [[] ?]; by apply world_inv_intro.
  - apply world_inv_intro; try done. exact (create_wf truck tr Ht).
  - pose proof (update_wf truck_id truck tr Ht).
    destruct (Repository.update _ _ _) as [[?|] ?]; by apply world_inv_intro.
  - pose proof (delete_wf truck_id tr Ht).
    destruct (Repository.delete _ _) as [[] ?]; by apply world_inv_intro.
  - pose proof (delete_wf assignment_id ar Ha) as Hwf.
    unfold Repository.delete in *.
    destruct (dict_contains _ _); simpl in *; apply world_inv_intro; try done.
    by apply dict_del_unique.
Qed.

Lemma init_world_inv : world_inv init_world.
Proof.
  apply world_inv_intro; try apply init_wf. by intros k1 k2 a1 a2 ?.
Qed.

Lemma reachable_inv w : reachable w → world_inv w.
Proof.
  induction 1 as [|c w _ IH]; [apply init_world_inv | by apply perform_inv].
Qed.

Lemma perform_all_reachable cs w : reachable w → reachable (perform_all cs w).
Proof.
  revert w. induction cs as [|c cs IH]; simpl; intros w Hw; [done|].
  apply IH. by constructor.
Qed.

Lemma unique_no_double_booking (self : AssignmentRepository.t) :
  repository_wf self → bookings_unique self → no_double_booking self.
Proof.
  intros (Hnd & _ & _) Huniq d i. unfold Repository.get_all. split.
  - apply dict_values_at_most_one; [done|].
    intros k1 k2 a1 a2 H1 H2 [Hi1 Hd1] [Hi2 Hd2].
    apply (Huniq k1 k2 a1 a2 H1 H2); [|left]; congruence.
  - apply dict_values_at_most_one; [done|].
    intros k1 k2 a1 a2 H1 H2 [Hi1 Hd1] [Hi2 Hd2].
    apply (Huniq k1 k2 a1 a2 H1 H2); [|right]; congruence.
Qed.

End preservation.

(** * The properties of the reachable stores *)

(** C1. In every state of the stores reached from the empty stores by
    calls of the services (the successful assignment calls among them), on
    every date each driver id occurs in at most one stored assignment and
    each truck id occurs in at most one stored assignment. *)
Theorem reachable_no_double_booking (w : World) :
  reachable w → no_double_booking (assignment_repository w).
Proof.
  intros (_ & _ & Ha & Hu)%reachable_inv. by apply unique_no_double_booking.
Qed.

Lemma reachable_no_double_booking_witness :
  no_double_booking (assignment_repository example_world).
Proof.
  apply (reachable_no_double_booking example_world).
  apply perform_all_reachable, reachable_init.
Defined.

(** C3. In a reachable state where assignment [k] is stored, its driver and
    its truck exist and the driver's license covers the truck, updating [k]
    to its own driver, truck and date returns the stored assignment and
    leaves the stores as they are: no conflict is raised. *)
Theorem update_to_same_succeeds
    (w : World) (k : Z) (stored a : Assignment.t)
    (driver : Driver.t) (truck : Truck.t) :
  reachable w →
  Repository.get_by_id k (assignment_repository w) = Some stored →
  Assignment.driver_id a = Assignment.driver_id stored →
  Assignment.truck_id a = Assignment.truck_id stored →
  Assignment.assignment_date a = Assignment.assignment_date stored →
  Repository.get_by_id (Assignment.driver_id a) (driver_repository w)
    = Some driver →
  Repository.get_by_id (Assignment.truck_id a) (truck_repository w)
    = Some truck →
  LicenseType.can_operate
    (Driver.license_type driver) (Truck.minimum_license_type truck)
    = Some true →
  AssignmentService.update_assignment k a w = (inr (Some stored), w).
Proof.
  intros (_ & _ & Ha & Hu)%reachable_inv Hk Hdr Htr Hdate Hdriver Htruck Hcan.
  rewrite update_assignment_unfold, Hk, Hdriver, Htruck.
  rewrite validate_unfold, Hcan; simpl.
  rewrite Hdr, Htr, Hdate.
  rewrite (check_driver_self k stored w Ha Hu Hk).
  rewrite (check_truck_self k stored w Ha Hu Hk).
  assert (set_id (Some k) a = stored) as Hsame.
  { destruct (wf_get_by_id _ k stored Ha Hk) as [Hid _].
    destruct stored, a; simpl in *; congruence. }
  unfold Repository.update.
  assert (dict_contains k (Repository.items (assignment_repository w)) = true)
    as -> by (apply dict_contains_true; eauto).
  cbn [negb]. rewrite Hsame, dict_set_same by done. by destruct w as [? ? []].
Qed.

Lemma update_to_same_succeeds_witness :
  AssignmentService.update_assignment 1 example_assignment example_world
  = (inr (Some (Assignment.Build (Some 1) 1 1 example_date)), example_world).
Proof.
  apply (update_to_same_succeeds example_world 1
           (Assignment.Build (Some 1) 1 1 example_date) example_assignment
           (Driver.Build (Some 1) "John Doe" LicenseType.D)
           (Truck.Build (Some 1) "ABC-1234" LicenseType.C));
    try reflexivity.
  apply perform_all_reachable, reachable_init.
Defined.

(** * The order of the checks of [create_assignment] *)

Section create_outcome.
Context (w : World) (a : Assignment.t) (driver : Driver.t) (truck : Truck.t).
Hypothesis Hinv : world_inv w.
Hypothesis Hdriver :
  Repository.get_by_id (Assignment.driver_id a) (driver_repository w)
  = Some driver.
Hypothesis Htruck :
  Repository.get_by_id (Assignment.truck_id a) (truck_repository w)
  = Some truck.

Let stored := Repository.get_all (assignment_repository w).
Let next := Repository.next_id (assignment_repository w).

Lemma create_invalid_license :
  LicenseType.can_operate
    (Driver.license_type driver) (Truck.minimum_license_type truck)
    = Some false →
  AssignmentService.create_assignment a w
  = (inl (ValidationException
            (LicenseType.value (Driver.license_type driver))
            (LicenseType.value (Truck.minimum_license_type truck))), w).
Proof.
  intros Hcan. by rewrite create_assignment_unfold, Hdriver, Htruck,
    validate_unfold, Hcan.
Qed.

Hypothesis Hcan :
  LicenseType.can_operate
    (Driver.license_type driver) (Truck.minimum_license_type truck)
  = Some true.

Lemma create_driver_busy ex :
  ex ∈ stored →
  Assignment.driver_id ex = Assignment.driver_id a →
  Assignment.assignment_date ex = Assignment.assignment_date a →
  ∃ ex', ex' ∈ stored
         ∧ Assignment.driver_id ex' = Assignment.driver_id a
         ∧ Assignment.assignment_date ex' = Assignment.assignment_date a
         ∧ AssignmentService.create_assignment a w
           = (inl (ConflictException
                     (DriverAlreadyAssigned (Assignment.driver_id a)
                        (Assignment.truck_id ex')
                        (Assignment.assignment_date a))), w).
Proof.
  intros Hin Hi Hd. destruct Hinv as (_ & _ & Ha & _).
  destruct (check_driver_conflict _ _ w ex Ha Hin Hi Hd)
    as (ex' & Hin' & Hi' & Hd' & Hc).
  exists ex'. split_and!; try done.
  by rewrite create_assignment_unfold, Hdriver, Htruck, validate_unfold,
    Hcan, Hc.
Qed.

Hypothesis Hdriver_free :
  ¬ ∃ ex, ex ∈ stored
          ∧ Assignment.driver_id ex = Assignment.driver_id a
          ∧ Assignment.assignment_date ex = Assignment.assignment_date a.

Lemma create_driver_check_passes :
  AssignmentService._check_driver_availability
    (Assignment.driver_id a) (Assignment.assignment_date a) None w
  = (inr tt, w).
Proof.
  rewrite check_driver_unfold.
  destruct (AssignmentRepository.find_by_driver_and_date _ _ _) as [ex|] eqn:Hf;
    [|done].
  apply find_by_driver_and_date_Some in Hf. destruct Hdriver_free. by exists ex.
Qed.

Lemma create_truck_busy ex :
  ex ∈ stored →
  Assignment.truck_id ex = Assignment.truck_id a →
  Assignment.assignment_date ex = Assignment.assignment_date a →
  ∃ ex', ex' ∈ stored
         ∧ Assignment.truck_id ex' = Assignment.truck_id a
         ∧ Assignment.assignment_date ex' = Assignment.assignment_date a
         ∧ AssignmentService.create_assignment a w
           = (inl (ConflictException
                     (TruckAlreadyAssigned (Assignment.truck_id a)
                        (Assignment.driver_id ex')
                        (Assignment.assignment_date a))), w).
Proof.
  intros Hin Hi Hd. destruct Hinv as (_ & _ & Ha & _).
  destruct (check_truck_conflict _ _ w ex Ha Hin Hi Hd)
    as (ex' & Hin' & Hi' & Hd' & Hc).
  exists ex'. split_and!; try done.
  by rewrite create_assignment_unfold, Hdriver, Htruck, validate_unfold,
    Hcan, create_driver_check_passes, Hc.
Qed.

Hypothesis Htruck_free :
  ¬ ∃ ex, ex ∈ stored
          ∧ Assignment.truck_id ex = Assignment.truck_id a
          ∧ Assignment.assignment_date ex = Assignment.assignment_date a.

Lemma create_truck_check_passes :
  AssignmentService._check_truck_availability
    (Assignment.truck_id a) (Assignment.assignment_date a) None w
  = (inr tt, w).
Proof.
  rewrite check_truck_unfold.
  destruct (AssignmentRepository.find_by_truck_and_date _ _ _) as [ex|] eqn:Hf;
    [|done].
  apply find_by_truck_and_date_Some in Hf. destruct Htruck_free. by exists ex.
Qed.

Lemma create_succeeds :
  Repository.get_by_id next (assignment_repository w) = None
  ∧ AssignmentService.create_assignment a w
    = (inr (set_id (Some next) a),
       MkWorld (driver_repository w) (truck_repository w)
         (Repository.Build
            (Repository.items (assignment_repository w)
               ++ [(next, set_id (Some next) a)])
            (next + 1))).
Proof.
  destruct Hinv as (_ & _ & Ha & _).
  pose proof (wf_next_id_fresh _ Ha) as Hfresh. split; [done|].
  rewrite create_assignment_unfold, Hdriver, Htruck, validate_unfold, Hcan,
    create_driver_check_passes, create_truck_check_passes.
  cbn [negb]. unfold Repository.create. by rewrite dict_set_fresh.
Qed.

End create_outcome.

(** C2. In a reachable state [create_assignment] applies its checks in this
    order, the first that fails deciding the exception: it raises
    [ResourceNotFoundException] for the driver iff the driver id is absent;
    otherwise for the truck iff the truck id is absent; otherwise
    [ValidationException] iff the driver's license cannot operate the truck;
    otherwise a conflict naming the truck of a stored assignment of that
    driver on that date iff there is one; otherwise a conflict naming the
    driver of a stored assignment of that truck on that date iff there is
    one; otherwise it returns the assignment with the counter as its id, an
    id under which nothing was stored, and appends it to the store. *)
Theorem create_assignment_check_order (w : World) (a : Assignment.t) :
  reachable w →
  let drivers := driver_repository w in
  let trucks := truck_repository w in
  let stored := Repository.get_all (assignment_repository w) in
  let next := Repository.next_id (assignment_repository w) in
  let outcome := AssignmentService.create_assignment a w in
  let driver_busy :=
    ∃ ex, ex ∈ stored
          ∧ Assignment.driver_id ex = Assignment.driver_id a
          ∧ Assignment.assignment_date ex = Assignment.assignment_date a in
  let truck_busy :=
    ∃ ex, ex ∈ stored
          ∧ Assignment.truck_id ex = Assignment.truck_id a
          ∧ Assignment.assignment_date ex = Assignment.assignment_date a in
  (outcome.1 = inl (ResourceNotFoundException "Driver" (Assignment.driver_id a))
   ↔ Repository.get_by_id (Assignment.driver_id a) drivers = None)
  ∧ ∀ driver,
      Repository.get_by_id (Assignment.driver_id a) drivers = Some driver →
  (outcome.1 = inl (ResourceNotFoundException "Truck" (Assignment.truck_id a))
   ↔ Repository.get_by_id (Assignment.truck_id a) trucks = None)
  ∧ ∀ truck,
      Repository.get_by_id (Assignment.truck_id a) trucks = Some truck →
  let held := Driver.license_type driver in
  let required := Truck.minimum_license_type truck in
  ((∃ x y, outcome.1 = inl (ValidationException x y))
   ↔ LicenseType.can_operate held required = Some false)
  ∧ (LicenseType.can_operate held required = Some false →
     outcome.1 = inl (ValidationException
                        (LicenseType.value held) (LicenseType.value required)))
  ∧ (LicenseType.can_operate held required = Some true →
  ((∃ i, outcome.1
         = inl (ConflictException
                  (DriverAlreadyAssigned (Assignment.driver_id a) i
                     (Assignment.assignment_date a))))
   ↔ driver_busy)
  ∧ (∀ i, outcome.1
          = inl (ConflictException
                   (DriverAlreadyAssigned (Assignment.driver_id a) i
                      (Assignment.assignment_date a))) →
          ∃ ex, ex ∈ stored
                ∧ Assignment.driver_id ex = Assignment.driver_id a
                ∧ Assignment.assignment_date ex = Assignment.assignment_date a
                ∧ Assignment.truck_id ex = i)
  ∧ (¬ driver_busy →
  ((∃ i, outcome.1
         = inl (ConflictException
                  (TruckAlreadyAssigned (Assignment.truck_id a) i
                     (Assignment.assignment_date a))))
   ↔ truck_busy)
  ∧ (∀ i, outcome.1
          = inl (ConflictException
                   (TruckAlreadyAssigned (Assignment.truck_id a) i
                      (Assignment.assignment_date a))) →
          ∃ ex, ex ∈ stored
                ∧ Assignment.truck_id ex = Assignment.truck_id a
                ∧ Assignment.assignment_date ex = Assignment.assignment_date a
                ∧ Assignment.driver_id ex = i)
  ∧ (¬ truck_busy →
     Repository.get_by_id next (assignment_repository w) = None
     ∧ outcome
       = (inr (set_id (Some next) a),
          MkWorld drivers trucks
            (Repository.Build
               (Repository.items (assignment_repository w)
                  ++ [(next, set_id (Some next) a)])
               (next + 1)))))).
Proof.
  intros Hinv%reachable_inv; simpl. split.
  { split; [|by rewrite create_assignment_unfold; intros ->].
    create_cases; done. }
  intros driver Hdriver. split.
  { split; [|by rewrite create_assignment_unfold, Hdriver; intros ->].
    create_cases; done. }
  intros truck Htruck.
  destruct (can_operate_defined (Driver.license_type driver)
              (Truck.minimum_license_type truck)) as (ok & Hcan).
  destruct ok.
  2:{ pose proof (create_invalid_license w a driver truck Hdriver Htruck Hcan)
        as Hout.
      rewrite Hout, Hcan; simpl. split_and!; [by split; eauto | done | done]. }
  rewrite Hcan. split_and!; [split; [|done] | done |].
  { intros (x & y & Hout). revert Hout. create_cases. }
  intros _.
  assert (Hname : ∀ i,
    (AssignmentService.create_assignment a w).1
    = inl (ConflictException
             (DriverAlreadyAssigned (Assignment.driver_id a) i
                (Assignment.assignment_date a))) →
    ∃ ex, ex ∈ Repository.get_all (assignment_repository w)
          ∧ Assignment.driver_id ex = Assignment.driver_id a
          ∧ Assignment.assignment_date ex = Assignment.assignment_date a
          ∧ Assignment.truck_id ex = i).
  { intros i. create_cases.
    match goal with
    | H : AssignmentRepository.find_by_driver_and_date _ _ _ = Some ?ex |- _ =>
        apply find_by_driver_and_date_Some in H as (? & ? & ?); by exists ex
    end. }
  split_and!; [split | done |].
  { intros [i (ex & ? & ? & ? & _)%Hname]. by exists ex. }
  { intros (ex & Hin & Hi & Hd).
    destruct (create_driver_busy w a driver truck Hinv Hdriver Htruck Hcan
                ex Hin Hi Hd) as (ex' & _ & _ & _ & ->).
    by eexists. }
  intros Hdfree.
  assert (Hname' : ∀ i,
    (AssignmentService.create_assignment a w).1
    = inl (ConflictException
             (TruckAlreadyAssigned (Assignment.truck_id a) i
                (Assignment.assignment_date a))) →
    ∃ ex, ex ∈ Repository.get_all (assignment_repository w)
          ∧ Assignment.truck_id ex = Assignment.truck_id a
          ∧ Assignment.assignment_date ex = Assignment.assignment_date a
          ∧ Assignment.driver_id ex = i).
  { intros i. create_cases.
    match goal with
    | H : AssignmentRepository.find_by_truck_and_date _ _ _ = Some ?ex |- _ =>
        apply find_by_truck_and_date_Some in H as (? & ? & ?); by exists ex
    end. }
  split_and!; [split | done |].
  { intros [i (ex & ? & ? & ? & _)%Hname']. by exists ex. }
  { intros (ex & Hin & Hi & Hd).
    destruct (create_truck_busy w a driver truck Hinv Hdriver Htruck
                Hcan Hdfree ex Hin Hi Hd) as (ex' & _ & _ & _ & ->).
    by eexists. }
  intros Htfree.
  apply (create_succeeds w a driver truck Hinv Hdriver Htruck Hcan
           Hdfree Htfree).
Qed.

Lemma create_assignment_check_order_witness :
  (AssignmentService.create_assignment
     (Assignment.Build None 7 1 example_date) example_world).1
  = inl (ResourceNotFoundException "Driver" 7).
Proof.
  destruct (create_assignment_check_order example_world
              (Assignment.Build None 7 1 example_date)) as [[_ Habsent] _].
  - apply perform_all_reachable, reachable_init.
  - apply Habsent. reflexivity.
Defined.

(** * Further properties of the repositories *)

Section dict_more.
Context {K V : Type} `{EqDecision K}.
Implicit Types (k : K) (v : V) (d : dict K V).

Lemma dict_keys_del k d :
  dict_keys (dict_del k d) = filter (λ k', k' ≠ k) (dict_keys d).
Proof.
  unfold dict_keys, dict_del. induction d as [|[k0 v0] d IH]; csimpl; [done|].
  destruct (decide (k0 ≠ k)).
  - rewrite !filter_cons_True by done. csimpl. by rewrite IH.
  - by rewrite !filter_cons_False by done.
Qed.

Lemma dict_del_absent k d : dict_get k d = None → dict_del k d = d.
Proof.
  unfold dict_del. induction d as [|[k0 v0] d IH]; csimpl; [done|].
  destruct (decide (k0 = k)); [done|]. intros Hd.
  rewrite filter_cons_True by done. by rewrite IH.
Qed.

Lemma dict_del_length k v d :
  NoDup (dict_keys d) → dict_get k d = Some v →
  S (length (dict_del k d)) = length d.
Proof.
  unfold dict_keys. induction d as [|[k0 v0] d IH]; csimpl; [done|].
  rewrite NoDup_cons. intros [Hk0 Hnd].
  destruct (decide (k0 = k)) as [->|Hne]; intros Hget.
  - unfold dict_del. rewrite filter_cons_False by (by intros []).
    fold (dict_del k d). rewrite dict_del_absent; [done|].
    by apply dict_get_None_key.
  - unfold dict_del. rewrite filter_cons_True by done. csimpl.
    fold (dict_del k d). by rewrite IH.
Qed.

Lemma dict_values_set_fresh k v d :
  dict_get k d = None → dict_values (dict_set k v d) = dict_values d ++ [v].
Proof.
  intros Hd. rewrite dict_set_fresh by done. unfold dict_values.
  by rewrite fmap_app.
Qed.

End dict_more.

Section repository_methods.
Context {E : Type} `{EntityLaws E}.
Implicit Types (self : Repository.t E) (entity : E).

Lemma create_get entity self :
  let created := set_id (Some (Repository.next_id self)) entity in
  Repository.create entity self
  = (created,
     Repository.Build
       (dict_set (Repository.next_id self) created (Repository.items self))
       (Repository.next_id self + 1))
  ∧ get_id created = Some (Repository.next_id self)
  ∧ Repository.get_by_id (Repository.next_id self)
      (Repository.create entity self).2 = Some created
  ∧ ∀ k, k ≠ Repository.next_id self →
         Repository.get_by_id k (Repository.create entity self).2
         = Repository.get_by_id k self.
Proof.
  unfold Repository.create, Repository.get_by_id; simpl. split_and!.
  - done.
  - apply get_set_id.
  - by rewrite dict_get_set, decide_True.
  - intros k Hk. by rewrite dict_get_set, decide_False.
Qed.

Lemma update_present entity_id entity self :
  is_Some (Repository.get_by_id entity_id self) →
  let updated := set_id (Some entity_id) entity in
  let self' := (Repository.update entity_id entity self).2 in
  (Repository.update entity_id entity self).1 = Some updated
  ∧ Repository.get_by_id entity_id self' = Some updated
  ∧ (∀ k, k ≠ entity_id →
          Repository.get_by_id k self' = Repository.get_by_id k self)
  ∧ dict_keys (Repository.items self') = dict_keys (Repository.items self)
  ∧ Repository.next_id self' = Repository.next_id self.
Proof.
  unfold Repository.update, Repository.get_by_id.
  intros Hget. pose proof Hget as Hc%dict_contains_true. rewrite Hc; simpl.
  split_and!; [done| | | |done].
  - by rewrite dict_get_set, decide_True.
  - intros k Hk. by rewrite dict_get_set, decide_False.
  - by apply dict_keys_set_present.
Qed.

Lemma delete_missing entity_id self :
  Repository.get_by_id entity_id self = None ↔
  Repository.delete entity_id self = (false, self).
Proof.
  unfold Repository.delete, Repository.get_by_id, dict_contains.
  destruct (dict_get _ _); split; try done.
Qed.

End repository_methods.

Ltac unfold_listings :=
  unfold DriverService.get_all_drivers, TruckService.get_all_trucks,
    AssignmentService.get_all_assignments,
    AssignmentService.get_assignments_by_date in *;
  unfold_services.

(** X4. A delete raises [ResourceNotFoundException] for its own kind and
    leaves the stores as they are exactly when the id is not stored, in each
    of the three services. *)
Theorem delete_not_found_iff_absent (w : World) (i : Z) :
  (DriverService.delete_driver i w
   = (inl (ResourceNotFoundException "Driver" i), w)
   ↔ Repository.get_by_id i (driver_repository w) = None)
  ∧ (TruckService.delete_truck i w
     = (inl (ResourceNotFoundException "Truck" i), w)
     ↔ Repository.get_by_id i (truck_repository w) = None)
  ∧ (AssignmentService.delete_assignment i w
     = (inl (ResourceNotFoundException "Assignment" i), w)
     ↔ Repository.get_by_id i (assignment_repository w) = None).
Proof.
  destruct w as [dr tr ar]. unfold_services; simpl. split_and!.
  - rewrite (delete_missing i dr).
    destruct (Repository.delete i dr) as [[] ?]; simpl; split; intros;
      by simplify_eq.
  - rewrite (delete_missing i tr).
    destruct (Repository.delete i tr) as [[] ?]; simpl; split; intros;
      by simplify_eq.
  - rewrite (delete_missing i ar).
    destruct (Repository.delete i ar) as [[] ?]; simpl; split; intros;
      by simplify_eq.
Qed.

(** * What a call touches *)

Lemma perform_repo_steps (c : Call) (w : World) :
  repo_step (driver_repository w) (driver_repository (perform c w))
  ∧ repo_step (truck_repository w) (truck_repository (perform c w))
  ∧ repo_step (assignment_repository w) (assignment_repository (perform c w)).
Proof.
  destruct c; simpl.
  1-6,9: destruct w as [dr tr ar]; unfold_services; simpl.
  - split_and!; [exact (repo_step_create dr driver) | constructor..].
  - pose proof (repo_step_update dr driver_id driver) as Hs.
    destruct (Repository.update _ _ _) as [[?|] ?]; simpl in *;
      split_and!; (done || constructor).
  - pose proof (repo_step_delete dr driver_id) as Hs.
    destruct (Repository.delete _ _) as [[] ?]; simpl in *;
      split_and!; (done || constructor).
  - split_and!; [constructor | exact (repo_step_create tr truck) | constructor].
  - pose proof (repo_step_update tr truck_id truck) as Hs.
    destruct (Repository.update _ _ _) as [[?|] ?]; simpl in *;
      split_and!; (done || constructor).
  - pose proof (repo_step_delete tr truck_id) as Hs.
    destruct (Repository.delete _ _) as [[] ?]; simpl in *;
      split_and!; (done || constructor).
  - pose proof (repo_step_delete ar assignment_id) as Hs.
    destruct (Repository.delete _ _) as [[] ?]; simpl in *;
      split_and!; (done || constructor).
  - rewrite create_assignment_unfold.
    pose proof (repo_step_create (assignment_repository w) assignment) as Hs.
    destruct (Repository.create _ _) as [? ?].
    repeat case_match; simpl in *; split_and!; (done || constructor).
  - rewrite update_assignment_unfold.
    pose proof (repo_step_update (assignment_repository w) assignment_id
                  assignment) as Hs.
    destruct (Repository.update _ _ _) as [? ?].
    repeat case_match; simpl in *; split_and!; (done || constructor).
Qed.

(** X6. A call of a driver service method leaves the truck and assignment
    stores as they are, a call of a truck service method leaves the driver
    and assignment stores, and a call of an assignment service method leaves
    the driver and truck stores, whether the call returns or raises. *)
Theorem call_touches_one_store (c : Call) (w : World) :
  match c with
  | CreateDriver _ | UpdateDriver _ _ | DeleteDriver _ =>
      truck_repository (perform c w) = truck_repository w
      ∧ assignment_repository (perform c w) = assignment_repository w
  | CreateTruck _ | UpdateTruck _ _ | DeleteTruck _ =>
      driver_repository (perform c w) = driver_repository w
      ∧ assignment_repository (perform c w) = assignment_repository w
  | CreateAssignment _ | UpdateAssignment _ _ | DeleteAssignment _ =>
      driver_repository (perform c w) = driver_repository w
      ∧ truck_repository (perform c w) = truck_repository w
  end.
Proof.
  destruct c; simpl.
  1-6,9: destruct w as [dr tr ar]; unfold_services; simpl;
    repeat case_match; by simplify_eq/=.
  - rewrite create_assignment_unfold. repeat case_match; by simplify_eq/=.
  - rewrite update_assignment_unfold. repeat case_match; by simplify_eq/=.
Qed.

(** * Keys are in ascending order *)

Lemma StronglySorted_filter_lt (P : Z → Prop) `{∀ x, Decision (P x)} (l : list Z) :
  StronglySorted Z.lt l → StronglySorted Z.lt (filter P l).
Proof.
  induction l as [|x l IH]; [done|].
  rewrite StronglySorted_cons. intros [Hx Hl].
  destruct (decide (P x)).
  - rewrite filter_cons_True by done. apply StronglySorted_cons. split; [|auto].
    apply Forall_forall. intros y [_ Hy]%list_elem_of_filter.
    by eapply Forall_forall in Hx.
  - rewrite filter_cons_False by done. auto.
Qed.

Section ascending.
Context {E : Type} `{EntityLaws E}.
Implicit Types self : Repository.t E.

Lemma wf_listed_ids self :
  repository_wf self →
  get_id <$> Repository.get_all self
  = Some <$> dict_keys (Repository.items self).
Proof.
  intros (_ & _ & Hent). unfold Repository.get_all, dict_values, dict_keys.
  unfold dict_items in Hent.
  induction (Repository.items self) as [|[k e] d IH]; csimpl; [done|].
  destruct (Hent k e) as [-> _]; [left|]. f_equal. apply IH.
  intros ???. apply Hent. by right.
Qed.

Lemma repo_step_keys_sorted self self' :
  repository_wf self →
  StronglySorted Z.lt (dict_keys (Repository.items self)) →
  repo_step self self' →
  StronglySorted Z.lt (dict_keys (Repository.items self')).
Proof.
  intros Hwf Hsorted [|entity|entity_id entity|entity_id]; [done|..].
  - simpl. rewrite dict_set_fresh by (by apply wf_next_id_fresh).
    unfold dict_keys in *. rewrite fmap_app. csimpl.
    apply StronglySorted_app_2; [|done|repeat constructor].
    intros k1 k2 Hk1 ->%list_elem_of_singleton.
    apply list_elem_of_fmap in Hk1 as ([k e] & -> & Hin).
    destruct Hwf as (_ & _ & Hent). destruct (Hent k e Hin). simpl. lia.
  - unfold Repository.update.
    destruct (dict_contains entity_id _) eqn:Hc; simpl; [|done].
    rewrite dict_keys_set_present; [done|]. by apply dict_contains_true.
  - unfold Repository.delete. destruct (dict_contains entity_id _); simpl; [|done].
    rewrite dict_keys_del. by apply StronglySorted_filter_lt.
Qed.

Lemma repo_step_wf self self' :
  repository_wf self → repo_step self self' → repository_wf self'.
Proof.
  intros Hwf [| | |]; [done|..].
  - by apply create_wf.
  - by apply update_wf.
  - by apply delete_wf.
Qed.

End ascending.

Lemma reachable_keys_sorted (w : World) :
  reachable w →
  StronglySorted Z.lt (dict_keys (Repository.items (driver_repository w)))
  ∧ StronglySorted Z.lt (dict_keys (Repository.items (truck_repository w)))
  ∧ StronglySorted Z.lt (dict_keys (Repository.items (assignment_repository w))).
Proof.
  induction 1 as [|c w Hr (Hd & Ht & Ha)]; [repeat constructor|].
  apply reachable_inv in Hr as (Hwd & Hwt & Hwa & _).
  destruct (perform_repo_steps c w) as (Hsd & Hst & Hsa).
  split_and!; eapply repo_step_keys_sorted; eauto.
Qed.

(** * Exceptions of the services *)

Lemma validate_raises x y w e w' :
  AssignmentService._validate_license_compatibility x y w = (inl e, w') →
  e = ValidationException (LicenseType.value x) (LicenseType.value y)
  ∧ LicenseType.can_operate x y = Some false.
Proof.
  rewrite validate_unfold.
  destruct (can_operate_defined x y) as [[] ->]; simpl; intros; by simplify_eq.
Qed.

(** X8. Every exception raised by a service method carries an HTTP status:
    the driver and truck services and the [get] and [delete] of the
    assignment service raise nothing but [ResourceNotFoundException] for the
    id asked for (404), and [create_assignment] and [update_assignment] raise
    nothing but exceptions with status 404, 422 or 409, never a [KeyError];
    [create_driver] and [create_truck] never raise. *)
Theorem service_exceptions_have_status (w : World) (i : Z) (e : Exception) :
  ((DriverService.get_driver i w).1 = inl e
   ∨ (DriverService.delete_driver i w).1 = inl e
   ∨ (∃ driver, (DriverService.update_driver i driver w).1 = inl e) →
   e = ResourceNotFoundException "Driver" i)
  ∧ ((TruckService.get_truck i w).1 = inl e
     ∨ (TruckService.delete_truck i w).1 = inl e
     ∨ (∃ truck, (TruckService.update_truck i truck w).1 = inl e) →
     e = ResourceNotFoundException "Truck" i)
  ∧ ((AssignmentService.get_assignment i w).1 = inl e
     ∨ (AssignmentService.delete_assignment i w).1 = inl e →
     e = ResourceNotFoundException "Assignment" i)
  ∧ (∀ a, (AssignmentService.create_assignment a w).1 = inl e
          ∨ (AssignmentService.update_assignment i a w).1 = inl e →
          status_code e = Some 404 ∨ status_code e = Some 422
          ∨ status_code e = Some 409)
  ∧ (∀ driver, (DriverService.create_driver driver w).1 ≠ inl e)
  ∧ (∀ truck, (TruckService.create_truck truck w).1 ≠ inl e).
Proof.
  split_and!.
  - destruct w as [dr tr ar]. unfold_services; simpl.
    intros [He | [He | [driver He]]]; revert He;
      repeat case_match; simpl; intros; by simplify_eq.
  - destruct w as [dr tr ar]. unfold_services; simpl.
    intros [He | [He | [truck He]]]; revert He;
      repeat case_match; simpl; intros; by simplify_eq.
  - destruct w as [dr tr ar]. unfold_services; simpl.
    intros [He | He]; revert He;
      repeat case_match; simpl; intros; by simplify_eq.
  - intros a [He | He]; revert He;
      [rewrite create_assignment_unfold | rewrite update_assignment_unfold];
      repeat case_match; simpl; intros; simplify_eq; auto;
      repeat match goal with
        | Hv : AssignmentService._validate_license_compatibility _ _ _
               = (inl _, _) |- _ => apply validate_raises in Hv as [-> _]
        | Hc : AssignmentService._check_driver_availability _ _ _ _
               = (inl _, _) |- _ =>
            apply check_driver_errors in Hc as (? & _ & ->)
        | Hc : AssignmentService._check_truck_availability _ _ _ _
               = (inl _, _) |- _ =>
            apply check_truck_errors in Hc as (? & _ & ->)
        end; simpl; auto.
  - by destruct w.
  - by destruct w.
Qed.

Lemma service_exceptions_have_status_witness :
  status_code (ConflictException (DriverAlreadyAssigned 1 1 example_date))
    = Some 404
  ∨ status_code (ConflictException (DriverAlreadyAssigned 1 1 example_date))
    = Some 422
  ∨ status_code (ConflictException (DriverAlreadyAssigned 1 1 example_date))
    = Some 409.
Proof.
  apply (service_exceptions_have_status example_world 1
           (ConflictException (DriverAlreadyAssigned 1 1 example_date)))
    with (a := example_assignment).
  left. reflexivity.
Defined.

(** * The checks with an excluded assignment *)

Section exclusion.
Context (w : World).
Hypothesis Hwf : repository_wf (assignment_repository w).
Hypothesis Huniq : bookings_unique (assignment_repository w).

(** A stored assignment other than the excluded one is reported, with its
    own truck (driver). *)
Lemma check_driver_conflict_exact i d excl j ex :
  Repository.get_by_id j (assignment_repository w) = Some ex →
  excl ≠ Some j →
  Assignment.driver_id ex = i → Assignment.assignment_date ex = d →
  AssignmentService._check_driver_availability i d excl w
  = (inl (ConflictException
            (DriverAlreadyAssigned i (Assignment.truck_id ex) d)), w).
Proof.
  intros Hj Hexcl Hi Hd. rewrite check_driver_unfold.
  destruct (AssignmentRepository.find_by_driver_and_date _ _ _) as [ex'|] eqn:Hf.
  - apply find_by_driver_and_date_Some in Hf as (Hin & Hi' & Hd').
    destruct (wf_value _ ex' Hwf Hin) as (kx & Hkx & Hidx).
    assert (kx = j) as ->
      by (apply (Huniq kx j ex' ex Hkx Hj); [|left]; congruence).
    assert (ex' = ex) as -> by congruence.
    simpl in Hidx. rewrite bool_decide_eq_true_2; [done | congruence].
  - exfalso. eapply find_by_driver_and_date_None; eauto.
    by eapply dict_get_value.
Qed.

Lemma check_truck_conflict_exact i d excl j ex :
  Repository.get_by_id j (assignment_repository w) = Some ex →
  excl ≠ Some j →
  Assignment.truck_id ex = i → Assignment.assignment_date ex = d →
  AssignmentService._check_truck_availability i d excl w
  = (inl (ConflictException
            (TruckAlreadyAssigned i (Assignment.driver_id ex) d)), w).
Proof.
  intros Hj Hexcl Hi Hd. rewrite check_truck_unfold.
  destruct (AssignmentRepository.find_by_truck_and_date _ _ _) as [ex'|] eqn:Hf.
  - apply find_by_truck_and_date_Some in Hf as (Hin & Hi' & Hd').
    destruct (wf_value _ ex' Hwf Hin) as (kx & Hkx & Hidx).
    assert (kx = j) as ->
      by (apply (Huniq kx j ex' ex Hkx Hj); [|right]; congruence).
    assert (ex' = ex) as -> by congruence.
    simpl in Hidx. rewrite bool_decide_eq_true_2; [done | congruence].
  - exfalso. eapply find_by_truck_and_date_None; eauto.
    by eapply dict_get_value.
Qed.

(** When only the excluded assignment can hold the driver (truck) on the
    date, the check passes. *)
Lemma check_driver_pass_others i d k :
  (∀ j ex, Repository.get_by_id j (assignment_repository w) = Some ex →
           Assignment.driver_id ex = i → Assignment.assignment_date ex = d →
           j = k) →
  AssignmentService._check_driver_availability i d (Some k) w = (inr tt, w).
Proof.
  intros Honly. rewrite check_driver_unfold.
  destruct (AssignmentRepository.find_by_driver_and_date _ _ _) as [ex|] eqn:Hf;
    [|done].
  apply find_by_driver_and_date_Some in Hf as (Hin & Hi & Hd).
  destruct (wf_value _ ex Hwf Hin) as (kx & Hkx & Hidx).
  rewrite (Honly kx ex Hkx Hi Hd) in Hidx. simpl in Hidx.
  rewrite bool_decide_eq_false_2; [done|]. by intros [].
Qed.

Lemma check_truck_pass_others i d k :
  (∀ j ex, Repository.get_by_id j (assignment_repository w) = Some ex →
           Assignment.truck_id ex = i → Assignment.assignment_date ex = d →
           j = k) →
  AssignmentService._check_truck_availability i d (Some k) w = (inr tt, w).
Proof.
  intros Honly. rewrite check_truck_unfold.
  destruct (AssignmentRepository.find_by_truck_and_date _ _ _) as [ex|] eqn:Hf;
    [|done].
  apply find_by_truck_and_date_Some in Hf as (Hin & Hi & Hd).
  destruct (wf_value _ ex Hwf Hin) as (kx & Hkx & Hidx).
  rewrite (Honly kx ex Hkx Hi Hd) in Hidx. simpl in Hidx.
  rewrite bool_decide_eq_false_2; [done|]. by intros [].
Qed.

End exclusion.

(** X9. In a reachable state [update_assignment k a] raises
    [ResourceNotFoundException] for the assignment exactly when [k] is not
    stored, whatever else is wrong; with [k] stored it raises it for an absent
    driver, else for an absent truck, else [ValidationException] for an
    insufficient license; else a conflict naming the truck of the other
    assignment (one stored under a key other than [k]) that holds the driver
    on the date, else a conflict naming the driver of the other assignment
    holding the truck; else it stores [a] with id [k] under [k], in place,
    and returns it, the counter unchanged. *)
Theorem update_assignment_check_order (w : World) (k : Z) (a : Assignment.t) :
  reachable w →
  let stored := assignment_repository w in
  let outcome := AssignmentService.update_assignment k a w in
  (outcome = (inl (ResourceNotFoundException "Assignment" k), w)
   ↔ Repository.get_by_id k stored = None)
  ∧ (is_Some (Repository.get_by_id k stored) →
     (Repository.get_by_id (Assignment.driver_id a) (driver_repository w) = None →
      outcome
      = (inl (ResourceNotFoundException "Driver" (Assignment.driver_id a)), w))
     ∧ ∀ driver,
         Repository.get_by_id (Assignment.driver_id a) (driver_repository w)
         = Some driver →
     (Repository.get_by_id (Assignment.truck_id a) (truck_repository w) = None →
      outcome
      = (inl (ResourceNotFoundException "Truck" (Assignment.truck_id a)), w))
     ∧ ∀ truck,
         Repository.get_by_id (Assignment.truck_id a) (truck_repository w)
         = Some truck →
     let held := Driver.license_type driver in
     let required := Truck.minimum_license_type truck in
     (LicenseType.can_operate held required = Some false →
      outcome
      = (inl (ValidationException
                (LicenseType.value held) (LicenseType.value required)), w))
     ∧ (LicenseType.can_operate held required = Some true →
        (∀ j ex, j ≠ k → Repository.get_by_id j stored = Some ex →
                 Assignment.driver_id ex = Assignment.driver_id a →
                 Assignment.assignment_date ex = Assignment.assignment_date a →
                 outcome
                 = (inl (ConflictException
                           (DriverAlreadyAssigned (Assignment.driver_id a)
                              (Assignment.truck_id ex)
                              (Assignment.assignment_date a))), w))
        ∧ ((∀ j ex, Repository.get_by_id j stored = Some ex →
                    Assignment.driver_id ex = Assignment.driver_id a →
                    Assignment.assignment_date ex = Assignment.assignment_date a →
                    j = k) →
           (∀ j ex, j ≠ k → Repository.get_by_id j stored = Some ex →
                    Assignment.truck_id ex = Assignment.truck_id a →
                    Assignment.assignment_date ex = Assignment.assignment_date a →
                    outcome
                    = (inl (ConflictException
                              (TruckAlreadyAssigned (Assignment.truck_id a)
                                 (Assignment.driver_id ex)
                                 (Assignment.assignment_date a))), w))
           ∧ ((∀ j ex, Repository.get_by_id j stored = Some ex →
                       Assignment.truck_id ex = Assignment.truck_id a →
                       Assignment.assignment_date ex
                       = Assignment.assignment_date a →
                       j = k) →
              outcome
              = (inr (Some (set_id (Some k) a)),
                 MkWorld (driver_repository w) (truck_repository w)
                   (Repository.Build
                      (dict_set k (set_id (Some k) a) (Repository.items stored))
                      (Repository.next_id stored))))))).
Proof.
  intros (_ & _ & Hwf & Huniq)%reachable_inv; simpl. split.
  { rewrite update_assignment_unfold. split; [|by intros ->].
    repeat case_match; simpl; intros; simplify_eq; check_errors; done. }
  intros [old Hold]. rewrite update_assignment_unfold, Hold. split.
  { by intros ->. }
  intros driver ->. split; [by intros ->|]. intros truck ->.
  rewrite validate_unfold. split; [by intros ->|]. intros ->. cbn [negb].
  split.
  { intros j ex Hj Hget Hi Hd.
    rewrite (check_driver_conflict_exact w Hwf Huniq _ _ (Some k) j ex);
      [done..| |done|done]. congruence. }
  intros Hdriver. rewrite (check_driver_pass_others w Hwf _ _ k Hdriver).
  split.
  { intros j ex Hj Hget Hi Hd.
    rewrite (check_truck_conflict_exact w Hwf Huniq _ _ (Some k) j ex);
      [done..| |done|done]. congruence. }
  intros Htruck. rewrite (check_truck_pass_others w Hwf _ _ k Htruck).
  unfold Repository.update.
  assert (dict_contains k (Repository.items (assignment_repository w)) = true)
    as -> by (apply dict_contains_true; eauto).
  done.
Qed.

Lemma update_assignment_check_order_witness :
  AssignmentService.update_assignment 5 example_assignment example_world
  = (inl (ResourceNotFoundException "Assignment" 5), example_world).
Proof.
  destruct (update_assignment_check_order example_world 5 example_assignment)
    as [[_ Habsent] _].
  - apply perform_all_reachable, reachable_init.
  - apply Habsent. reflexivity.
Defined.

(** * Bookings over several calls *)

Lemma create_assignment_returns (w w' : World) (a created : Assignment.t) :
  AssignmentService.create_assignment a w = (inr created, w') →
  w' = perform (CreateAssignment a) w
  ∧ created = set_id (Some (Repository.next_id (assignment_repository w))) a
  ∧ Repository.get_by_id (Repository.next_id (assignment_repository w))
      (assignment_repository w') = Some created
  ∧ driver_repository w' = driver_repository w
  ∧ truck_repository w' = truck_repository w.
Proof.
  intros Hout. split; [by simpl; rewrite Hout|].
  revert Hout. rewrite create_assignment_unfold.
  destruct (create_get a (assignment_repository w)) as (Hc & _ & Hget & _).
  repeat case_match; simpl; intros; simplify_eq. simpl in *. by split_and!.
Qed.

(** X10. In a reachable state, once [create_assignment a] has returned, a
    further [create_assignment] for the same driver on the same date raises
    the conflict that names the truck of [a], and one for the same truck on
    the same date with a driver who is free that day raises the conflict that
    names the driver of [a] (the second driver and truck existing with a
    sufficient license). *)
Theorem created_assignment_blocks_driver_and_truck
    (w w' : World) (a created b : Assignment.t)
    (driver : Driver.t) (truck : Truck.t) :
  reachable w →
  AssignmentService.create_assignment a w = (inr created, w') →
  Assignment.assignment_date b = Assignment.assignment_date a →
  Repository.get_by_id (Assignment.driver_id b) (driver_repository w')
    = Some driver →
  Repository.get_by_id (Assignment.truck_id b) (truck_repository w')
    = Some truck →
  LicenseType.can_operate
    (Driver.license_type driver) (Truck.minimum_license_type truck)
    = Some true →
  (Assignment.driver_id b = Assignment.driver_id a →
   AssignmentService.create_assignment b w'
   = (inl (ConflictException
             (DriverAlreadyAssigned (Assignment.driver_id a)
                (Assignment.truck_id a) (Assignment.assignment_date a))), w'))
  ∧ (Assignment.truck_id b = Assignment.truck_id a →
     AssignmentRepository.find_by_driver_and_date
       (Assignment.driver_id b) (Assignment.assignment_date b)
       (assignment_repository w') = None →
     AssignmentService.create_assignment b w'
     = (inl (ConflictException
               (TruckAlreadyAssigned (Assignment.truck_id a)
                  (Assignment.driver_id a) (Assignment.assignment_date a))), w')).
Proof.
  intros Hr Hout Hdate Hdriver Htruck Hcan.
  apply create_assignment_returns in Hout as (Hw' & Hc & Hget & _ & _).
  assert (reachable w') as (_ & _ & Hwf & Huniq)%reachable_inv
    by (rewrite Hw'; by constructor).
  assert (Assignment.driver_id created = Assignment.driver_id a
          ∧ Assignment.truck_id created = Assignment.truck_id a
          ∧ Assignment.assignment_date created = Assignment.assignment_date a)
    as (Hcd & Hct & Hcdate) by (by rewrite Hc).
  rewrite create_assignment_unfold, Hdriver, Htruck, validate_unfold, Hcan.
  cbn [negb]. split.
  - intros Hsame.
    rewrite (check_driver_conflict_exact w' Hwf Huniq _ _ None _ created Hget);
      [|done|congruence..].
    by rewrite Hsame, Hdate, Hct.
  - intros Hsame Hfree. rewrite check_driver_unfold, Hfree.
    rewrite (check_truck_conflict_exact w' Hwf Huniq _ _ None _ created Hget);
      [|done|congruence..].
    by rewrite Hsame, Hdate, Hcd.
Qed.

Lemma created_assignment_blocks_driver_and_truck_witness :
  AssignmentService.create_assignment example_assignment example_world
  = (inl (ConflictException (DriverAlreadyAssigned 1 1 example_date)),
     example_world).
Proof.
  apply (created_assignment_blocks_driver_and_truck
           (perform_all [CreateDriver example_driver; CreateTruck example_truck]
              init_world)
           example_world example_assignment
           (Assignment.Build (Some 1) 1 1 example_date) example_assignment
           (Driver.Build (Some 1) "John Doe" LicenseType.D)
           (Truck.Build (Some 1) "ABC-1234" LicenseType.C));
    try reflexivity.
  apply perform_all_reachable, reachable_init.
Defined.

(** X11. In a reachable state, deleting a stored assignment frees its
    driver and its truck on its date: [create_assignment] for the same
    driver, truck and date then returns (the driver and truck existing with a
    sufficient license), and the new assignment gets the counter as its id,
    not the id that was deleted. *)
Theorem deleted_assignment_frees_booking
    (w : World) (k : Z) (s a : Assignment.t)
    (driver : Driver.t) (truck : Truck.t) :
  reachable w →
  Repository.get_by_id k (assignment_repository w) = Some s →
  Assignment.driver_id a = Assignment.driver_id s →
  Assignment.truck_id a = Assignment.truck_id s →
  Assignment.assignment_date a = Assignment.assignment_date s →
  Repository.get_by_id (Assignment.driver_id a) (driver_repository w)
    = Some driver →
  Repository.get_by_id (Assignment.truck_id a) (truck_repository w)
    = Some truck →
  LicenseType.can_operate
    (Driver.license_type driver) (Truck.minimum_license_type truck)
    = Some true →
  let w' := (AssignmentService.delete_assignment k w).2 in
  let n := Repository.next_id (assignment_repository w) in
  (AssignmentService.create_assignment a w').1 = inr (set_id (Some n) a)
  ∧ n ≠ k.
Proof.
  intros Hr Hk Hdr Htr Hdate Hdriver Htruck Hcan; simpl.
  pose proof (reachable_inv _ Hr) as (_ & _ & Hwf & Huniq).
  assert (reachable (perform (DeleteAssignment k) w)) as Hinv'%reachable_inv
    by (by constructor).
  simpl in Hinv'.
  assert ((AssignmentService.delete_assignment k w).2
          = MkWorld (driver_repository w) (truck_repository w)
              (Repository.Build
                 (dict_del k (Repository.items (assignment_repository w)))
                 (Repository.next_id (assignment_repository w)))) as Hw'.
  { destruct w as [dr tr ar]. unfold_services; simpl in *.
    unfold Repository.delete.
    assert (dict_contains k (Repository.items ar) = true) as ->
      by (apply dict_contains_true; eauto).
    done. }
  rewrite Hw' in *. clear Hw'.
  split; [|destruct (wf_get_by_id _ k s Hwf Hk); lia].
  assert (Hgone : ∀ ex,
    ex ∈ Repository.get_all
           (Repository.Build
              (dict_del k (Repository.items (assignment_repository w)))
              (Repository.next_id (assignment_repository w))) →
    Assignment.assignment_date ex = Assignment.assignment_date a →
    Assignment.driver_id ex = Assignment.driver_id a
    ∨ Assignment.truck_id ex = Assignment.truck_id a → False).
  { intros ex Hin Hd Hdt. destruct Hinv' as (_ & _ & Hwf' & _).
    destruct (wf_value _ ex Hwf' Hin) as (j & Hj & _).
    unfold Repository.get_by_id in Hj; simpl in Hj.
    rewrite dict_get_del in Hj. destruct (decide (k = j)); [done|].
    assert (j = k); [|congruence].
    apply (Huniq j k ex s Hj Hk); [congruence|].
    destruct Hdt; [left | right]; congruence. }
  edestruct (create_succeeds _ a driver truck Hinv' Hdriver Htruck Hcan)
    as [_ ->]; [| |done].
  - intros (ex & Hin & Hi & Hd). eapply Hgone; eauto.
  - intros (ex & Hin & Hi & Hd). eapply Hgone; eauto.
Qed.

Lemma deleted_assignment_frees_booking_witness :
  (AssignmentService.create_assignment example_assignment
     (AssignmentService.delete_assignment 1 example_world).2).1
  = inr (Assignment.Build (Some 2) 1 1 example_date).
Proof.
  apply (deleted_assignment_frees_booking example_world 1
           (Assignment.Build (Some 1) 1 1 example_date) example_assignment
           (Driver.Build (Some 1) "John Doe" LicenseType.D)
           (Truck.Build (Some 1) "ABC-1234" LicenseType.C));
    try reflexivity.
  apply perform_all_reachable, reachable_init.
Defined.

(** X12. What [create_assignment] returned, [get_assignment] returns for
    its id, and the id is the counter before the call. [update_assignment]
    never returns [None]: what it returns carries the id asked for with the
    driver, truck and date passed in, and [get_assignment] of that id
    returns it. *)
Theorem get_assignment_after_create_or_update
    (w w' : World) (a : Assignment.t) :
  (∀ created,
      AssignmentService.create_assignment a w = (inr created, w') →
      created = set_id (Some (Repository.next_id (assignment_repository w))) a
      ∧ AssignmentService.get_assignment
          (Repository.next_id (assignment_repository w)) w'
        = (inr created, w'))
  ∧ (∀ k result,
        AssignmentService.update_assignment k a w = (inr result, w') →
        result = Some (set_id (Some k) a)
        ∧ AssignmentService.get_assignment k w'
          = (inr (set_id (Some k) a), w')).
Proof.
  split.
  - intros created (_ & Hc & Hget & _)%create_assignment_returns.
    split; [done|]. destruct w' as [dr tr ar]. unfold_services; simpl in *.
    by rewrite Hget.
  - intros k result. rewrite update_assignment_unfold.
    repeat case_match; simpl; intros; simplify_eq.
    match goal with
    | Hu : Repository.update _ _ _ = _, Hk : Repository.get_by_id k _ = Some _
      |- _ =>
        destruct (update_present k a _ (ex_intro _ _ Hk)) as (Hr & Hget & _);
        rewrite Hu in Hr, Hget; simpl in Hr, Hget
    end.
    split; [done|]. unfold_services; simpl. by rewrite Hget.
Qed.

Lemma get_assignment_after_create_or_update_witness :
  AssignmentService.get_assignment 1 example_world
  = (inr (Assignment.Build (Some 1) 1 1 example_date), example_world).
Proof.
  apply (proj1 (get_assignment_after_create_or_update
                  (perform_all
                     [CreateDriver example_driver; CreateTruck example_truck]
                     init_world)
                  example_world example_assignment)
           (Assignment.Build (Some 1) 1 1 example_date)).
  reflexivity.
Defined.

(** * Assignments of one date *)

Lemma wf_get_all_NoDup {E} `{EntityLaws E} (self : Repository.t E) :
  repository_wf self → NoDup (Repository.get_all self).
Proof.
  intros Hwf. apply (NoDup_fmap_1 get_id). rewrite wf_listed_ids by done.
  destruct Hwf as (Hnd & _). apply NoDup_fmap_2; [|done].
  by intros ?? [=].
Qed.

(** X13. [get_assignments_by_date d] never raises and leaves the stores as
    they are; it returns exactly the stored assignments dated [d], in listing
    order, and in a reachable state no two of them share a driver and no two
    share a truck. *)
Theorem assignments_of_a_date (w : World) (d : date) :
  reachable w →
  let listed := AssignmentRepository.find_by_date d (assignment_repository w) in
  AssignmentService.get_assignments_by_date d w = (inr listed, w)
  ∧ (∀ a, a ∈ listed ↔
          a ∈ Repository.get_all (assignment_repository w)
          ∧ Assignment.assignment_date a = d)
  ∧ listed `sublist_of` Repository.get_all (assignment_repository w)
  ∧ NoDup (Assignment.driver_id <$> listed)
  ∧ NoDup (Assignment.truck_id <$> listed).
Proof.
  intros (_ & _ & Hwf & Huniq)%reachable_inv; simpl.
  assert (Hmem : ∀ a,
    a ∈ AssignmentRepository.find_by_date d (assignment_repository w) ↔
    a ∈ Repository.get_all (assignment_repository w)
    ∧ Assignment.assignment_date a = d).
  { intros a. unfold AssignmentRepository.find_by_date.
    rewrite list_elem_of_filter. unfold Repository.get_all. tauto. }
  assert (Hnd : NoDup (AssignmentRepository.find_by_date d
                         (assignment_repository w))).
  { apply NoDup_filter. by apply (wf_get_all_NoDup (assignment_repository w)). }
  assert (Hsame : ∀ x y,
    x ∈ AssignmentRepository.find_by_date d (assignment_repository w) →
    y ∈ AssignmentRepository.find_by_date d (assignment_repository w) →
    Assignment.driver_id x = Assignment.driver_id y
    ∨ Assignment.truck_id x = Assignment.truck_id y → x = y).
  { intros x y [Hx Hdx]%Hmem [Hy Hdy]%Hmem Hxy.
    destruct (wf_value _ x Hwf Hx) as (kx & Hkx & _).
    destruct (wf_value _ y Hwf Hy) as (ky & Hky & _).
    assert (kx = ky) as -> by (apply (Huniq kx ky x y Hkx Hky); congruence).
    congruence. }
  split_and!.
  - destruct w as [dr tr ar]. by unfold_listings.
  - done.
  - apply sublist_filter.
  - apply NoDup_fmap_2_strong; [|done]. intros x y Hx Hy Hxy.
    apply Hsame; auto.
  - apply NoDup_fmap_2_strong; [|done]. intros x y Hx Hy Hxy.
    apply Hsame; auto.
Qed.

Lemma assignments_of_a_date_witness :
  AssignmentService.get_assignments_by_date example_date example_world
  = (inr (AssignmentRepository.find_by_date example_date
            (assignment_repository example_world)), example_world).
Proof.
  apply (assignments_of_a_date example_world example_date).
  apply perform_all_reachable, reachable_init.
Defined.

(** * More on the license hierarchy *)

(** X14. [can_operate] is a total order on the five categories: every
    category can operate itself, the relation is transitive and
    antisymmetric, of any two categories one can operate the other, E can
    operate every category and every category can operate A. *)
Theorem can_operate_total_order :
  (∀ x, LicenseType.can_operate x x = Some true)
  ∧ (∀ x y z, LicenseType.can_operate x y = Some true →
              LicenseType.can_operate y z = Some true →
              LicenseType.can_operate x z = Some true)
  ∧ (∀ x y, LicenseType.can_operate x y = Some true →
            LicenseType.can_operate y x = Some true → x = y)
  ∧ (∀ x y, LicenseType.can_operate x y = Some true
            ∨ LicenseType.can_operate y x = Some true)
  ∧ (∀ x, LicenseType.can_operate LicenseType.E x = Some true
          ∧ LicenseType.can_operate x LicenseType.A = Some true).
Proof.
  split_and!.
  - by intros [].
  - intros [] [] []; by vm_compute.
  - intros [] []; by vm_compute.
  - intros [] []; vm_compute; auto.
  - intros []; by vm_compute.
Qed.

Ltac pick_member :=
  first [ left; reflexivity | right; pick_member ].

(** X15. The two methods of [LicenseType] agree: [x] can operate a vehicle
    requiring [y] exactly when the value of [y] is in the set returned by
    [get_compatible_licenses] for [x]; that set always exists and contains
    the value of [x] itself. *)
Theorem can_operate_iff_compatible (x y : LicenseType.t) :
  ∃ s, LicenseType.get_compatible_licenses x = Some s
       ∧ LicenseType.value x ∈ s
       ∧ (LicenseType.can_operate x y = Some true ↔ LicenseType.value y ∈ s).
Proof.
  destruct x, y; (eexists; split; [reflexivity|]);
    rewrite !elem_of_list_to_set;
    match goal with
    | |- context [filter ?P ?l] =>
        let l' := eval vm_compute in (filter P l) in
        change (filter P l) with l'
    end; csimpl; rewrite ?elem_of_cons, elem_of_nil;
    (split; [pick_member|]); split.
  all: try (intros _; pick_member).
  all: try (by intros [=]).
  all: try (intros _; reflexivity).
  all: intros Hin; repeat (destruct Hin as [?|Hin]; [done|]).
  all: by apply elem_of_nil in Hin.
Qed.

(** * The assignment routes *)

Lemma create_assignment_raises (w w' : World) (a : Assignment.t) (e : Exception) :
  AssignmentService.create_assignment a w = (inl e, w') →
  w' = w
  ∧ (status_code e = Some 404 ∨ status_code e = Some 422
     ∨ status_code e = Some 409).
Proof.
  rewrite create_assignment_unfold.
  repeat case_match; simpl; intros; simplify_eq; (split; [done|]); auto;
    repeat match goal with
      | Hv : AssignmentService._validate_license_compatibility _ _ _
             = (inl _, _) |- _ => apply validate_raises in Hv as [-> _]
      | Hc : AssignmentService._check_driver_availability _ _ _ _
             = (inl _, _) |- _ => apply check_driver_errors in Hc as (? & _ & ->)
      | Hc : AssignmentService._check_truck_availability _ _ _ _
             = (inl _, _) |- _ => apply check_truck_errors in Hc as (? & _ & ->)
      end; simpl; auto.
Qed.

Lemma update_assignment_raises
    (w w' : World) (k : Z) (a : Assignment.t) (e : Exception) :
  AssignmentService.update_assignment k a w = (inl e, w') →
  w' = w
  ∧ (status_code e = Some 404 ∨ status_code e = Some 422
     ∨ status_code e = Some 409).
Proof.
  rewrite update_assignment_unfold.
  repeat case_match; simpl; intros; simplify_eq; (split; [done|]); auto;
    repeat match goal with
      | Hv : AssignmentService._validate_license_compatibility _ _ _
             = (inl _, _) |- _ => apply validate_raises in Hv as [-> _]
      | Hc : AssignmentService._check_driver_availability _ _ _ _
             = (inl _, _) |- _ => apply check_driver_errors in Hc as (? & _ & ->)
      | Hc : AssignmentService._check_truck_availability _ _ _ _
             = (inl _, _) |- _ => apply check_truck_errors in Hc as (? & _ & ->)
      end; simpl; auto.
Qed.

Lemma update_assignment_returns
    (w w' : World) (k : Z) (a : Assignment.t) (result : option Assignment.t) :
  AssignmentService.update_assignment k a w = (inr result, w') →
  result = Some (set_id (Some k) a)
  ∧ Repository.get_by_id k (assignment_repository w')
    = Some (set_id (Some k) a).
Proof.
  rewrite update_assignment_unfold.
  repeat case_match; simpl; intros; simplify_eq.
  match goal with
  | Hu : Repository.update _ _ _ = _, Hk : Repository.get_by_id k _ = Some _
    |- _ =>
      destruct (update_present k a _ (ex_intro _ _ Hk)) as (Hr & Hget & _);
      rewrite Hu in Hr, Hget; simpl in Hr, Hget
  end.
  done.
Qed.

(** X16. For a request with positive ids the routes [create_assignment]
    and [update_assignment] raise nothing but what the service raised, with
    the stores unchanged and a status of 404, 422 or 409: building the
    entity and the response never fails and [update] never hands back
    [None].  When they return, the response carries the request's driver,
    truck and date with the id assigned (the counter, respectively the id
    of the path), and the route [get_assignment] of that id then returns
    the same response. *)
Theorem assignment_routes_create_update (w : World) :
  (∀ request,
      AssignmentRoutes.create_driver_id request > 0 →
      AssignmentRoutes.create_truck_id request > 0 →
      let out := AssignmentRoutes.create_assignment request w in
      let n := Repository.next_id (assignment_repository w) in
      (∃ e, out = (inl (AssignmentRoutes.ServiceException e), w)
            ∧ (status_code e = Some 404 ∨ status_code e = Some 422
               ∨ status_code e = Some 409))
      ∨ (∃ w',
            out = (inr (AssignmentRoutes.BuildResponse n
                          (AssignmentRoutes.create_driver_id request)
                          (AssignmentRoutes.create_truck_id request)
                          (AssignmentRoutes.create_assignment_date request)), w')
            ∧ AssignmentRoutes.get_assignment n w' = out))
  ∧ (∀ k request,
        AssignmentRoutes.update_driver_id request > 0 →
        AssignmentRoutes.update_truck_id request > 0 →
        let out := AssignmentRoutes.update_assignment k request w in
        (∃ e, out = (inl (AssignmentRoutes.ServiceException e), w)
              ∧ (status_code e = Some 404 ∨ status_code e = Some 422
                 ∨ status_code e = Some 409))
        ∨ (∃ w',
              out = (inr (AssignmentRoutes.BuildResponse k
                            (AssignmentRoutes.update_driver_id request)
                            (AssignmentRoutes.update_truck_id request)
                            (AssignmentRoutes.update_assignment_date request)), w')
              ∧ AssignmentRoutes.get_assignment k w' = out)).
Proof.
  split.
  - intros [did tid d] Hd Ht; simpl in *.
    unfold AssignmentRoutes.create_assignment, AssignmentRoutes.new_Assignment.
    simpl. rewrite !bool_decide_eq_true_2 by done. simpl.
    destruct (AssignmentService.create_assignment _ w) as [[e|created] w'] eqn:Hs.
    + left. apply create_assignment_raises in Hs as [-> Hst]. by exists e.
    + right. apply create_assignment_returns in Hs as (_ & -> & Hget & _).
      exists w'. split; [done|].
      unfold AssignmentRoutes.get_assignment.
      destruct w' as [dr tr ar]. unfold_services; simpl in *. by rewrite Hget.
  - intros k [did tid d] Hd Ht; simpl in *.
    unfold AssignmentRoutes.update_assignment, AssignmentRoutes.new_Assignment.
    simpl. rewrite !bool_decide_eq_true_2 by done. simpl.
    destruct (AssignmentService.update_assignment _ _ w) as [[e|result] w']
      eqn:Hs.
    + left. apply update_assignment_raises in Hs as [-> Hst]. by exists e.
    + right. apply update_assignment_returns in Hs as (-> & Hget).
      exists w'. split; [done|].
      unfold AssignmentRoutes.get_assignment.
      destruct w' as [dr tr ar]. unfold_services; simpl in *. by rewrite Hget.
Qed.

Lemma assignment_routes_create_update_witness :
  (∃ e, AssignmentRoutes.create_assignment
          (AssignmentRoutes.BuildCreateRequest 1 1 example_date) example_world
        = (inl (AssignmentRoutes.ServiceException e), example_world)
        ∧ (status_code e = Some 404 ∨ status_code e = Some 422
           ∨ status_code e = Some 409))
  ∨ (∃ w',
        AssignmentRoutes.create_assignment
          (AssignmentRoutes.BuildCreateRequest 1 1 example_date) example_world
        = (inr (AssignmentRoutes.BuildResponse 2 1 1 example_date), w')
        ∧ AssignmentRoutes.get_assignment 2 w'
          = AssignmentRoutes.create_assignment
              (AssignmentRoutes.BuildCreateRequest 1 1 example_date)
              example_world).
Proof.
  apply (proj1 (assignment_routes_create_update example_world)
           (AssignmentRoutes.BuildCreateRequest 1 1 example_date)); simpl; lia.
Defined.

(** X17. In a reachable state the reading routes never fail to build a
    response: [get_assignments], with or without the date filter, returns
    one response per listed assignment, in order, each carrying the id and
    fields of its assignment, and leaves the stores as they are;
    [get_assignment] either raises the service's
    [ResourceNotFoundException] or returns the response whose id is the id
    asked for. *)
Theorem assignment_routes_read (w : World) :
  reachable w →
  (∀ filter,
      let listed :=
        match filter with
        | Some d => AssignmentRepository.find_by_date d (assignment_repository w)
        | None => Repository.get_all (assignment_repository w)
        end in
      ∃ responses,
        AssignmentRoutes.get_assignments filter w = (inr responses, w)
        ∧ Forall2
            (λ a r, Assignment.id a = Some (AssignmentRoutes.id r)
                    ∧ Assignment.driver_id a = AssignmentRoutes.driver_id r
                    ∧ Assignment.truck_id a = AssignmentRoutes.truck_id r
                    ∧ Assignment.assignment_date a
                      = AssignmentRoutes.assignment_date r)
            listed responses)
  ∧ (∀ i,
        AssignmentRoutes.get_assignment i w
        = (inl (AssignmentRoutes.ServiceException
                  (ResourceNotFoundException "Assignment" i)), w)
        ∨ ∃ r, AssignmentRoutes.get_assignment i w = (inr r, w)
               ∧ AssignmentRoutes.id r = i
               ∧ Repository.get_by_id i (assignment_repository w)
                 = Some (Assignment.Build (Some i)
                           (AssignmentRoutes.driver_id r)
                           (AssignmentRoutes.truck_id r)
                           (AssignmentRoutes.assignment_date r))).
Proof.
  intros (_ & _ & Hwf & _)%reachable_inv. split.
  - intros filter; simpl.
    set (listed := match filter with
                   | Some d => AssignmentRepository.find_by_date d
                                 (assignment_repository w)
                   | None => Repository.get_all (assignment_repository w)
                   end).
    assert (Hids : Forall (λ a, is_Some (Assignment.id a)) listed).
    { apply Forall_forall. intros a Hin.
      assert (a ∈ Repository.get_all (assignment_repository w)) as Hall.
      { destruct filter; [|done]. unfold listed in Hin.
        by apply list_elem_of_filter in Hin as [_ ?]. }
      destruct (wf_value _ a Hwf Hall) as (k & _ & Hk). by exists k. }
    assert (is_Some (mapM AssignmentRoutes.new_AssignmentResponse listed))
      as [responses Hmap].
    { apply mapM_is_Some. eapply Forall_impl; [exact Hids|].
      intros a [i Hi]. unfold AssignmentRoutes.new_AssignmentResponse.
      simpl. rewrite Hi. by eexists. }
    exists responses. split.
    + unfold AssignmentRoutes.get_assignments.
      destruct w as [dr tr ar]. destruct filter; unfold_listings; simpl in *;
        fold listed; by rewrite Hmap.
    + apply mapM_Some in Hmap. eapply Forall2_impl; [exact Hmap|].
      intros a r. unfold AssignmentRoutes.new_AssignmentResponse.
      destruct (Assignment.id a); intros; by simplify_eq.
  - intros i. unfold AssignmentRoutes.get_assignment.
    destruct (Repository.get_by_id i (assignment_repository w)) as [a|] eqn:Hget.
    + right. destruct (wf_get_by_id _ i a Hwf Hget) as [Hid _]. simpl in Hid.
      exists (AssignmentRoutes.BuildResponse i (Assignment.driver_id a)
                (Assignment.truck_id a) (Assignment.assignment_date a)).
      destruct w as [dr tr ar]. unfold_services; simpl in *. rewrite Hget.
      unfold AssignmentRoutes.respond, AssignmentRoutes.new_AssignmentResponse.
      rewrite Hid. simpl. split_and!; [done..|]. destruct a; simpl in *.
      by rewrite Hid.
    + left. destruct w as [dr tr ar]. unfold_services; simpl in *.
      by rewrite Hget.
Qed.

Lemma assignment_routes_read_witness :
  ∃ responses,
    AssignmentRoutes.get_assignments None example_world
    = (inr responses, example_world)
    ∧ Forall2
        (λ a r, Assignment.id a = Some (AssignmentRoutes.id r)
                ∧ Assignment.driver_id a = AssignmentRoutes.driver_id r
                ∧ Assignment.truck_id a = AssignmentRoutes.truck_id r
                ∧ Assignment.assignment_date a
                  = AssignmentRoutes.assignment_date r)
        (Repository.get_all (assignment_repository example_world)) responses.
Proof.
  refine (proj1 (assignment_routes_read example_world _) None).
  apply perform_all_reachable, reachable_init.
Defined.

(** * Lookups of the assignment repository *)

(** X18. [find_by_driver_and_date] returns a stored assignment of that
    driver on that date, and [None] exactly when there is none; in a
    reachable state what it returns is the only one, and it is stored under
    its own id. [find_by_truck_and_date] likewise for trucks. *)
Theorem find_by_driver_or_truck_and_date (w : World) (i : Z) (d : date) :
  reachable w →
  let self := assignment_repository w in
  (AssignmentRepository.find_by_driver_and_date i d self = None
   ↔ ∀ a, a ∈ Repository.get_all self →
          ¬ (Assignment.driver_id a = i ∧ Assignment.assignment_date a = d))
  ∧ (∀ ex, AssignmentRepository.find_by_driver_and_date i d self = Some ex →
           (∃ k, Assignment.id ex = Some k
                 ∧ Repository.get_by_id k self = Some ex)
           ∧ Assignment.driver_id ex = i ∧ Assignment.assignment_date ex = d
           ∧ ∀ a, a ∈ Repository.get_all self →
                  Assignment.driver_id a = i →
                  Assignment.assignment_date a = d → a = ex)
  ∧ (AssignmentRepository.find_by_truck_and_date i d self = None
     ↔ ∀ a, a ∈ Repository.get_all self →
            ¬ (Assignment.truck_id a = i ∧ Assignment.assignment_date a = d))
  ∧ (∀ ex, AssignmentRepository.find_by_truck_and_date i d self = Some ex →
           (∃ k, Assignment.id ex = Some k
                 ∧ Repository.get_by_id k self = Some ex)
           ∧ Assignment.truck_id ex = i ∧ Assignment.assignment_date ex = d
           ∧ ∀ a, a ∈ Repository.get_all self →
                  Assignment.truck_id a = i →
                  Assignment.assignment_date a = d → a = ex).
Proof.
  intros (_ & _ & Hwf & Huniq)%reachable_inv; simpl.
  assert (Hone : ∀ a ex,
    a ∈ Repository.get_all (assignment_repository w) →
    ex ∈ Repository.get_all (assignment_repository w) →
    Assignment.assignment_date a = Assignment.assignment_date ex →
    Assignment.driver_id a = Assignment.driver_id ex
    ∨ Assignment.truck_id a = Assignment.truck_id ex → a = ex).
  { intros a ex Ha Hex Hd Hdt.
    destruct (wf_value _ a Hwf Ha) as (ka & Hka & _).
    destruct (wf_value _ ex Hwf Hex) as (kx & Hkx & _).
    assert (ka = kx) as -> by (by apply (Huniq ka kx a ex Hka Hkx)).
    congruence. }
  split_and!.
  - split.
    + intros Hnone a Hin [Hi Hd].
      by eapply find_by_driver_and_date_None.
    + intros Hfree.
      destruct (AssignmentRepository.find_by_driver_and_date _ _ _) as [ex|]
        eqn:Hf; [|done].
      apply find_by_driver_and_date_Some in Hf as (Hin & Hi & Hd).
      by destruct (Hfree ex Hin).
  - intros ex (Hin & Hi & Hd)%find_by_driver_and_date_Some.
    destruct (wf_value _ ex Hwf Hin) as (k & Hk & Hid).
    split_and!; [by exists k|done..|].
    intros a Ha Hai Had. apply Hone; [done..|congruence|left; congruence].
  - split.
    + intros Hnone a Hin [Hi Hd].
      by eapply find_by_truck_and_date_None.
    + intros Hfree.
      destruct (AssignmentRepository.find_by_truck_and_date _ _ _) as [ex|]
        eqn:Hf; [|done].
      apply find_by_truck_and_date_Some in Hf as (Hin & Hi & Hd).
      by destruct (Hfree ex Hin).
  - intros ex (Hin & Hi & Hd)%find_by_truck_and_date_Some.
    destruct (wf_value _ ex Hwf Hin) as (k & Hk & Hid).
    split_and!; [by exists k|done..|].
    intros a Ha Hai Had. apply Hone; [done..|congruence|right; congruence].
Qed.

Lemma find_by_driver_or_truck_and_date_witness :
  AssignmentRepository.find_by_driver_and_date 2 example_date
    (assignment_repository example_world) = None
  ↔ ∀ a, a ∈ Repository.get_all (assignment_repository example_world) →
         ¬ (Assignment.driver_id a = 2
            ∧ Assignment.assignment_date a = example_date).
Proof.
  apply (find_by_driver_or_truck_and_date example_world 2 example_date).
  apply perform_all_reachable, reachable_init.
Defined.

(** * Deleted drivers and trucks *)

(** X19. Nothing ties an assignment to the life of its driver or truck:
    once [delete_driver i] has returned, every stored assignment is still
    returned by [get_assignment] as before, while [create_assignment] for
    driver [i] and [update_assignment] of a stored assignment to driver [i]
    raise [ResourceNotFoundException] for the driver. After [delete_truck i]
    the same holds with the truck, for a driver that exists. *)
Theorem deleted_driver_or_truck_blocks_assignment (w : World) (i : Z) :
  ((DriverService.delete_driver i w).1 = inr tt →
   let w' := (DriverService.delete_driver i w).2 in
   (∀ k, (AssignmentService.get_assignment k w').1
         = (AssignmentService.get_assignment k w).1)
   ∧ ∀ a, Assignment.driver_id a = i →
       AssignmentService.create_assignment a w'
       = (inl (ResourceNotFoundException "Driver" i), w')
       ∧ ∀ k, is_Some (Repository.get_by_id k (assignment_repository w)) →
              AssignmentService.update_assignment k a w'
              = (inl (ResourceNotFoundException "Driver" i), w'))
  ∧ ((TruckService.delete_truck i w).1 = inr tt →
     let w' := (TruckService.delete_truck i w).2 in
     (∀ k, (AssignmentService.get_assignment k w').1
           = (AssignmentService.get_assignment k w).1)
     ∧ ∀ a, Assignment.truck_id a = i →
         is_Some (Repository.get_by_id (Assignment.driver_id a)
                    (driver_repository w)) →
         AssignmentService.create_assignment a w'
         = (inl (ResourceNotFoundException "Truck" i), w')
         ∧ ∀ k, is_Some (Repository.get_by_id k (assignment_repository w)) →
                AssignmentService.update_assignment k a w'
                = (inl (ResourceNotFoundException "Truck" i), w')).
Proof.
  destruct w as [dr tr ar]. split.
  - unfold DriverService.delete_driver, bind, on_drivers; simpl.
    destruct (Repository.delete i dr) as [[] dr'] eqn:Hdel; simpl; [|done].
    intros _. apply delete_true in Hdel as ->. split.
    + intros k. unfold_services; simpl.
      by destruct (Repository.get_by_id k ar).
    + intros a <-. split.
      * rewrite create_assignment_unfold; simpl.
        by rewrite get_by_id_deleted.
      * intros k [old Hold]. rewrite update_assignment_unfold; simpl in *.
        by rewrite Hold, get_by_id_deleted.
  - unfold TruckService.delete_truck, bind, on_trucks; simpl.
    destruct (Repository.delete i tr) as [[] tr'] eqn:Hdel; simpl; [|done].
    intros _. apply delete_true in Hdel as ->. split.
    + intros k. unfold_services; simpl.
      by destruct (Repository.get_by_id k ar).
    + intros a <- [driver Hdriver]. split.
      * rewrite create_assignment_unfold; simpl in *.
        by rewrite Hdriver, get_by_id_deleted.
      * intros k [old Hold]. rewrite update_assignment_unfold; simpl in *.
        by rewrite Hold, Hdriver, get_by_id_deleted.
Qed.

Lemma deleted_driver_or_truck_blocks_assignment_witness :
  AssignmentService.update_assignment 1 example_assignment
    (DriverService.delete_driver 1 example_world).2
  = (inl (ResourceNotFoundException "Driver" 1),
     (DriverService.delete_driver 1 example_world).2).
Proof.
  apply (proj1 (deleted_driver_or_truck_blocks_assignment example_world 1));
    [reflexivity | reflexivity | by eexists].
Defined.

(** * Counters and membership *)

Lemma sorted_between_length (l : list Z) (lo hi : Z) :
  StronglySorted Z.lt l →
  Forall (λ k, lo < k < hi) l →
  Z.of_nat (length l) < hi - lo ∨ l = [].
Proof.
  revert lo. induction l as [|x l IH]; intros lo; [by right|].
  rewrite StronglySorted_cons, Forall_cons. intros [Hx Hs] [Hr Hall]. left.
  destruct (IH x Hs) as [Hlen| ->]; [|simpl length; lia|simpl; lia].
  apply Forall_forall. intros y Hy.
  pose proof (proj1 (Forall_forall _ _) Hx y Hy).
  pose proof (proj1 (Forall_forall _ _) Hall y Hy) as Hb. simpl in Hb. lia.
Qed.

Lemma wf_keys_range {E} `{Entity E} (self : Repository.t E) :
  repository_wf self →
  Forall (λ k, 0 < k < Repository.next_id self)
    (dict_keys (Repository.items self)).
Proof.
  intros (_ & _ & Hent). apply Forall_forall. intros k Hk.
  apply list_elem_of_fmap in Hk as ([k' e] & -> & Hin).
  by destruct (Hent k' e Hin).
Qed.

Lemma wf_sorted_count {E} `{Entity E} (self : Repository.t E) :
  repository_wf self →
  StronglySorted Z.lt (dict_keys (Repository.items self)) →
  Z.of_nat (length (Repository.get_all self)) < Repository.next_id self.
Proof.
  intros Hwf Hs. pose proof Hwf as (_ & Hpos & _).
  unfold Repository.get_all, dict_values. rewrite length_fmap.
  rewrite <- (length_fmap fst).
  destruct (sorted_between_length _ 0 (Repository.next_id self) Hs
              (wf_keys_range self Hwf)) as [Hlen|Hnil].
  - unfold dict_keys in *. lia.
  - unfold dict_keys in Hnil. rewrite Hnil. simpl. lia.
Qed.

Lemma repo_step_next_id {E} `{Entity E} (self self' : Repository.t E) :
  repo_step self self' →
  Repository.next_id self' = Repository.next_id self
  ∨ Repository.next_id self' = Repository.next_id self + 1.
Proof.
  intros [| | |]; [by left|by right| |].
  - left. unfold Repository.update. by destruct (negb _).
  - left. unfold Repository.delete. by destruct (dict_contains _ _).
Qed.

(** X20. A call moves each counter by zero or one, never back; and in a
    reachable state each store holds fewer entities than its counter, with
    [exists] answering [true] only for ids that are positive and below the
    counter, and exactly for the ids that [get_by_id] finds. *)
Theorem counters_bound_the_stores (c : Call) (w : World) :
  reachable w →
  let w' := perform c w in
  (Repository.next_id (driver_repository w')
     = Repository.next_id (driver_repository w)
   ∨ Repository.next_id (driver_repository w')
     = Repository.next_id (driver_repository w) + 1)
  ∧ (Repository.next_id (truck_repository w')
       = Repository.next_id (truck_repository w)
     ∨ Repository.next_id (truck_repository w')
       = Repository.next_id (truck_repository w) + 1)
  ∧ (Repository.next_id (assignment_repository w')
       = Repository.next_id (assignment_repository w)
     ∨ Repository.next_id (assignment_repository w')
       = Repository.next_id (assignment_repository w) + 1)
  ∧ Z.of_nat (length (Repository.get_all (driver_repository w)))
    < Repository.next_id (driver_repository w)
  ∧ Z.of_nat (length (Repository.get_all (truck_repository w)))
    < Repository.next_id (truck_repository w)
  ∧ Z.of_nat (length (Repository.get_all (assignment_repository w)))
    < Repository.next_id (assignment_repository w)
  ∧ (∀ i, (Repository.exists_ i (driver_repository w) = true
           ↔ is_Some (Repository.get_by_id i (driver_repository w)))
          ∧ (Repository.exists_ i (driver_repository w) = true →
             0 < i < Repository.next_id (driver_repository w)))
  ∧ (∀ i, (Repository.exists_ i (truck_repository w) = true
           ↔ is_Some (Repository.get_by_id i (truck_repository w)))
          ∧ (Repository.exists_ i (truck_repository w) = true →
             0 < i < Repository.next_id (truck_repository w))).
Proof.
  intros Hr; simpl.
  destruct (perform_repo_steps c w) as (Hsd & Hst & Hsa).
  destruct (reachable_keys_sorted w Hr) as (Hkd & Hkt & Hka).
  apply reachable_inv in Hr as (Hwd & Hwt & Hwa & _).
  split_and!.
  - by apply repo_step_next_id.
  - by apply repo_step_next_id.
  - by apply repo_step_next_id.
  - by apply wf_sorted_count.
  - by apply wf_sorted_count.
  - by apply wf_sorted_count.
  - intros i. unfold Repository.exists_. split; [apply dict_contains_true|].
    intros [e He]%dict_contains_true.
    by destruct (wf_get_by_id _ i e Hwd He).
  - intros i. unfold Repository.exists_. split; [apply dict_contains_true|].
    intros [e He]%dict_contains_true.
    by destruct (wf_get_by_id _ i e Hwt He).
Qed.

Lemma counters_bound_the_stores_witness :
  Z.of_nat (length (Repository.get_all (assignment_repository example_world)))
  < Repository.next_id (assignment_repository example_world).
Proof.
  destruct (counters_bound_the_stores (DeleteAssignment 1) example_world)
    as (_ & _ & _ & _ & _ & Hcount & _).
  - apply perform_all_reachable, reachable_init.
  - exact Hcount.
Defined.

(** * The stores with objects by reference *)

Module SharedFacts.
Import Shared.

Section repository.
Context {E : Type} `{EntityLaws E}.
Implicit Types (objects : list E) (self : Repository.t) (r : ref).

Lemma keys_wf_fresh self :
  keys_wf self → dict_get (Repository.next_id self) (Repository.items self) = None.
Proof.
  intros (_ & _ & Hk). destruct (dict_get _ _) as [r|] eqn:Hget; [|done].
  apply dict_get_entry, Hk in Hget. lia.
Qed.

Lemma keys_wf_stored self k r :
  keys_wf self → dict_get k (Repository.items self) = Some r →
  0 < k < Repository.next_id self.
Proof. intros (_ & _ & Hk) Hget. by eapply Hk, dict_get_entry. Qed.

Lemma keys_wf_create objects self r :
  keys_wf self → keys_wf (Repository.create r (objects, self)).2.2.
Proof.
  intros (Hnd & Hpos & Hk). split_and!; simpl.
  - by apply dict_set_NoDup.
  - lia.
  - intros k r' [?|Hin]%dict_set_entry; simplify_eq; [lia|].
    specialize (Hk k r' Hin). lia.
Qed.

Lemma keys_wf_update objects self i r :
  keys_wf self → keys_wf (Repository.update i r (objects, self)).2.2.
Proof.
  intros Hwf. unfold Repository.update.
  destruct (dict_contains i _) eqn:Hc; simpl; [|done].
  apply dict_contains_true in Hc as [old Hold].
  pose proof (keys_wf_stored self i old Hwf Hold).
  destruct Hwf as (Hnd & Hpos & Hk). split_and!; simpl.
  - by apply dict_set_NoDup.
  - done.
  - intros k r' [?|Hin]%dict_set_entry; simplify_eq; eauto.
Qed.

Lemma keys_wf_delete self i :
  keys_wf self → keys_wf (Repository.delete i self).2.
Proof.
  intros Hwf. unfold Repository.delete.
  destruct (dict_contains i _); simpl; [|done].
  destruct Hwf as (Hnd & Hpos & Hk). split_and!; simpl.
  - by apply dict_del_NoDup.
  - done.
  - intros k r' Hin%dict_del_entry. eauto.
Qed.

(** Putting object [r] under key [n] with [n] as its id. *)
Lemma ids_set_put objects self r n next :
  ids_set objects self →
  (r < length objects)%nat →
  0 < n < next → Repository.next_id self ≤ next →
  ids_set (alter (set_id (Some n)) r objects)
    (Repository.Build (dict_set n r (Repository.items self)) next).
Proof.
  intros Hids Hr Hn Hnext k r'; simpl. intros Hin.
  destruct (decide (r' = r)) as [->|Hne].
  - apply lookup_lt_is_Some in Hr as [e He].
    exists (set_id (Some n) e), n. rewrite list_lookup_alter_eq, He.
    by rewrite get_set_id.
  - apply dict_set_entry in Hin as [?|Hin]; [by simplify_eq|].
    destruct (Hids k r' Hin) as (e & j & He & Hj & Hrange).
    exists e, j. rewrite list_lookup_alter_ne by congruence.
    split_and!; (done || lia).
Qed.

Lemma ids_set_delete objects self i :
  ids_set objects self → ids_set objects (Repository.delete i self).2.
Proof.
  intros Hids. unfold Repository.delete.
  destruct (dict_contains i _); simpl; [|done].
  intros k r Hin%dict_del_entry. exact (Hids k r Hin).
Qed.

Lemma ids_set_new objects self e :
  ids_set objects self → ids_set (objects ++ [e]) self.
Proof.
  intros Hids k r Hin. destruct (Hids k r Hin) as (e' & j & He & Hj).
  exists e', j. split; [|done]. by apply lookup_app_l_Some.
Qed.

Lemma ids_are_keys_put objects self r n next :
  ids_are_keys objects self →
  (r < length objects)%nat →
  (∀ k, (k, r) ∈ Repository.items self → k = n) →
  ids_are_keys (alter (set_id (Some n)) r objects)
    (Repository.Build (dict_set n r (Repository.items self)) next).
Proof.
  intros Hids Hr Honly k r'; simpl. intros Hin.
  destruct (decide (r' = r)) as [->|Hne].
  - apply lookup_lt_is_Some in Hr as [e He].
    exists (set_id (Some n) e). rewrite list_lookup_alter_eq, He. split; [done|].
    rewrite get_set_id.
    apply dict_set_entry in Hin as [?|Hin]; [by simplify_eq|].
    by rewrite (Honly k Hin).
  - apply dict_set_entry in Hin as [?|Hin]; [by simplify_eq|].
    destruct (Hids k r' Hin) as (e & He & Hk).
    exists e. by rewrite list_lookup_alter_ne by congruence.
Qed.

Lemma ids_are_keys_delete objects self i :
  ids_are_keys objects self → ids_are_keys objects (Repository.delete i self).2.
Proof.
  intros Hids. unfold Repository.delete.
  destruct (dict_contains i _); simpl; [|done].
  intros k r Hin%dict_del_entry. exact (Hids k r Hin).
Qed.

Lemma ids_are_keys_new objects self e :
  ids_are_keys objects self → ids_are_keys (objects ++ [e]) self.
Proof.
  intros Hids k r Hin. destruct (Hids k r Hin) as (e' & He & Hj).
  exists e'. split; [|done]. by apply lookup_app_l_Some.
Qed.

Lemma pass_spec (o : Object E) objects r objects' :
  pass o objects = Some (r, objects') →
  (r < length objects')%nat
  ∧ (objects' = objects ∨ ∃ e, objects' = objects ++ [e] ∧ r = length objects).
Proof.
  destruct o as [e|r0]; simpl.
  - intros [= <- <-]. rewrite length_app; simpl. split; [lia|]. right. by exists e.
  - case_decide; intros [= <- <-]; auto.
Qed.

End repository.

Section assignments.
Implicit Types (w : World) (objects : list Assignment.t) (self : Repository.t).

Lemma find_driver_Some did d objects self ex :
  AssignmentRepository.find_by_driver_and_date did d objects self = Some ex →
  ex ∈ Repository.get_all self
  ∧ Assignment.driver_id (objects !!! ex) = did
  ∧ Assignment.assignment_date (objects !!! ex) = d.
Proof.
  unfold AssignmentRepository.find_by_driver_and_date.
  intros [Hin Hp]%find_some. apply list_elem_of_In in Hin.
  apply andb_prop in Hp as [?%bool_decide_eq_true ?%bool_decide_eq_true].
  done.
Qed.

Lemma find_driver_None did d objects self r :
  AssignmentRepository.find_by_driver_and_date did d objects self = None →
  r ∈ Repository.get_all self →
  Assignment.driver_id (objects !!! r) = did →
  Assignment.assignment_date (objects !!! r) = d → False.
Proof.
  unfold AssignmentRepository.find_by_driver_and_date.
  intros Hnone Hin%list_elem_of_In Hi Hd.
  pose proof (find_none _ _ Hnone r Hin) as Hp. simpl in Hp.
  by rewrite !bool_decide_eq_true_2 in Hp.
Qed.

Lemma find_truck_Some tid d objects self ex :
  AssignmentRepository.find_by_truck_and_date tid d objects self = Some ex →
  ex ∈ Repository.get_all self
  ∧ Assignment.truck_id (objects !!! ex) = tid
  ∧ Assignment.assignment_date (objects !!! ex) = d.
Proof.
  unfold AssignmentRepository.find_by_truck_and_date.
  intros [Hin Hp]%find_some. apply list_elem_of_In in Hin.
  apply andb_prop in Hp as [?%bool_decide_eq_true ?%bool_decide_eq_true].
  done.
Qed.

Lemma find_truck_None tid d objects self r :
  AssignmentRepository.find_by_truck_and_date tid d objects self = None →
  r ∈ Repository.get_all self →
  Assignment.truck_id (objects !!! r) = tid →
  Assignment.assignment_date (objects !!! r) = d → False.
Proof.
  unfold AssignmentRepository.find_by_truck_and_date.
  intros Hnone Hin%list_elem_of_In Hi Hd.
  pose proof (find_none _ _ Hnone r Hin) as Hp. simpl in Hp.
  by rewrite !bool_decide_eq_true_2 in Hp.
Qed.

(** A listed object is stored under a key, exists and carries that key. *)
Lemma listed_stored objects self r :
  keys_wf self → ids_are_keys objects self →
  r ∈ Repository.get_all self →
  ∃ k a, dict_get k (Repository.items self) = Some r
         ∧ objects !! r = Some a ∧ objects !!! r = a
         ∧ Assignment.id a = Some k.
Proof.
  intros (Hnd & _) Hids Hin.
  destruct (dict_value_get r _ Hnd Hin) as [k Hk].
  destruct (Hids k r (dict_get_entry _ _ _ Hk)) as (a & Ha & Hid).
  exists k, a. split_and!; try done. by apply list_lookup_total_correct.
Qed.

Lemma shared_check_driver_same did d excl w res w' :
  AssignmentService._check_driver_availability did d excl w = (res, w') →
  w' = w.
Proof.
  unfold AssignmentService._check_driver_availability, raise, ret.
  repeat case_match; congruence.
Qed.

Lemma shared_check_truck_same tid d excl w res w' :
  AssignmentService._check_truck_availability tid d excl w = (res, w') →
  w' = w.
Proof.
  unfold AssignmentService._check_truck_availability, raise, ret.
  repeat case_match; congruence.
Qed.

Lemma shared_validate_same x y w res w' :
  AssignmentService._validate_license_compatibility x y w = (res, w') →
  w' = w.
Proof.
  unfold AssignmentService._validate_license_compatibility, raise, ret.
  repeat case_match; congruence.
Qed.

(** A check that passes: whoever holds the driver (truck) on the date is
    the excluded assignment. *)
Lemma shared_check_driver_pass did d excl w w' :
  keys_wf (assignment_repository w) →
  ids_are_keys (assignments w) (assignment_repository w) →
  bookings_unique (assignments w) (assignment_repository w) →
  AssignmentService._check_driver_availability did d excl w = (inr tt, w') →
  ∀ k r a, dict_get k (Repository.items (assignment_repository w)) = Some r →
           assignments w !! r = Some a →
           Assignment.driver_id a = did → Assignment.assignment_date a = d →
           excl = Some k.
Proof.
  intros Hwf Hids Huniq.
  unfold AssignmentService._check_driver_availability, raise, ret, the_assignment.
  destruct (AssignmentRepository.find_by_driver_and_date _ _ _ _) as [ex|] eqn:Hf.
  - apply find_driver_Some in Hf as (Hin & Hi & Hd).
    destruct (listed_stored _ _ ex Hwf Hids Hin) as (kx & ax & Hkx & Hax & Htot & Hid).
    rewrite Htot in *.
    case_bool_decide as Hex; [done|]. intros _ k r a Hk Ha Hai Had.
    assert (k = kx) as ->
      by (apply (Huniq k kx r ex a ax Hk Hkx Ha Hax); [|left]; congruence).
    congruence.
  - intros _ k r a Hk Ha Hai Had. exfalso.
    eapply (find_driver_None _ _ _ _ r Hf).
    + by eapply dict_get_value.
    + by rewrite (list_lookup_total_correct _ _ _ Ha).
    + by rewrite (list_lookup_total_correct _ _ _ Ha).
Qed.

Lemma shared_check_truck_pass tid d excl w w' :
  keys_wf (assignment_repository w) →
  ids_are_keys (assignments w) (assignment_repository w) →
  bookings_unique (assignments w) (assignment_repository w) →
  AssignmentService._check_truck_availability tid d excl w = (inr tt, w') →
  ∀ k r a, dict_get k (Repository.items (assignment_repository w)) = Some r →
           assignments w !! r = Some a →
           Assignment.truck_id a = tid → Assignment.assignment_date a = d →
           excl = Some k.
Proof.
  intros Hwf Hids Huniq.
  unfold AssignmentService._check_truck_availability, raise, ret, the_assignment.
  destruct (AssignmentRepository.find_by_truck_and_date _ _ _ _) as [ex|] eqn:Hf.
  - apply find_truck_Some in Hf as (Hin & Hi & Hd).
    destruct (listed_stored _ _ ex Hwf Hids Hin) as (kx & ax & Hkx & Hax & Htot & Hid).
    rewrite Htot in *.
    case_bool_decide as Hex; [done|]. intros _ k r a Hk Ha Hai Had.
    assert (k = kx) as ->
      by (apply (Huniq k kx r ex a ax Hk Hkx Ha Hax); [|right]; congruence).
    congruence.
  - intros _ k r a Hk Ha Hai Had. exfalso.
    eapply (find_truck_None _ _ _ _ r Hf).
    + by eapply dict_get_value.
    + by rewrite (list_lookup_total_correct _ _ _ Ha).
    + by rewrite (list_lookup_total_correct _ _ _ Ha).
Qed.

(** With nothing excluded a stored match is reported. *)
Lemma shared_check_driver_conflict did d w r :
  keys_wf (assignment_repository w) →
  ids_are_keys (assignments w) (assignment_repository w) →
  r ∈ Repository.get_all (assignment_repository w) →
  Assignment.driver_id (assignments w !!! r) = did →
  Assignment.assignment_date (assignments w !!! r) = d →
  ∃ ex, ex ∈ Repository.get_all (assignment_repository w)
        ∧ Assignment.driver_id (assignments w !!! ex) = did
        ∧ Assignment.assignment_date (assignments w !!! ex) = d
        ∧ AssignmentService._check_driver_availability did d None w
          = (inl (ConflictException
                    (DriverAlreadyAssigned did
                       (Assignment.truck_id (assignments w !!! ex)) d)), w).
Proof.
  intros Hwf Hids Hin Hi Hd.
  unfold AssignmentService._check_driver_availability, raise, ret, the_assignment.
  destruct (AssignmentRepository.find_by_driver_and_date _ _ _ _) as [ex|] eqn:Hf.
  - pose proof Hf as (Hexin & Hexi & Hexd)%find_driver_Some.
    exists ex. split_and!; [done..|].
    destruct (listed_stored _ _ ex Hwf Hids Hexin) as (kx & ax & _ & _ & Htot & Hid).
    rewrite bool_decide_eq_true_2; [done | rewrite Htot; congruence].
  - exfalso. by eapply (find_driver_None _ _ _ _ r Hf).
Qed.

Lemma shared_check_truck_conflict tid d w r :
  keys_wf (assignment_repository w) →
  ids_are_keys (assignments w) (assignment_repository w) →
  r ∈ Repository.get_all (assignment_repository w) →
  Assignment.truck_id (assignments w !!! r) = tid →
  Assignment.assignment_date (assignments w !!! r) = d →
  ∃ ex, ex ∈ Repository.get_all (assignment_repository w)
        ∧ Assignment.truck_id (assignments w !!! ex) = tid
        ∧ Assignment.assignment_date (assignments w !!! ex) = d
        ∧ AssignmentService._check_truck_availability tid d None w
          = (inl (ConflictException
                    (TruckAlreadyAssigned tid
                       (Assignment.driver_id (assignments w !!! ex)) d)), w).
Proof.
  intros Hwf Hids Hin Hi Hd.
  unfold AssignmentService._check_truck_availability, raise, ret, the_assignment.
  destruct (AssignmentRepository.find_by_truck_and_date _ _ _ _) as [ex|] eqn:Hf.
  - pose proof Hf as (Hexin & Hexi & Hexd)%find_truck_Some.
    exists ex. split_and!; [done..|].
    destruct (listed_stored _ _ ex Hwf Hids Hexin) as (kx & ax & _ & _ & Htot & Hid).
    rewrite bool_decide_eq_true_2; [done | rewrite Htot; congruence].
  - exfalso. by eapply (find_truck_None _ _ _ _ r Hf).
Qed.

(** Storing object [r] under [n] keeps bookings unique when every stored
    assignment sharing the date and the driver, or the truck, of [r] sits
    under [n]; [r] itself counts when it is stored. *)
Lemma bookings_unique_put objects self r a n next :
  bookings_unique objects self →
  objects !! r = Some a →
  (∀ k r' a', dict_get k (Repository.items self) = Some r' →
              objects !! r' = Some a' →
              Assignment.assignment_date a' = Assignment.assignment_date a →
              Assignment.driver_id a' = Assignment.driver_id a
              ∨ Assignment.truck_id a' = Assignment.truck_id a →
              k = n) →
  bookings_unique (alter (set_id (Some n)) r objects)
    (Repository.Build (dict_set n r (Repository.items self)) next).
Proof.
  intros Huniq Ha Hfree.
  assert (Hold : ∀ k r' a', k ≠ n →
    dict_get k (Repository.items self) = Some r' →
    alter (set_id (Some n)) r objects !! r' = Some a' →
    objects !! r' = Some a').
  { intros k r' a' Hk Hget. destruct (decide (r = r')) as [<-|Hne].
    - destruct Hk. apply (Hfree k r a Hget Ha); auto.
    - by rewrite list_lookup_alter_ne. }
  assert (Hnew : ∀ a', alter (set_id (Some n)) r objects !! r = Some a' →
    Assignment.assignment_date a' = Assignment.assignment_date a
    ∧ Assignment.driver_id a' = Assignment.driver_id a
    ∧ Assignment.truck_id a' = Assignment.truck_id a).
  { intros a'. rewrite list_lookup_alter_eq, Ha. by intros [= <-]. }
  intros k1 k2 r1 r2 a1 a2; simpl. rewrite !dict_get_set.
  destruct (decide (n = k1)) as [<-|Hn1], (decide (n = k2)) as [<-|Hn2];
    intros H1 H2 Ha1 Ha2 Hd Hdt; simplify_eq; [done| | |].
  - apply Hnew in Ha1 as (Hd1 & Hi1 & Ht1).
    symmetry. apply (Hfree k2 r2 a2 H2); [by eapply Hold|congruence|].
    destruct Hdt; [left|right]; congruence.
  - apply Hnew in Ha2 as (Hd2 & Hi2 & Ht2).
    apply (Hfree k1 r1 a1 H1); [by eapply Hold|congruence|].
    destruct Hdt; [left|right]; congruence.
  - apply (Huniq k1 k2 r1 r2 a1 a2); eauto.
Qed.

Lemma bookings_unique_delete objects self i :
  bookings_unique objects self →
  bookings_unique objects (Repository.delete i self).2.
Proof.
  intros Huniq. unfold Repository.delete.
  destruct (dict_contains i _); simpl; [|done].
  intros k1 k2 r1 r2 a1 a2; simpl. rewrite !dict_get_del.
  destruct (decide (i = k1)), (decide (i = k2)); try done. apply Huniq.
Qed.

Lemma bookings_unique_new objects self e :
  ids_are_keys objects self →
  bookings_unique objects self → bookings_unique (objects ++ [e]) self.
Proof.
  intros Hids Huniq k1 k2 r1 r2 a1 a2 H1 H2 Ha1 Ha2.
  destruct (Hids k1 r1 (dict_get_entry _ _ _ H1)) as (b1 & Hb1 & _).
  destruct (Hids k2 r2 (dict_get_entry _ _ _ H2)) as (b2 & Hb2 & _).
  pose proof (lookup_app_l_Some _ [e] _ _ Hb1).
  pose proof (lookup_app_l_Some _ [e] _ _ Hb2).
  simplify_eq. by apply (Huniq k1 k2 r1 r2 a1 a2).
Qed.

End assignments.

Section calls.
Implicit Types (w : World) (r : ref).

Lemma shared_create_assignment_unfold r w :
  AssignmentService.create_assignment r w
  = let a := the_assignment r w in
    match Repository.get_by_id (Assignment.driver_id a) (driver_repository w) with
    | None =>
        (inl (ResourceNotFoundException "Driver" (Assignment.driver_id a)), w)
    | Some driver =>
    match Repository.get_by_id (Assignment.truck_id a) (truck_repository w) with
    | None =>
        (inl (ResourceNotFoundException "Truck" (Assignment.truck_id a)), w)
    | Some truck =>
    match AssignmentService._validate_license_compatibility
            (Driver.license_type (the_driver driver w))
            (Truck.minimum_license_type (the_truck truck w)) w with
    | (inl e, _) => (inl e, w)
    | (inr _, _) =>
    match AssignmentService._check_driver_availability
            (Assignment.driver_id a) (Assignment.assignment_date a) None w with
    | (inl e, _) => (inl e, w)
    | (inr _, _) =>
    match AssignmentService._check_truck_availability
            (Assignment.truck_id a) (Assignment.assignment_date a) None w with
    | (inl e, _) => (inl e, w)
    | (inr _, _) => on_assignments (Repository.create r) w
    end end end end end.
Proof.
  simpl. unfold AssignmentService.create_assignment, raise.
  destruct (Repository.get_by_id _ (driver_repository w)); [|done].
  destruct (Repository.get_by_id _ (truck_repository w)); [|done].
  unfold bind at 1.
  destruct (AssignmentService._validate_license_compatibility _ _ _)
    as [[e|[]] w1] eqn:Hv; apply shared_validate_same in Hv as ->; [done|].
  unfold bind at 1.
  destruct (AssignmentService._check_driver_availability _ _ _ _)
    as [[e|[]] w1] eqn:Hd; apply shared_check_driver_same in Hd as ->; [done|].
  unfold bind at 1.
  destruct (AssignmentService._check_truck_availability _ _ _ _)
    as [[e|[]] w1] eqn:Ht; apply shared_check_truck_same in Ht as ->; [done|].
  done.
Qed.

Lemma shared_update_assignment_unfold k r w :
  AssignmentService.update_assignment k r w
  = let a := the_assignment r w in
    match Repository.get_by_id k (assignment_repository w) with
    | None => (inl (ResourceNotFoundException "Assignment" k), w)
    | Some _ =>
    match Repository.get_by_id (Assignment.driver_id a) (driver_repository w) with
    | None =>
        (inl (ResourceNotFoundException "Driver" (Assignment.driver_id a)), w)
    | Some driver =>
    match Repository.get_by_id (Assignment.truck_id a) (truck_repository w) with
    | None =>
        (inl (ResourceNotFoundException "Truck" (Assignment.truck_id a)), w)
    | Some truck =>
    match AssignmentService._validate_license_compatibility
            (Driver.license_type (the_driver driver w))
            (Truck.minimum_license_type (the_truck truck w)) w with
    | (inl e, _) => (inl e, w)
    | (inr _, _) =>
    match AssignmentService._check_driver_availability
            (Assignment.driver_id a) (Assignment.assignment_date a) (Some k) w with
    | (inl e, _) => (inl e, w)
    | (inr _, _) =>
    match AssignmentService._check_truck_availability
            (Assignment.truck_id a) (Assignment.assignment_date a) (Some k) w with
    | (inl e, _) => (inl e, w)
    | (inr _, _) => on_assignments (Repository.update k r) w
    end end end end end end.
Proof.
  simpl. unfold AssignmentService.update_assignment, raise.
  destruct (Repository.get_by_id k (assignment_repository w)); [|done].
  destruct (Repository.get_by_id _ (driver_repository w)); [|done].
  destruct (Repository.get_by_id _ (truck_repository w)); [|done].
  unfold bind at 1.
  destruct (AssignmentService._validate_license_compatibility _ _ _)
    as [[e|[]] w1] eqn:Hv; apply shared_validate_same in Hv as ->; [done|].
  unfold bind at 1.
  destruct (AssignmentService._check_driver_availability _ _ _ _)
    as [[e|[]] w1] eqn:Hd; apply shared_check_driver_same in Hd as ->; [done|].
  unfold bind at 1.
  destruct (AssignmentService._check_truck_availability _ _ _ _)
    as [[e|[]] w1] eqn:Ht; apply shared_check_truck_same in Ht as ->; [done|].
  done.
Qed.

Lemma create_assignment_cases r w :
  let a := the_assignment r w in
  let n := Repository.next_id (assignment_repository w) in
  (∃ e, AssignmentService.create_assignment r w = (inl e, w))
  ∨ (AssignmentService._check_driver_availability
       (Assignment.driver_id a) (Assignment.assignment_date a) None w
     = (inr tt, w)
     ∧ AssignmentService._check_truck_availability
         (Assignment.truck_id a) (Assignment.assignment_date a) None w
       = (inr tt, w)
     ∧ AssignmentService.create_assignment r w
       = (inr r,
          MkWorld (drivers w) (trucks w)
            (alter (set_id (Some n)) r (assignments w))
            (driver_repository w) (truck_repository w)
            (Repository.Build
               (dict_set n r (Repository.items (assignment_repository w)))
               (n + 1)))).
Proof.
  intros a n. subst a n. rewrite shared_create_assignment_unfold. cbv zeta.
  destruct (Repository.get_by_id _ (driver_repository w)); [|left; by eexists].
  destruct (Repository.get_by_id _ (truck_repository w)); [|left; by eexists].
  destruct (AssignmentService._validate_license_compatibility _ _ _)
    as [[e|[]] w0]; [left; by eexists|].
  destruct (AssignmentService._check_driver_availability _ _ _ _)
    as [[e|[]] w1] eqn:Hd; pose proof (shared_check_driver_same _ _ _ _ _ _ Hd) as ->;
    [left; by eexists|].
  destruct (AssignmentService._check_truck_availability _ _ _ _)
    as [[e|[]] w2] eqn:Ht; pose proof (shared_check_truck_same _ _ _ _ _ _ Ht) as ->;
    [left; by eexists|].
  right. split_and!; [done|done|]. by destruct w.
Qed.

Lemma update_assignment_cases k r w :
  let a := the_assignment r w in
  (∃ e, AssignmentService.update_assignment k r w = (inl e, w))
  ∨ (is_Some (Repository.get_by_id k (assignment_repository w))
     ∧ AssignmentService._check_driver_availability
         (Assignment.driver_id a) (Assignment.assignment_date a) (Some k) w
       = (inr tt, w)
     ∧ AssignmentService._check_truck_availability
         (Assignment.truck_id a) (Assignment.assignment_date a) (Some k) w
       = (inr tt, w)
     ∧ AssignmentService.update_assignment k r w
       = (inr (Some r),
          MkWorld (drivers w) (trucks w)
            (alter (set_id (Some k)) r (assignments w))
            (driver_repository w) (truck_repository w)
            (Repository.Build
               (dict_set k r (Repository.items (assignment_repository w)))
               (Repository.next_id (assignment_repository w))))).
Proof.
  intros a. subst a. rewrite shared_update_assignment_unfold. cbv zeta.
  destruct (Repository.get_by_id k (assignment_repository w)) as [old|] eqn:Hk;
    [|left; by eexists].
  destruct (Repository.get_by_id _ (driver_repository w)); [|left; by eexists].
  destruct (Repository.get_by_id _ (truck_repository w)); [|left; by eexists].
  destruct (AssignmentService._validate_license_compatibility _ _ _)
    as [[e|[]] w0]; [left; by eexists|].
  destruct (AssignmentService._check_driver_availability _ _ _ _)
    as [[e|[]] w1] eqn:Hd; pose proof (shared_check_driver_same _ _ _ _ _ _ Hd) as ->;
    [left; by eexists|].
  destruct (AssignmentService._check_truck_availability _ _ _ _)
    as [[e|[]] w2] eqn:Ht; pose proof (shared_check_truck_same _ _ _ _ _ _ Ht) as ->;
    [left; by eexists|].
  right. split; [by eexists|]. split_and!; [done..|].
  destruct w as [ds ts objs dr tr ar]. unfold on_assignments, Repository.update.
  simpl in *. unfold Repository.get_by_id in Hk.
  assert (dict_contains k (Repository.items ar) = true) as ->
    by (apply dict_contains_true; eauto).
  done.
Qed.

Lemma shared_world_inv_intro ds ts objs dr tr ar :
  keys_wf dr → keys_wf tr → keys_wf ar →
  ids_set ds dr → ids_set ts tr → ids_are_keys objs ar →
  bookings_unique objs ar →
  world_inv (MkWorld ds ts objs dr tr ar).
Proof.
  intros Hd Ht Ha Hid Hit Hia Hu.
  exact (conj Hd (conj Ht (conj Ha (conj Hid (conj Hit (conj Hia Hu)))))).
Qed.

Lemma inv_new_driver w e :
  world_inv w → world_inv (with_drivers (drivers w ++ [e]) w).
Proof.
  intros (Hd & Ht & Ha & Hid & Hit & Hia & Hu). destruct w.
  apply shared_world_inv_intro; [assumption..| |assumption|assumption|assumption].
  by apply ids_set_new.
Qed.

Lemma inv_new_truck w e :
  world_inv w → world_inv (with_trucks (trucks w ++ [e]) w).
Proof.
  intros (Hd & Ht & Ha & Hid & Hit & Hia & Hu). destruct w.
  apply shared_world_inv_intro; [assumption..| |assumption|assumption].
  by apply ids_set_new.
Qed.

Lemma inv_new_assignment w e :
  world_inv w → world_inv (with_assignments (assignments w ++ [e]) w).
Proof.
  intros (Hd & Ht & Ha & Hid & Hit & Hia & Hu). destruct w.
  apply shared_world_inv_intro; [assumption..| |].
  - by apply ids_are_keys_new.
  - by apply bookings_unique_new.
Qed.

Lemma inv_create_driver w r :
  (r < length (drivers w))%nat →
  world_inv w → world_inv (DriverService.create_driver r w).2.
Proof.
  intros Hr (Hd & Ht & Ha & Hid & Hit & Hia & Hu).
  destruct w as [ds ts objs dr tr ar]; simpl in *.
  apply shared_world_inv_intro;
    [|assumption|assumption| |assumption|assumption|assumption].
  - exact (keys_wf_create ds dr r Hd).
  - destruct Hd as (_ & Hpos & _).
    exact (ids_set_put ds dr r (Repository.next_id dr)
             (Repository.next_id dr + 1) Hid Hr ltac:(lia) ltac:(lia)).
Qed.

Lemma inv_create_truck w r :
  (r < length (trucks w))%nat →
  world_inv w → world_inv (TruckService.create_truck r w).2.
Proof.
  intros Hr (Hd & Ht & Ha & Hid & Hit & Hia & Hu).
  destruct w as [ds ts objs dr tr ar]; simpl in *.
  apply shared_world_inv_intro;
    [assumption| |assumption|assumption| |assumption|assumption].
  - exact (keys_wf_create ts tr r Ht).
  - destruct Ht as (_ & Hpos & _).
    exact (ids_set_put ts tr r (Repository.next_id tr)
             (Repository.next_id tr + 1) Hit Hr ltac:(lia) ltac:(lia)).
Qed.

Lemma inv_update_driver w i r :
  (r < length (drivers w))%nat →
  world_inv w → world_inv (DriverService.update_driver i r w).2.
Proof.
  intros Hr (Hd & Ht & Ha & Hid & Hit & Hia & Hu).
  destruct w as [ds ts objs dr tr ar]; simpl in *.
  pose proof (keys_wf_update ds dr i r Hd) as Hwf.
  unfold DriverService.update_driver, bind, on_drivers, Repository.update in *.
  simpl in *.
  destruct (dict_contains i (Repository.items dr)) eqn:Hc; simpl in *;
    [|by apply shared_world_inv_intro].
  apply dict_contains_true in Hc as [old Hold].
  pose proof (keys_wf_stored dr i old Hd Hold).
  apply shared_world_inv_intro;
    [assumption|assumption|assumption| |assumption|assumption|assumption].
  exact (ids_set_put ds dr r i (Repository.next_id dr) Hid Hr
           ltac:(lia) ltac:(lia)).
Qed.

Lemma inv_update_truck w i r :
  (r < length (trucks w))%nat →
  world_inv w → world_inv (TruckService.update_truck i r w).2.
Proof.
  intros Hr (Hd & Ht & Ha & Hid & Hit & Hia & Hu).
  destruct w as [ds ts objs dr tr ar]; simpl in *.
  pose proof (keys_wf_update ts tr i r Ht) as Hwf.
  unfold TruckService.update_truck, bind, on_trucks, Repository.update in *.
  simpl in *.
  destruct (dict_contains i (Repository.items tr)) eqn:Hc; simpl in *;
    [|by apply shared_world_inv_intro].
  apply dict_contains_true in Hc as [old Hold].
  pose proof (keys_wf_stored tr i old Ht Hold).
  apply shared_world_inv_intro;
    [assumption|assumption|assumption|assumption| |assumption|assumption].
  exact (ids_set_put ts tr r i (Repository.next_id tr) Hit Hr
           ltac:(lia) ltac:(lia)).
Qed.

Lemma inv_delete w i :
  world_inv w →
  world_inv (DriverService.delete_driver i w).2
  ∧ world_inv (TruckService.delete_truck i w).2
  ∧ world_inv (AssignmentService.delete_assignment i w).2.
Proof.
  intros (Hd & Ht & Ha & Hid & Hit & Hia & Hu).
  destruct w as [ds ts objs dr tr ar]; simpl in *.
  unfold DriverService.delete_driver, TruckService.delete_truck,
    AssignmentService.delete_assignment, bind, on_drivers, on_trucks,
    on_assignments, on_dict; simpl.
  split_and!.
  - pose proof (keys_wf_delete dr i Hd). pose proof (ids_set_delete ds dr i Hid).
    destruct (Repository.delete i dr) as [[] ?]; simpl in *;
      apply shared_world_inv_intro; assumption.
  - pose proof (keys_wf_delete tr i Ht). pose proof (ids_set_delete ts tr i Hit).
    destruct (Repository.delete i tr) as [[] ?]; simpl in *;
      apply shared_world_inv_intro; assumption.
  - pose proof (keys_wf_delete ar i Ha).
    pose proof (ids_are_keys_delete objs ar i Hia).
    pose proof (bookings_unique_delete objs ar i Hu).
    destruct (Repository.delete i ar) as [[] ?]; simpl in *;
      apply shared_world_inv_intro; assumption.
Qed.

(** The step both assignment calls end with. *)
Lemma inv_put_assignment w r excl n next :
  world_inv w →
  (r < length (assignments w))%nat →
  keys_wf (Repository.Build
             (dict_set n r (Repository.items (assignment_repository w))) next) →
  (excl = Some n ∨ excl = None) →
  AssignmentService._check_driver_availability
    (Assignment.driver_id (the_assignment r w))
    (Assignment.assignment_date (the_assignment r w)) excl w = (inr tt, w) →
  AssignmentService._check_truck_availability
    (Assignment.truck_id (the_assignment r w))
    (Assignment.assignment_date (the_assignment r w)) excl w = (inr tt, w) →
  world_inv
    (MkWorld (drivers w) (trucks w)
       (alter (set_id (Some n)) r (assignments w))
       (driver_repository w) (truck_repository w)
       (Repository.Build
          (dict_set n r (Repository.items (assignment_repository w))) next)).
Proof.
  intros (Hd & Ht & Ha & Hid & Hit & Hia & Hu) Hr Hwf' Hexcl Hcd Hct.
  apply lookup_lt_is_Some in Hr as [a Hra].
  unfold the_assignment in *.
  rewrite (list_lookup_total_correct _ _ _ Hra) in Hcd, Hct.
  assert (Hfree : ∀ k r' a',
    dict_get k (Repository.items (assignment_repository w)) = Some r' →
    assignments w !! r' = Some a' →
    Assignment.assignment_date a' = Assignment.assignment_date a →
    Assignment.driver_id a' = Assignment.driver_id a
    ∨ Assignment.truck_id a' = Assignment.truck_id a →
    k = n).
  { intros k r' a' Hk Ha' Hdate [Hi|Hi].
    - pose proof (shared_check_driver_pass _ _ _ _ _ Ha Hia Hu Hcd k r' a' Hk Ha' Hi Hdate).
      destruct Hexcl; congruence.
    - pose proof (shared_check_truck_pass _ _ _ _ _ Ha Hia Hu Hct k r' a' Hk Ha' Hi Hdate).
      destruct Hexcl; congruence. }
  apply shared_world_inv_intro; [assumption..| |].
  - apply ids_are_keys_put; [done|by eapply lookup_lt_Some|].
    intros k Hin. destruct Ha as (Hnd & _).
    apply (Hfree k r a); auto. by apply dict_entry_get.
  - by eapply bookings_unique_put.
Qed.

Lemma inv_create_assignment w r :
  (r < length (assignments w))%nat →
  world_inv w → world_inv (AssignmentService.create_assignment r w).2.
Proof.
  intros Hr Hinv.
  destruct (create_assignment_cases r w) as [[e ->]|(Hcd & Hct & ->)]; [done|].
  simpl. eapply (inv_put_assignment w r None); eauto.
  destruct Hinv as (_ & _ & Ha & _).
  exact (keys_wf_create (assignments w) (assignment_repository w) r Ha).
Qed.

Lemma inv_update_assignment w k r :
  (r < length (assignments w))%nat →
  world_inv w → world_inv (AssignmentService.update_assignment k r w).2.
Proof.
  intros Hr Hinv.
  destruct (update_assignment_cases k r w)
    as [[e ->]|([old Hold] & Hcd & Hct & ->)]; [done|].
  simpl. eapply (inv_put_assignment w r (Some k)); eauto.
  destruct Hinv as (_ & _ & Ha & _).
  pose proof (keys_wf_update (assignments w) (assignment_repository w) k r Ha)
    as Hwf.
  unfold Repository.update in Hwf.
  assert (dict_contains k (Repository.items (assignment_repository w)) = true)
    as Hc by (apply dict_contains_true; eauto).
  by rewrite Hc in Hwf.
Qed.

Lemma shared_perform_inv c w : world_inv w → world_inv (perform c w).
Proof.
  intros Hinv.
  destruct c as [o|i o|i|o|i o|i|o|i o|i]; cbv beta iota delta [perform].
  - destruct (pass o (drivers w)) as [[r objs]|] eqn:Hp; [|done].
    apply pass_spec in Hp as [Hr [->|(e & -> & _)]].
    + destruct w. exact (inv_create_driver _ r Hr Hinv).
    + exact (inv_create_driver (with_drivers (drivers w ++ [e]) w) r Hr
               (inv_new_driver w e Hinv)).
  - destruct (pass o (drivers w)) as [[r objs]|] eqn:Hp; [|done].
    apply pass_spec in Hp as [Hr [->|(e & -> & _)]].
    + destruct w. exact (inv_update_driver _ i r Hr Hinv).
    + exact (inv_update_driver (with_drivers (drivers w ++ [e]) w) i r Hr
               (inv_new_driver w e Hinv)).
  - exact (proj1 (inv_delete w i Hinv)).
  - destruct (pass o (trucks w)) as [[r objs]|] eqn:Hp; [|done].
    apply pass_spec in Hp as [Hr [->|(e & -> & _)]].
    + destruct w. exact (inv_create_truck _ r Hr Hinv).
    + exact (inv_create_truck (with_trucks (trucks w ++ [e]) w) r Hr
               (inv_new_truck w e Hinv)).
  - destruct (pass o (trucks w)) as [[r objs]|] eqn:Hp; [|done].
    apply pass_spec in Hp as [Hr [->|(e & -> & _)]].
    + destruct w. exact (inv_update_truck _ i r Hr Hinv).
    + exact (inv_update_truck (with_trucks (trucks w ++ [e]) w) i r Hr
               (inv_new_truck w e Hinv)).
  - exact (proj1 (proj2 (inv_delete w i Hinv))).
  - destruct (pass o (assignments w)) as [[r objs]|] eqn:Hp; [|done].
    apply pass_spec in Hp as [Hr [->|(e & -> & _)]].
    + destruct w. exact (inv_create_assignment _ r Hr Hinv).
    + exact (inv_create_assignment (with_assignments (assignments w ++ [e]) w) r Hr
               (inv_new_assignment w e Hinv)).
  - destruct (pass o (assignments w)) as [[r objs]|] eqn:Hp; [|done].
    apply pass_spec in Hp as [Hr [->|(e & -> & _)]].
    + destruct w. exact (inv_update_assignment _ i r Hr Hinv).
    + exact (inv_update_assignment (with_assignments (assignments w ++ [e]) w) i r Hr
               (inv_new_assignment w e Hinv)).
  - exact (proj2 (proj2 (inv_delete w i Hinv))).
Qed.

Lemma shared_init_world_inv : world_inv init_world.
Proof.
  apply shared_world_inv_intro;
    try (split_and!; simpl; [apply NoDup_nil_2 | lia | by intros ?? ?%elem_of_nil]);
    try (by intros ?? ?%elem_of_nil).
  by intros k1 k2 r1 r2 a1 a2 ?.
Qed.

Lemma shared_reachable_inv w : reachable w → world_inv w.
Proof.
  induction 1 as [|c w _ IH]; [apply shared_init_world_inv | by apply shared_perform_inv].
Qed.

Lemma shared_perform_all_reachable cs w : reachable w → reachable (perform_all cs w).
Proof.
  revert w. induction cs as [|c cs IH]; simpl; intros w Hw; [done|].
  apply IH. by constructor.
Qed.

End calls.

Section unshared.
Implicit Types (w : World) (c : Call).

(** Driver calls touch drivers only, truck calls trucks only, assignment
    calls assignments only, objects included. *)
Lemma perform_frame c w :
  match c with
  | CreateDriver _ | UpdateDriver _ _ | DeleteDriver _ =>
      trucks (perform c w) = trucks w
      ∧ truck_repository (perform c w) = truck_repository w
      ∧ assignments (perform c w) = assignments w
      ∧ assignment_repository (perform c w) = assignment_repository w
  | CreateTruck _ | UpdateTruck _ _ | DeleteTruck _ =>
      drivers (perform c w) = drivers w
      ∧ driver_repository (perform c w) = driver_repository w
      ∧ assignments (perform c w) = assignments w
      ∧ assignment_repository (perform c w) = assignment_repository w
  | CreateAssignment _ | UpdateAssignment _ _ | DeleteAssignment _ =>
      drivers (perform c w) = drivers w
      ∧ driver_repository (perform c w) = driver_repository w
      ∧ trucks (perform c w) = trucks w
      ∧ truck_repository (perform c w) = truck_repository w
  end.
Proof.
  destruct c as [o|i o|i|o|i o|i|o|i o|i]; cbv beta iota delta [perform].
  - destruct (pass o (drivers w)) as [[r objs]|]; [|done]. by destruct w.
  - destruct (pass o (drivers w)) as [[r objs]|]; [|done]. destruct w.
    unfold DriverService.update_driver, bind, on_drivers, Repository.update; simpl.
    by destruct (negb _).
  - destruct w. unfold DriverService.delete_driver, bind, on_drivers, on_dict.
    simpl. by destruct (Repository.delete _ _) as [[] ?].
  - destruct (pass o (trucks w)) as [[r objs]|]; [|done]. by destruct w.
  - destruct (pass o (trucks w)) as [[r objs]|]; [|done]. destruct w.
    unfold TruckService.update_truck, bind, on_trucks, Repository.update; simpl.
    by destruct (negb _).
  - destruct w. unfold TruckService.delete_truck, bind, on_trucks, on_dict.
    simpl. by destruct (Repository.delete _ _) as [[] ?].
  - destruct (pass o (assignments w)) as [[r objs]|]; [|done].
    destruct (create_assignment_cases r (with_assignments objs w))
      as [[e ->]|(_ & _ & ->)]; by destruct w.
  - destruct (pass o (assignments w)) as [[r objs]|]; [|done].
    destruct (update_assignment_cases i r (with_assignments objs w))
      as [[e ->]|(_ & _ & _ & ->)]; by destruct w.
  - destruct w.
    unfold AssignmentService.delete_assignment, bind, on_assignments, on_dict.
    simpl. by destruct (Repository.delete _ _) as [[] ?].
Qed.

Section one_store.
Context {E : Type} `{EntityLaws E}.
Implicit Types (objects : list E) (self : Repository.t).

(** Storing an object that the store does not hold keeps ids equal to
    keys; so does storing a new object. *)
Lemma ids_are_keys_create objects self (o : Object E) r objects' :
  ids_are_keys objects self →
  pass o objects = Some (r, objects') →
  (∀ r0, o = Held r0 → r0 ∉ Repository.get_all self) →
  ids_are_keys (Repository.create r (objects', self)).2.1
    (Repository.create r (objects', self)).2.2.
Proof.
  intros Hids Hp Hun.
  assert (r ∉ Repository.get_all self) as Hr.
  { destruct o as [e|r0]; simpl in Hp.
    - simplify_eq. intros Hin.
      apply list_elem_of_fmap in Hin as ([k r'] & Heq & Hin).
      destruct (Hids k r' Hin) as (e' & He' & _).
      apply lookup_lt_Some in He'. simpl in Heq. lia.
    - case_decide; simplify_eq. by apply Hun. }
  pose proof (pass_spec o objects r objects' Hp) as [Hlt Hobjs].
  assert (ids_are_keys objects' self) as Hids'.
  { destruct Hobjs as [->|(e & -> & _)]; [done | by apply ids_are_keys_new]. }
  simpl. apply ids_are_keys_put; [done..|].
  intros k Hin. destruct Hr. apply list_elem_of_fmap. by exists (k, r).
Qed.

Lemma ids_are_keys_update objects self i (o : Object E) r objects' :
  ids_are_keys objects self →
  pass o objects = Some (r, objects') →
  (∀ r0, o = Held r0 → r0 ∉ Repository.get_all self) →
  ids_are_keys (Repository.update i r (objects', self)).2.1
    (Repository.update i r (objects', self)).2.2.
Proof.
  intros Hids Hp Hun.
  assert (r ∉ Repository.get_all self) as Hr.
  { destruct o as [e|r0]; simpl in Hp.
    - simplify_eq. intros Hin.
      apply list_elem_of_fmap in Hin as ([k r'] & Heq & Hin).
      destruct (Hids k r' Hin) as (e' & He' & _).
      apply lookup_lt_Some in He'. simpl in Heq. lia.
    - case_decide; simplify_eq. by apply Hun. }
  pose proof (pass_spec o objects r objects' Hp) as [Hlt Hobjs].
  assert (ids_are_keys objects' self) as Hids'.
  { destruct Hobjs as [->|(e & -> & _)]; [done | by apply ids_are_keys_new]. }
  unfold Repository.update. destruct (negb _); simpl; [done|].
  apply ids_are_keys_put; [done..|].
  intros k Hin. destruct Hr. apply list_elem_of_fmap. by exists (k, r).
Qed.

End one_store.

Lemma perform_unshared c w :
  unshared c w →
  ids_are_keys (drivers w) (driver_repository w) →
  ids_are_keys (trucks w) (truck_repository w) →
  ids_are_keys (drivers (perform c w)) (driver_repository (perform c w))
  ∧ ids_are_keys (trucks (perform c w)) (truck_repository (perform c w)).
Proof.
  intros Hun Hd Ht. pose proof (perform_frame c w) as Hf.
  destruct c as [o|i o|i|o|i o|i|o|i o|i];
    try (destruct Hf as (-> & -> & -> & ->); by split).
  - destruct Hf as (-> & -> & _). split; [|done].
    cbv beta iota delta [perform].
    destruct (pass o (drivers w)) as [[r objs]|] eqn:Hp; [|done].
    pose proof (ids_are_keys_create (drivers w) (driver_repository w) o r objs
                  Hd Hp) as Hc.
    destruct w; simpl in *. apply Hc. intros r0 ->. exact Hun.
  - destruct Hf as (-> & -> & _). split; [|done].
    cbv beta iota delta [perform].
    destruct (pass o (drivers w)) as [[r objs]|] eqn:Hp; [|done].
    pose proof (ids_are_keys_update (drivers w) (driver_repository w) i o r objs
                  Hd Hp) as Hc.
    destruct w; simpl in *.
    unfold DriverService.update_driver, bind, on_drivers, Repository.update in *.
    simpl in *.
    destruct (negb _); simpl in *; apply Hc; intros r0 ->; exact Hun.
  - destruct Hf as (-> & -> & _). split; [|done].
    cbv beta iota delta [perform].
    pose proof (ids_are_keys_delete (drivers w) (driver_repository w) i Hd).
    destruct w; simpl in *.
    unfold DriverService.delete_driver, bind, on_drivers, on_dict; simpl.
    by destruct (Repository.delete _ _) as [[] ?].
  - destruct Hf as (-> & -> & _). split; [done|].
    cbv beta iota delta [perform].
    destruct (pass o (trucks w)) as [[r objs]|] eqn:Hp; [|done].
    pose proof (ids_are_keys_create (trucks w) (truck_repository w) o r objs
                  Ht Hp) as Hc.
    destruct w; simpl in *. apply Hc. intros r0 ->. exact Hun.
  - destruct Hf as (-> & -> & _). split; [done|].
    cbv beta iota delta [perform].
    destruct (pass o (trucks w)) as [[r objs]|] eqn:Hp; [|done].
    pose proof (ids_are_keys_update (trucks w) (truck_repository w) i o r objs
                  Ht Hp) as Hc.
    destruct w; simpl in *.
    unfold TruckService.update_truck, bind, on_trucks, Repository.update in *.
    simpl in *.
    destruct (negb _); simpl in *; apply Hc; intros r0 ->; exact Hun.
  - destruct Hf as (-> & -> & _). split; [done|].
    cbv beta iota delta [perform].
    pose proof (ids_are_keys_delete (trucks w) (truck_repository w) i Ht).
    destruct w; simpl in *.
    unfold TruckService.delete_truck, bind, on_trucks, on_dict; simpl.
    by destruct (Repository.delete _ _) as [[] ?].
Qed.

Lemma reachable_unshared_ids w :
  reachable_unshared w →
  reachable w
  ∧ ids_are_keys (drivers w) (driver_repository w)
  ∧ ids_are_keys (trucks w) (truck_repository w).
Proof.
  induction 1 as [|c w _ (Hr & Hd & Ht) Hun].
  - split_and!; [constructor | by intros ?? ?%elem_of_nil..].
  - split; [by constructor|]. by apply perform_unshared.
Qed.

End unshared.

(** ** Ids and keys of the stored objects *)

Section stored_ids.
Implicit Types (w : World).

Lemma stored_assignment_conflicts w r :
  world_inv w →
  r ∈ Repository.get_all (assignment_repository w) →
  let a := the_assignment r w in
  is_Some (Assignment.id a)
  ∧ (∃ ex,
        ex ∈ Repository.get_all (assignment_repository w)
        ∧ AssignmentService._check_driver_availability
            (Assignment.driver_id a) (Assignment.assignment_date a) None w
          = (inl (ConflictException
                    (DriverAlreadyAssigned (Assignment.driver_id a)
                       (Assignment.truck_id (the_assignment ex w))
                       (Assignment.assignment_date a))), w))
  ∧ (∃ ex,
        ex ∈ Repository.get_all (assignment_repository w)
        ∧ AssignmentService._check_truck_availability
            (Assignment.truck_id a) (Assignment.assignment_date a) None w
          = (inl (ConflictException
                    (TruckAlreadyAssigned (Assignment.truck_id a)
                       (Assignment.driver_id (the_assignment ex w))
                       (Assignment.assignment_date a))), w)).
Proof.
  intros (_ & _ & Ha & _ & _ & Hia & _) Hin a. subst a. unfold the_assignment.
  split_and!.
  - destruct (listed_stored _ _ r Ha Hia Hin) as (k & a & _ & _ & -> & Hid).
    by exists k.
  - destruct (shared_check_driver_conflict _ _ w r Ha Hia Hin eq_refl eq_refl)
      as (ex & Hex & _ & _ & Hc). by exists ex.
  - destruct (shared_check_truck_conflict _ _ w r Ha Hia Hin eq_refl eq_refl)
      as (ex & Hex & _ & _ & Hc). by exists ex.
Qed.

End stored_ids.

(** [create_driver] given one object twice stores it under the keys 1 and 2;
    the object carries the id 2, so the entry under key 1 does not have its
    key as id and the listing shows the id 2 twice. *)
Lemma shared_object_id_differs_from_key :
  reachable shared_driver_world
  ∧ Repository.get_by_id 1 (driver_repository shared_driver_world) = Some 0%nat
  ∧ Driver.id (the_driver 0 shared_driver_world) = Some 2
  ∧ listed_ids (drivers shared_driver_world)
      (driver_repository shared_driver_world) = [Some 2; Some 2]
  ∧ ¬ ids_are_keys (drivers shared_driver_world)
        (driver_repository shared_driver_world).
Proof.
  split_and!; [|reflexivity..|].
  - apply shared_perform_all_reachable, reachable_init.
  - intros Hids. destruct (Hids 1 0%nat) as (e & He & Hid); [by left|].
    vm_compute in He. by simplify_eq.
Qed.

(** C10. In every state reached by calls of the services, whatever objects
    the calls are given: in each of the three stores every key is positive
    and below the counter, and every stored entity has an [id], one that is
    positive and below the counter; a stored assignment has the key it is
    stored under as its [id], and so has a stored driver or truck when no
    create or update call was given a driver or truck object that its store
    held at the time; and the availability checks of the create path (nothing
    excluded) raise a conflict for the driver and for the truck of every
    stored assignment on its date. *)
Theorem shared_reachable_ids (w : World) :
  reachable w →
  (keys_wf (driver_repository w)
   ∧ keys_wf (truck_repository w)
   ∧ keys_wf (assignment_repository w))
  ∧ (ids_set (drivers w) (driver_repository w)
     ∧ ids_set (trucks w) (truck_repository w)
     ∧ ids_are_keys (assignments w) (assignment_repository w))
  ∧ (reachable_unshared w →
     ids_are_keys (drivers w) (driver_repository w)
     ∧ ids_are_keys (trucks w) (truck_repository w))
  ∧ ∀ r, r ∈ Repository.get_all (assignment_repository w) →
      let a := the_assignment r w in
      is_Some (Assignment.id a)
      ∧ (∃ ex,
            ex ∈ Repository.get_all (assignment_repository w)
            ∧ AssignmentService._check_driver_availability
                (Assignment.driver_id a) (Assignment.assignment_date a) None w
              = (inl (ConflictException
                        (DriverAlreadyAssigned (Assignment.driver_id a)
                           (Assignment.truck_id (the_assignment ex w))
                           (Assignment.assignment_date a))), w))
      ∧ (∃ ex,
            ex ∈ Repository.get_all (assignment_repository w)
            ∧ AssignmentService._check_truck_availability
                (Assignment.truck_id a) (Assignment.assignment_date a) None w
              = (inl (ConflictException
                        (TruckAlreadyAssigned (Assignment.truck_id a)
                           (Assignment.driver_id (the_assignment ex w))
                           (Assignment.assignment_date a))), w)).
Proof.
  intros Hr. pose proof (shared_reachable_inv w Hr) as Hinv.
  pose proof Hinv as (Hd & Ht & Ha & Hid & Hit & Hia & _).
  split; [done|]. split; [done|]. split.
  - by intros (_ & ? & ?)%reachable_unshared_ids.
  - intros r Hin. exact (stored_assignment_conflicts w r Hinv Hin).
Qed.

Lemma shared_reachable_ids_witness :
  ids_are_keys (drivers example_world) (driver_repository example_world).
Proof.
  apply (shared_reachable_ids example_world).
  - apply shared_perform_all_reachable, reachable_init.
  - change (reachable_unshared
              (perform
                 (CreateAssignment
                    (New (Assignment.Build None 1 1 (Date 2025 11 10))))
                 (perform
                    (CreateTruck (New (Truck.Build None "ABC-1234" LicenseType.C)))
                    (perform
                       (CreateDriver
                          (New (Driver.Build None "John Doe" LicenseType.D)))
                       init_world)))).
    repeat (apply reachable_unshared_step; [|exact I]).
    apply reachable_unshared_init.
Defined.

(** ** What one call does to the objects and to the listing *)

Section set_id_facts.
Context {E : Type} `{EntityLaws E, Inhabited E}.
Implicit Types (objects : list E).


End set_id_facts.



(** X2. In a reachable state a create appends to the listing: after
    [create_driver] or [create_truck] the listing is the listing before
    followed by the object given, and no other object is changed (an object
    that was stored already is then listed twice and shows the new id in each
    place).  A [create_assignment] that returns was given an object that was
    not stored, returns that object, lists it last and changes no other. *)
Theorem shared_create_appends_to_listing (w : World) (d t a : ref) :
  reachable w →
  (Repository.get_all (driver_repository (DriverService.create_driver d w).2)
   = Repository.get_all (driver_repository w) ++ [d]
   ∧ ∀ r, r ≠ d →
       drivers (DriverService.create_driver d w).2 !! r = drivers w !! r)
  ∧ (Repository.get_all (truck_repository (TruckService.create_truck t w).2)
     = Repository.get_all (truck_repository w) ++ [t]
     ∧ ∀ r, r ≠ t →
         trucks (TruckService.create_truck t w).2 !! r = trucks w !! r)
  ∧ ∀ a' w',
      AssignmentService.create_assignment a w = (inr a', w') →
      a' = a
      ∧ (a ∉ Repository.get_all (assignment_repository w))
      ∧ Repository.get_all (assignment_repository w')
        = Repository.get_all (assignment_repository w) ++ [a]
      ∧ ∀ r, r ≠ a → assignments w' !! r = assignments w !! r.
Proof.
  intros (Hd & Ht & Ha & _ & _ & Hia & _)%shared_reachable_inv.
  split_and!.
  - destruct w; simpl in *. unfold Repository.get_all; simpl.
    apply dict_values_set_fresh. by apply keys_wf_fresh.
  - intros r Hr. destruct w; simpl. by apply list_lookup_alter_ne.
  - destruct w; simpl in *. unfold Repository.get_all; simpl.
    apply dict_values_set_fresh. by apply keys_wf_fresh.
  - intros r Hr. destruct w; simpl. by apply list_lookup_alter_ne.
  - intros a' w' Hc.
    destruct (create_assignment_cases a w) as [[e He]|(Hcd & _ & Hok)];
      [congruence|].
    rewrite Hok in Hc. simplify_eq. split; [done|]. split.
    { intros Hin.
      destruct (shared_check_driver_conflict _ _ w a' Ha Hia Hin eq_refl eq_refl)
        as (ex & _ & _ & _ & Hconf).
      unfold the_assignment in Hcd. congruence. }
    split.
    + unfold Repository.get_all; simpl.
      apply dict_values_set_fresh. by apply keys_wf_fresh.
    + intros r Hr. simpl. by apply list_lookup_alter_ne.
Qed.

Lemma shared_create_appends_to_listing_witness :
  Repository.get_all
    (driver_repository (DriverService.create_driver 0 example_world).2)
  = [0%nat; 0%nat].
Proof.
  apply (shared_create_appends_to_listing example_world 0 0 0).
  apply shared_perform_all_reachable, reachable_init.
Defined.



Section delete_stored.
Implicit Types (self : Repository.t).

Lemma delete_stored self i r :
  keys_wf self →
  Repository.get_by_id i self = Some r →
  (Repository.delete i self).1 = true
  ∧ Repository.items (Repository.delete i self).2
    = filter (λ kv, kv.1 ≠ i) (Repository.items self)
  ∧ S (length (Repository.get_all (Repository.delete i self).2))
    = length (Repository.get_all self)
  ∧ Repository.get_by_id i (Repository.delete i self).2 = None
  ∧ (∀ k, k ≠ i →
       Repository.get_by_id k (Repository.delete i self).2
       = Repository.get_by_id k self)
  ∧ Repository.next_id (Repository.delete i self).2 = Repository.next_id self.
Proof.
  intros [Hnd _]. unfold Repository.delete, Repository.get_by_id, dict_contains.
  intros Hget. rewrite Hget. simpl. split_and!; try done.
  - unfold Repository.get_all, dict_values. simpl. rewrite !length_fmap.
    by apply (dict_del_length i r).
  - by rewrite dict_get_del, decide_True.
  - intros k Hk. by rewrite dict_get_del, decide_False.
Qed.

End delete_stored.

(** X5. In a reachable state, deleting a stored id returns and takes exactly
    one entry off the listing of that store, the one under that key: the
    other entries keep their order, every other id holds the object it held,
    and no object and no counter is changed; for the three services.  An
    object that is stored under another key as well stays listed there. *)
Theorem shared_delete_removes_exactly_one (w : World) (i : Z) :
  reachable w →
  (∀ r, Repository.get_by_id i (driver_repository w) = Some r →
     ∃ w', DriverService.delete_driver i w = (inr tt, w')
       ∧ drivers w' = drivers w
       ∧ Repository.items (driver_repository w')
         = filter (λ kv, kv.1 ≠ i) (Repository.items (driver_repository w))
       ∧ S (length (Repository.get_all (driver_repository w')))
         = length (Repository.get_all (driver_repository w))
       ∧ Repository.get_by_id i (driver_repository w') = None
       ∧ (∀ k, k ≠ i →
            Repository.get_by_id k (driver_repository w')
            = Repository.get_by_id k (driver_repository w))
       ∧ Repository.next_id (driver_repository w')
         = Repository.next_id (driver_repository w))
  ∧ (∀ r, Repository.get_by_id i (truck_repository w) = Some r →
       ∃ w', TruckService.delete_truck i w = (inr tt, w')
         ∧ trucks w' = trucks w
         ∧ Repository.items (truck_repository w')
           = filter (λ kv, kv.1 ≠ i) (Repository.items (truck_repository w))
         ∧ S (length (Repository.get_all (truck_repository w')))
           = length (Repository.get_all (truck_repository w))
         ∧ Repository.get_by_id i (truck_repository w') = None
         ∧ (∀ k, k ≠ i →
              Repository.get_by_id k (truck_repository w')
              = Repository.get_by_id k (truck_repository w))
         ∧ Repository.next_id (truck_repository w')
           = Repository.next_id (truck_repository w))
  ∧ (∀ r, Repository.get_by_id i (assignment_repository w) = Some r →
       ∃ w', AssignmentService.delete_assignment i w = (inr tt, w')
         ∧ assignments w' = assignments w
         ∧ Repository.items (assignment_repository w')
           = filter (λ kv, kv.1 ≠ i)
               (Repository.items (assignment_repository w))
         ∧ S (length (Repository.get_all (assignment_repository w')))
           = length (Repository.get_all (assignment_repository w))
         ∧ Repository.get_by_id i (assignment_repository w') = None
         ∧ (∀ k, k ≠ i →
              Repository.get_by_id k (assignment_repository w')
              = Repository.get_by_id k (assignment_repository w))
         ∧ Repository.next_id (assignment_repository w')
           = Repository.next_id (assignment_repository w)).
Proof.
  intros (Hd & Ht & Ha & _)%shared_reachable_inv.
  destruct w as [ds ts objs dr tr ar]; simpl in *.
  unfold DriverService.delete_driver, TruckService.delete_truck,
    AssignmentService.delete_assignment, bind, on_drivers, on_trucks,
    on_assignments, on_dict; simpl.
  split_and!; intros r Hget.
  - destruct (delete_stored dr i r Hd Hget) as (Hb & Hrest).
    destruct (Repository.delete i dr) as [b self']; simpl in *. subst b.
    simpl. eexists. split; [reflexivity|]. simpl. by split.
  - destruct (delete_stored tr i r Ht Hget) as (Hb & Hrest).
    destruct (Repository.delete i tr) as [b self']; simpl in *. subst b.
    simpl. eexists. split; [reflexivity|]. simpl. by split.
  - destruct (delete_stored ar i r Ha Hget) as (Hb & Hrest).
    destruct (Repository.delete i ar) as [b self']; simpl in *. subst b.
    simpl. eexists. split; [reflexivity|]. simpl. by split.
Qed.

Lemma shared_delete_removes_exactly_one_witness :
  (AssignmentService.delete_assignment 3 listing_world).1 = inr tt.
Proof.
  destruct (shared_delete_removes_exactly_one listing_world 3)
    as (_ & _ & Hdel).
  - apply shared_perform_all_reachable, reachable_init.
  - destruct (Hdel 2%nat) as (w' & -> & _); reflexivity.
Defined.

(** ** Listings are in the order of the keys *)

Section key_order.
Implicit Types (self : Repository.t) (w : World).

Lemma keys_ascending_set_new self r :
  keys_wf self → keys_ascending self →
  keys_ascending
    (Repository.Build
       (dict_set (Repository.next_id self) r (Repository.items self))
       (Repository.next_id self + 1)).
Proof.
  intros Hwf Hs. unfold keys_ascending in *. simpl.
  rewrite dict_set_fresh by (by apply keys_wf_fresh).
  unfold dict_keys in *. rewrite fmap_app. csimpl.
  apply StronglySorted_app_2; [|done|repeat constructor].
  intros k1 k2 Hk1 ->%list_elem_of_singleton.
  apply list_elem_of_fmap in Hk1 as ([k r'] & -> & Hin).
  destruct Hwf as (_ & _ & Hkeys). destruct (Hkeys k r' Hin). simpl. lia.
Qed.

Lemma keys_ascending_set_old self i r next :
  is_Some (dict_get i (Repository.items self)) → keys_ascending self →
  keys_ascending
    (Repository.Build (dict_set i r (Repository.items self)) next).
Proof.
  intros Hi Hs. unfold keys_ascending in *. simpl.
  by rewrite dict_keys_set_present.
Qed.

Lemma keys_ascending_delete self i :
  keys_ascending self → keys_ascending (Repository.delete i self).2.
Proof.
  intros Hs. unfold keys_ascending, Repository.delete in *.
  destruct (dict_contains i _); simpl; [|done].
  rewrite dict_keys_del. by apply StronglySorted_filter_lt.
Qed.

Lemma perform_keys_ascending c w :
  world_inv w →
  keys_ascending (driver_repository w)
  ∧ keys_ascending (truck_repository w)
  ∧ keys_ascending (assignment_repository w) →
  keys_ascending (driver_repository (perform c w))
  ∧ keys_ascending (truck_repository (perform c w))
  ∧ keys_ascending (assignment_repository (perform c w)).
Proof.
  intros (Hwd & Hwt & Hwa & _) (Hd & Ht & Ha).
  pose proof (perform_frame c w) as Hf.
  destruct c as [o|i o|i|o|i o|i|o|i o|i];
    destruct Hf as (_ & Hf1 & _ & Hf2); rewrite Hf1, Hf2;
    (split; [|split]); try assumption;
    cbv beta iota delta [perform].
  - destruct (pass o (drivers w)) as [[r objs]|]; [|done].
    destruct w; simpl in *. by apply keys_ascending_set_new.
  - destruct (pass o (drivers w)) as [[r objs]|]; [|done].
    destruct w; simpl in *.
    unfold DriverService.update_driver, bind, on_drivers, Repository.update.
    simpl. destruct (dict_contains i _) eqn:Hc; simpl; [|done].
    apply keys_ascending_set_old; [|done]. by apply dict_contains_true.
  - pose proof (keys_ascending_delete (driver_repository w) i Hd).
    destruct w; simpl in *.
    unfold DriverService.delete_driver, bind, on_drivers, on_dict. simpl.
    by destruct (Repository.delete i _) as [[] ?].
  - destruct (pass o (trucks w)) as [[r objs]|]; [|done].
    destruct w; simpl in *. by apply keys_ascending_set_new.
  - destruct (pass o (trucks w)) as [[r objs]|]; [|done].
    destruct w; simpl in *.
    unfold TruckService.update_truck, bind, on_trucks, Repository.update.
    simpl. destruct (dict_contains i _) eqn:Hc; simpl; [|done].
    apply keys_ascending_set_old; [|done]. by apply dict_contains_true.
  - pose proof (keys_ascending_delete (truck_repository w) i Ht).
    destruct w; simpl in *.
    unfold TruckService.delete_truck, bind, on_trucks, on_dict. simpl.
    by destruct (Repository.delete i _) as [[] ?].
  - destruct (pass o (assignments w)) as [[r objs]|]; [|done].
    destruct (create_assignment_cases r (with_assignments objs w))
      as [[e ->]|(_ & _ & ->)]; destruct w; simpl in *; [done|].
    by apply keys_ascending_set_new.
  - destruct (pass o (assignments w)) as [[r objs]|]; [|done].
    destruct (update_assignment_cases i r (with_assignments objs w))
      as [[e ->]|(Hi & _ & _ & ->)]; destruct w; simpl in *; [done|].
    by apply keys_ascending_set_old.
  - pose proof (keys_ascending_delete (assignment_repository w) i Ha).
    destruct w; simpl in *.
    unfold AssignmentService.delete_assignment, bind, on_assignments, on_dict.
    simpl. by destruct (Repository.delete i _) as [[] ?].
Qed.

Lemma reachable_keys_ascending w :
  reachable w →
  keys_ascending (driver_repository w)
  ∧ keys_ascending (truck_repository w)
  ∧ keys_ascending (assignment_repository w).
Proof.
  induction 1 as [|c w Hr IH]; [repeat constructor|].
  apply perform_keys_ascending; [by apply shared_reachable_inv | done].
Qed.

Lemma ids_are_keys_listed {E} `{Entity E, Inhabited E}
    (objects : list E) self :
  ids_are_keys objects self →
  listed_ids objects self = Some <$> dict_keys (Repository.items self).
Proof.
  unfold ids_are_keys, listed_ids, Repository.get_all, dict_values, dict_keys,
    dict_items.
  induction (Repository.items self) as [|[k r] d IH]; intros Hids; csimpl;
    [done|].
  destruct (Hids k r) as (e & He & Hid); [left|].
  rewrite (list_lookup_total_correct _ _ _ He), Hid. f_equal.
  apply IH. intros ???. apply Hids. by right.
Qed.

End key_order.

(** X7. In every reachable state the keys of each store go strictly up
    along its listing: drivers, trucks and assignments are listed in the
    order in which their keys were handed out, whatever updates and deletions
    happened since.  The listed assignments show these keys as their ids, so
    strictly ascending ids; the listed drivers and trucks do so when no
    create or update call was given a driver or truck object that its store
    held at the time. *)
Theorem shared_listings_in_creation_order (w : World) :
  reachable w →
  (keys_ascending (driver_repository w)
   ∧ keys_ascending (truck_repository w)
   ∧ keys_ascending (assignment_repository w))
  ∧ listed_ids (assignments w) (assignment_repository w)
    = Some <$> dict_keys (Repository.items (assignment_repository w))
  ∧ (reachable_unshared w →
     listed_ids (drivers w) (driver_repository w)
     = Some <$> dict_keys (Repository.items (driver_repository w))
     ∧ listed_ids (trucks w) (truck_repository w)
       = Some <$> dict_keys (Repository.items (truck_repository w))).
Proof.
  intros Hr. split; [by apply reachable_keys_ascending|]. split.
  - apply ids_are_keys_listed.
    by destruct (shared_reachable_inv w Hr) as (_ & _ & _ & _ & _ & ? & _).
  - intros (_ & Hd & Ht)%reachable_unshared_ids.
    split; by apply ids_are_keys_listed.
Qed.

Lemma shared_listings_in_creation_order_witness :
  listed_ids (assignments listing_world) (assignment_repository listing_world)
  = [Some 1; Some 3].
Proof.
  destruct (shared_listings_in_creation_order listing_world) as (_ & -> & _).
  - apply shared_perform_all_reachable, reachable_init.
  - reflexivity.
Defined.

(** ** Bookings when objects are passed again *)

(** X21. Passing objects that are stored already does not break the booking
    rule.  In every state reached by calls of the services, whatever objects
    they are given, two stored assignments for one driver, or for one truck,
    on one date are one entry, and no assignment object is stored under two
    keys; a [create_assignment] that is given a stored assignment object
    raises and changes nothing. *)
Theorem shared_no_double_booking (w : World) :
  reachable w →
  bookings_unique (assignments w) (assignment_repository w)
  ∧ (∀ k1 k2 r,
       Repository.get_by_id k1 (assignment_repository w) = Some r →
       Repository.get_by_id k2 (assignment_repository w) = Some r →
       k1 = k2)
  ∧ (∀ r, r ∈ Repository.get_all (assignment_repository w) →
       ∃ e, AssignmentService.create_assignment r w = (inl e, w)).
Proof.
  intros (_ & _ & Ha & _ & _ & Hia & Hu)%shared_reachable_inv.
  split; [done|]. split.
  - intros k1 k2 r H1%dict_get_entry H2%dict_get_entry.
    destruct (Hia k1 r H1) as (e1 & He1 & Hid1).
    destruct (Hia k2 r H2) as (e2 & He2 & Hid2).
    simplify_eq. congruence.
  - intros r Hin.
    destruct (create_assignment_cases r w) as [He|(Hcd & _)]; [done|].
    destruct (shared_check_driver_conflict _ _ w r Ha Hia Hin eq_refl eq_refl)
      as (ex & _ & _ & _ & Hconf).
    unfold the_assignment in Hcd. congruence.
Qed.

Lemma shared_no_double_booking_witness :
  ∃ e, AssignmentService.create_assignment 2 listing_world
       = (inl e, listing_world).
Proof.
  apply (shared_no_double_booking listing_world).
  - apply shared_perform_all_reachable, reachable_init.
  - apply (bool_decide_unpack _). vm_compute. exact I.
Defined.

End SharedFacts.
